(** * simple-grapher: configuration resolution and style cycling

    A shallow embedding of [simple_grapher/core/config.py],
    [simple_grapher/core/data_processor.py],
    [simple_grapher/core/graph_builder.py] and the accessors of
    [simple_grapher/utils/yaml_parser.py], followed by the properties of
    the configuration round trip, the validation done by the dataclasses,
    the batch loader and the per-series style assignment. *)

From Stdlib Require Import String Ascii List ZArith QArith Bool Arith Lia.
Import ListNotations.
Close Scope Q_scope.
Open Scope string_scope.
Open Scope list_scope.

Set Warnings "-register-all".

(* ===================================================================== *)
(** ** Python values, exceptions and the exception monad                  *)
(* ===================================================================== *)

Module Py.

(** What [yaml.safe_load] produces, and what [Config.to_dict] returns: the
    [Dict[str, Any]] of the source.  A dictionary keeps its insertion
    order, and its keys are strings. *)
Inductive value : Type :=
| VNone
| VBool (b : bool)
| VInt (z : Z)
| VFloat (q : Q)
| VStr (s : string)
| VList (items : list value)
| VDict (entries : list (string * value)).

(** A Python [float] field also holds an [int] when the document says
    [line_width: 2]; the number is kept as it was written. *)
Inductive number : Type :=
| NInt (z : Z)
| NFloat (q : Q).

(** The [ValueError]s raised by the dataclasses of [config.py], by the
    message they carry. *)
Inductive config_error : Type :=
| InvalidMarker (marker : string)
| InvalidLineStyle (line_style : string)
| LineWidthNotPositive
| MarkerSizeNotPositive
| FileRequired
| InvalidFormat (format : string).

(** [IllTyped] is not a Python exception.  The annotations of the
    dataclasses are not enforced at run time; this development follows
    the annotations, and a leaf value of another type than the annotated
    one is outside of it.  [BackendError] stands for what the plotting
    backend raises when it cannot make or lay out a figure. *)
Inductive exn : Type :=
| ValueError (e : config_error)
| AttributeError
| IndexError
| ZeroDivisionError
| CyclerLengthError
| StopIteration
| BackendError
| IllTyped.

Inductive result (A : Type) : Type :=
| Ok (a : A)
| Raise (e : exn).
Arguments Ok {A} a.
Arguments Raise {A} e.

Definition bind {A B : Type} (c : result A) (k : A -> result B) : result B :=
  match c with
  | Ok a => k a
  | Raise e => Raise e
  end.

Fixpoint mapM {A B : Type} (f : A -> result B) (l : list A) : result (list B) :=
  match l with
  | [] => Ok []
  | x :: r =>
      bind (f x) (fun y => bind (mapM f r) (fun ys => Ok (y :: ys)))
  end.

(** [x in l] for a list of strings. *)
Definition str_in (x : string) (l : list string) : bool :=
  existsb (String.eqb x) l.

(** [d.get(key)] on the entries of a dictionary. *)
Fixpoint lookup (entries : list (string * value)) (key : string) : option value :=
  match entries with
  | [] => None
  | (k, v) :: rest => if String.eqb k key then Some v else lookup rest key
  end.

(** [v.get(key, default)].  Only a dictionary has [get]. *)
Definition get (v : value) (key : string) (default : value) : result value :=
  match v with
  | VDict entries =>
      match lookup entries key with
      | Some x => Ok x
      | None => Ok default
      end
  | _ => Raise AttributeError
  end.

(** Reading a value at the type its field is annotated with. *)
Definition as_str (v : value) : result string :=
  match v with VStr s => Ok s | _ => Raise IllTyped end.

Definition as_int (v : value) : result Z :=
  match v with VInt z => Ok z | _ => Raise IllTyped end.

Definition as_bool (v : value) : result bool :=
  match v with VBool b => Ok b | _ => Raise IllTyped end.

Definition as_number (v : value) : result number :=
  match v with
  | VInt z => Ok (NInt z)
  | VFloat q => Ok (NFloat q)
  | _ => Raise IllTyped
  end.

Definition as_opt_number (v : value) : result (option number) :=
  match v with
  | VNone => Ok None
  | VInt z => Ok (Some (NInt z))
  | VFloat q => Ok (Some (NFloat q))
  | _ => Raise IllTyped
  end.

Definition as_opt_str (v : value) : result (option string) :=
  match v with
  | VNone => Ok None
  | VStr s => Ok (Some s)
  | _ => Raise IllTyped
  end.

(** [bool(v)] *)
Definition truthy (v : value) : bool :=
  match v with
  | VNone => false
  | VBool b => b
  | VInt z => negb (z =? 0)%Z
  | VFloat q => negb (Qeq_bool q 0)
  | VStr s => negb (String.eqb s "")
  | VList l => match l with [] => false | _ => true end
  | VDict d => match d with [] => false | _ => true end
  end.

(** The label of a data source.  [add_source] replaces [None] and
    [DataSource.__post_init__] replaces whatever else is falsy ([""], [0],
    [False], an empty list or mapping), so a falsy label of any type is
    as good as none; a label that stays must be the string of the
    annotation. *)
Definition as_label (v : value) : result (option string) :=
  if truthy v then
    match v with VStr s => Ok (Some s) | _ => Raise IllTyped end
  else Ok None.

Definition as_list (v : value) : result (list value) :=
  match v with VList l => Ok l | _ => Raise IllTyped end.

Definition as_str_list (v : value) : result (list string) :=
  bind (as_list v) (mapM as_str).

(** The way back, used by [to_dict]. *)
Definition of_number (n : number) : value :=
  match n with NInt z => VInt z | NFloat q => VFloat q end.

Definition of_opt_number (n : option number) : value :=
  match n with None => VNone | Some x => of_number x end.

Definition of_str_list (l : list string) : value := VList (map VStr l).

(** [n <= 0] *)
Definition number_le0 (n : number) : bool :=
  match n with
  | NInt z => (z <=? 0)%Z
  | NFloat q => Qle_bool q 0
  end.

(** [s.lower()] on the ASCII letters.  No character outside ASCII
    lowers to a letter of the format names this is used for. *)
Definition lower_ascii (c : ascii) : ascii :=
  let n := nat_of_ascii c in
  if ((65 <=? n) && (n <=? 90))%nat then ascii_of_nat (n + 32) else c.

Fixpoint lower (s : string) : string :=
  match s with
  | EmptyString => EmptyString
  | String c r => String (lower_ascii c) (lower r)
  end.

(** *** [pathlib.Path(p).stem] for POSIX paths *)

Fixpoint split_on (sep : ascii) (s : string) : list string :=
  match s with
  | EmptyString => [EmptyString]
  | String c r =>
      if Ascii.eqb c sep then EmptyString :: split_on sep r
      else match split_on sep r with
           | [] => [String c EmptyString]
           | h :: t => String c h :: t
           end
  end.

(** The components of a path: empty ones and ["."] are dropped. *)
Definition parts (p : string) : list string :=
  filter (fun c => negb (String.eqb c "" || String.eqb c "."))
         (split_on "/"%char p).

(** [Path(p).name]: the last component, or [""] when there is none. *)
Definition name (p : string) : string := last (parts p) "".

(** [s.rfind(".")], counted from [i]. *)
Fixpoint rfind_dot (s : string) (i : nat) : option nat :=
  match s with
  | EmptyString => None
  | String c r =>
      match rfind_dot r (S i) with
      | Some j => Some j
      | None => if Ascii.eqb c "."%char then Some i else None
      end
  end.

(** [Path(p).stem]: the name without its last suffix; a leading or a
    trailing dot starts no suffix. *)
Definition stem (p : string) : string :=
  let n := name p in
  match rfind_dot n 0 with
  | Some i =>
      if ((0 <? i) && (i <? String.length n - 1))%nat then substring 0 i n
      else n
  | None => n
  end.

End Py.

Import Py.

Declare Scope py_scope.
Notation "x <- c ;; k" := (bind c (fun x => k))
  (at level 61, c at next level, right associativity) : py_scope.
Open Scope py_scope.

(* ===================================================================== *)
(** ** [core/config.py]                                                   *)
(* ===================================================================== *)

Module Config.

Record FontsConfig : Type := mkFontsConfig {
  title_size : Z;
  label_size : Z;
  legend_size : Z
}.

Record GridConfig : Type := mkGridConfig {
  show : bool
}.

Record LineStyleConfig : Type := mkLineStyleConfig {
  markers : list string;
  line_styles : list string;
  auto_cycle : bool;
  line_width : number;
  marker_size : number
}.

Record StyleConfig : Type := mkStyleConfig {
  width : Z;
  height : Z;
  fonts : FontsConfig;
  grid : GridConfig;
  line_style : LineStyleConfig
}.

Record AxisConfig : Type := mkAxisConfig {
  axis_label : string;
  axis_min : option number;
  axis_max : option number
}.

Record GraphConfig : Type := mkGraphConfig {
  title : string;
  x_axis : AxisConfig;
  y_axis : AxisConfig;
  style : StyleConfig
}.

Record DataSource : Type := mkDataSource {
  file : string;
  label : string
}.

Record DataConfig : Type := mkDataConfig {
  sources : list DataSource
}.

Record OutputConfig : Type := mkOutputConfig {
  format : string;
  dpi : Z;
  save_path : string
}.

Record Config : Type := mkConfig {
  graph : GraphConfig;
  data : DataConfig;
  output : OutputConfig
}.

(** *** The defaults of the dataclass fields *)

Definition FontsConfig_default : FontsConfig :=
  {| title_size := 16; label_size := 12; legend_size := 10 |}.

Definition GridConfig_default : GridConfig := {| show := true |}.

(** [markers]: "Default to no markers (empty list means no markers)";
    [line_styles]: "Default to solid lines only". *)
Definition LineStyleConfig_default : LineStyleConfig :=
  {| markers := [];
     line_styles := ["-"];
     auto_cycle := true;
     line_width := NFloat 2;
     marker_size := NFloat 6 |}.

Definition StyleConfig_default : StyleConfig :=
  {| width := 10;
     height := 10;
     fonts := FontsConfig_default;
     grid := GridConfig_default;
     line_style := LineStyleConfig_default |}.

Definition AxisConfig_default : AxisConfig :=
  {| axis_label := ""; axis_min := None; axis_max := None |}.

Definition GraphConfig_default : GraphConfig :=
  {| title := "";
     x_axis := AxisConfig_default;
     y_axis := AxisConfig_default;
     style := StyleConfig_default |}.

Definition DataConfig_default : DataConfig := {| sources := [] |}.

Definition OutputConfig_default : OutputConfig :=
  {| format := "png"; dpi := 300; save_path := "./output/graph.png" |}.

(** [Config()] *)
Definition Config_default : Config :=
  {| graph := GraphConfig_default;
     data := DataConfig_default;
     output := OutputConfig_default |}.

(** *** [LineStyleConfig.__post_init__] *)

Definition valid_markers : list string :=
  ["o"; "s"; "^"; "v"; "<"; ">"; "p"; "*"; "+"; "x"; "D"; "h"; "H";
   "1"; "2"; "3"; "4"; "|"; "_"; "."; ","].

Definition valid_line_styles : list string := ["-"; "--"; "-."; ":"].

(** [for x in xs: if x not in valid: raise ValueError(...)] *)
Fixpoint check_each (valid : list string) (err : string -> config_error)
    (xs : list string) : result unit :=
  match xs with
  | [] => Ok tt
  | x :: rest =>
      if str_in x valid then check_each valid err rest
      else Raise (ValueError (err x))
  end.

Definition LineStyleConfig_post_init (self : LineStyleConfig)
  : result LineStyleConfig :=
  _ <- check_each valid_markers InvalidMarker self.(markers) ;;
  _ <- check_each valid_line_styles InvalidLineStyle self.(line_styles) ;;
  if number_le0 self.(line_width) then Raise (ValueError LineWidthNotPositive)
  else if number_le0 self.(marker_size)
       then Raise (ValueError MarkerSizeNotPositive)
       else Ok self.

(** [LineStyleConfig(markers=..., line_styles=..., ...)] *)
Definition LineStyleConfig_new (markers line_styles : list string)
    (auto_cycle : bool) (line_width marker_size : number)
  : result LineStyleConfig :=
  LineStyleConfig_post_init
    (mkLineStyleConfig markers line_styles auto_cycle line_width marker_size).

(** *** [DataSource.__post_init__] and [DataConfig.add_source] *)

Definition DataSource_post_init (self : DataSource) : result DataSource :=
  if String.eqb self.(file) "" then Raise (ValueError FileRequired)
  else if String.eqb self.(label) ""
       then Ok {| file := self.(file); label := stem self.(file) |}
       else Ok self.

Definition DataSource_new (file label : string) : result DataSource :=
  DataSource_post_init (mkDataSource file label).

Definition add_source (self : DataConfig) (file : string)
    (label : option string) : result DataConfig :=
  let label := match label with None => stem file | Some l => l end in
  src <- DataSource_new file label ;;
  Ok {| sources := self.(sources) ++ [src] |}.

(** *** [OutputConfig.__post_init__] *)

Definition valid_formats : list string := ["png"; "jpg"; "jpeg"; "svg"; "pdf"].

Definition OutputConfig_post_init (self : OutputConfig) : result OutputConfig :=
  if negb (str_in (lower self.(format)) valid_formats)
  then Raise (ValueError (InvalidFormat self.(format)))
  else Ok self.

Definition OutputConfig_new (format : string) (dpi : Z) (save_path : string)
  : result OutputConfig :=
  OutputConfig_post_init (mkOutputConfig format dpi save_path).

(** *** [Config.from_dict] *)

(** [v.get(k1, {}).get(k2, {}) ... .get(kn, default)] *)
Fixpoint get_path (v : value) (path : list string) (default : value)
  : result value :=
  match path with
  | [] => Ok v
  | [k] => get v k default
  | k :: rest => v' <- get v k (VDict []) ;; get_path v' rest default
  end.

(** The same, read at the type of the field it is passed to. *)
Definition field {A : Type} (conv : value -> result A) (v : value)
    (path : list string) (default : value) : result A :=
  x <- get_path v path default ;; conv x.

(** The fallbacks [from_dict] passes to [get] for the two style
    sequences. *)
Definition from_dict_markers : list string :=
  ["o"; "s"; "^"; "v"; "<"; ">"; "p"; "*"; "+"; "x"; "D"; "h"].

Definition from_dict_line_styles : list string := ["-"; "--"; "-."; ":"].

Definition from_dict_axis (graph_data : value) (axis : string)
  : result AxisConfig :=
  label <- field as_str graph_data [axis; "label"] (VStr "") ;;
  min <- field as_opt_number graph_data [axis; "min"] VNone ;;
  max <- field as_opt_number graph_data [axis; "max"] VNone ;;
  Ok (mkAxisConfig label min max).

Definition from_dict_fonts (graph_data : value) : result FontsConfig :=
  title_size <- field as_int graph_data ["style"; "fonts"; "title_size"] (VInt 16) ;;
  label_size <- field as_int graph_data ["style"; "fonts"; "label_size"] (VInt 12) ;;
  legend_size <- field as_int graph_data ["style"; "fonts"; "legend_size"] (VInt 10) ;;
  Ok (mkFontsConfig title_size label_size legend_size).

Definition from_dict_grid (graph_data : value) : result GridConfig :=
  show <- field as_bool graph_data ["style"; "grid"; "show"] (VBool true) ;;
  Ok (mkGridConfig show).

Definition from_dict_line_style (graph_data : value) : result LineStyleConfig :=
  markers <- field as_str_list graph_data ["style"; "line_style"; "markers"]
               (of_str_list from_dict_markers) ;;
  line_styles <- field as_str_list graph_data
                   ["style"; "line_style"; "line_styles"]
                   (of_str_list from_dict_line_styles) ;;
  auto_cycle <- field as_bool graph_data ["style"; "line_style"; "auto_cycle"]
                  (VBool true) ;;
  line_width <- field as_number graph_data ["style"; "line_style"; "line_width"]
                  (VFloat 2) ;;
  marker_size <- field as_number graph_data
                   ["style"; "line_style"; "marker_size"] (VFloat 6) ;;
  LineStyleConfig_new markers line_styles auto_cycle line_width marker_size.

Definition from_dict_style (graph_data : value) : result StyleConfig :=
  width <- field as_int graph_data ["style"; "width"] (VInt 10) ;;
  height <- field as_int graph_data ["style"; "height"] (VInt 10) ;;
  fonts <- from_dict_fonts graph_data ;;
  grid <- from_dict_grid graph_data ;;
  line_style <- from_dict_line_style graph_data ;;
  Ok (mkStyleConfig width height fonts grid line_style).

Definition from_dict_graph (data : value) : result GraphConfig :=
  graph_data <- get data "graph" (VDict []) ;;
  title <- field as_str graph_data ["title"] (VStr "") ;;
  x_axis <- from_dict_axis graph_data "x_axis" ;;
  y_axis <- from_dict_axis graph_data "y_axis" ;;
  style <- from_dict_style graph_data ;;
  Ok (mkGraphConfig title x_axis y_axis style).

(** [for source_data in data_sources: data_config.add_source(...)] *)
Fixpoint from_dict_sources (data_config : DataConfig)
    (data_sources : list value) : result DataConfig :=
  match data_sources with
  | [] => Ok data_config
  | source_data :: rest =>
      file <- field as_str source_data ["file"] (VStr "") ;;
      label <- field as_label source_data ["label"] VNone ;;
      data_config' <- add_source data_config file label ;;
      from_dict_sources data_config' rest
  end.

Definition from_dict_data (data : value) : result DataConfig :=
  data_sources <- field as_list data ["data"; "sources"] (VList []) ;;
  from_dict_sources DataConfig_default data_sources.

Definition from_dict_output (data : value) : result OutputConfig :=
  output_data <- get data "output" (VDict []) ;;
  format <- field as_str output_data ["format"] (VStr "png") ;;
  dpi <- field as_int output_data ["dpi"] (VInt 300) ;;
  save_path <- field as_str output_data ["save_path"]
                 (VStr "./output/graph.png") ;;
  OutputConfig_new format dpi save_path.

Definition from_dict (data : value) : result Config :=
  graph_config <- from_dict_graph data ;;
  data_config <- from_dict_data data ;;
  output_config <- from_dict_output data ;;
  Ok (mkConfig graph_config data_config output_config).

(** *** [Config.to_dict] *)

Definition to_dict_axis (a : AxisConfig) : value :=
  VDict [("label", VStr a.(axis_label));
         ("min", of_opt_number a.(axis_min));
         ("max", of_opt_number a.(axis_max))].

Definition to_dict_source (source : DataSource) : value :=
  VDict [("file", VStr source.(file)); ("label", VStr source.(label))].

Definition to_dict (self : Config) : value :=
  VDict
    [("graph", VDict
       [("title", VStr self.(graph).(title));
        ("x_axis", to_dict_axis self.(graph).(x_axis));
        ("y_axis", to_dict_axis self.(graph).(y_axis));
        ("style", VDict
          [("width", VInt self.(graph).(style).(width));
           ("height", VInt self.(graph).(style).(height));
           ("fonts", VDict
             [("title_size", VInt self.(graph).(style).(fonts).(title_size));
              ("label_size", VInt self.(graph).(style).(fonts).(label_size));
              ("legend_size", VInt self.(graph).(style).(fonts).(legend_size))]);
           ("grid", VDict [("show", VBool self.(graph).(style).(grid).(show))]);
           ("line_style", VDict
             [("markers", of_str_list self.(graph).(style).(line_style).(markers));
              ("line_styles",
                of_str_list self.(graph).(style).(line_style).(line_styles));
              ("auto_cycle", VBool self.(graph).(style).(line_style).(auto_cycle));
              ("line_width",
                of_number self.(graph).(style).(line_style).(line_width));
              ("marker_size",
                of_number self.(graph).(style).(line_style).(marker_size))])])]);
     ("data", VDict
       [("sources", VList (map to_dict_source self.(data).(sources)))]);
     ("output", VDict
       [("format", VStr self.(output).(format));
        ("dpi", VInt self.(output).(dpi));
        ("save_path", VStr self.(output).(save_path))])].

(** *** [Config.validate] and [Config.is_valid]

    The file system is outside of the program: [file_exists] answers
    [Path(file).exists()], [parent_exists] answers
    [Path(save_path).parent.exists()], and [mkdir_parent] tells whether
    [Path(save_path).parent.mkdir(parents=True, exist_ok=True)] goes
    through or raises [OSError]. *)
Inductive validation_error : Type :=
| TitleRequired                                (* Graph title is required *)
| SourceRequired                 (* At least one data source is required *)
| FileDoesNotExist (i : nat) (file : string)
                                 (* Data source i: File '...' does not exist *)
| CannotCreateOutputDirectory.       (* Cannot create output directory: ... *)

(** [for i, source in enumerate(self.data.sources): ...] *)
Fixpoint validate_files (file_exists : string -> bool) (i : nat)
    (sources : list DataSource) : list validation_error :=
  match sources with
  | [] => []
  | source :: rest =>
      (if file_exists source.(file) then []
       else [FileDoesNotExist i source.(file)])
      ++ validate_files file_exists (S i) rest
  end.

Definition validate (file_exists parent_exists mkdir_parent : string -> bool)
    (self : Config) : list validation_error :=
  (if String.eqb self.(graph).(title) "" then [TitleRequired] else [])
  ++ (match self.(data).(sources) with [] => [SourceRequired] | _ => [] end)
  ++ validate_files file_exists 0 self.(data).(sources)
  ++ (if parent_exists self.(output).(save_path) then []
      else if mkdir_parent self.(output).(save_path) then []
           else [CannotCreateOutputDirectory]).

(** [len(self.validate()) == 0] *)
Definition is_valid (file_exists parent_exists mkdir_parent : string -> bool)
    (self : Config) : bool :=
  match validate file_exists parent_exists mkdir_parent self with
  | [] => true
  | _ => false
  end.

End Config.

(* ===================================================================== *)
(** ** Standard output                                                    *)
(* ===================================================================== *)

Module Out.

(** The lines the two modules below [print], by their text. *)
Inductive message : Type :=
| FileNotFound (file_path : string)          (* Error: File '...' not found *)
| FileEmpty (file_path : string)             (* Error: File '...' is empty *)
| CsvParseError (file_path : string)         (* Error parsing CSV file '...' *)
| CsvLoadError (file_path : string)          (* Error loading CSV file '...' *)
| FailedToLoad (file_path : string)          (* Warning: Failed to load ... *)
| UnsupportedGraphType (graph_type : string) (* Error: Unsupported graph type *)
| NoDataSourcesProvided                      (* Error: No data sources provided *)
| SkippingMissingKeys                        (* Warning: Skipping source missing ... *)
| SkippingInvalidDataframe (label : string)  (* Warning: Skipping source with invalid dataframe *)
| SkippingEmptyDataframe (label : string)    (* Warning: Skipping empty dataframe *)
| ErrorCreatingGraph (e : exn)               (* Error creating graph: ... *)
| NoSourcesInConfiguration                   (* Error: No data sources found in configuration *)
| FailedToLoadAny.                           (* Error: Failed to load any data from sources *)

(** A computation that prints and may raise. *)
Definition io (A : Type) : Type := (result A * list message)%type.

Definition ret {A : Type} (a : A) : io A := (Ok a, []).

Definition raise {A : Type} (e : exn) : io A := (Raise e, []).

Definition print (m : message) : io unit := (Ok tt, [m]).

Definition lift {A : Type} (c : result A) : io A := (c, []).

Definition io_bind {A B : Type} (c : io A) (k : A -> io B) : io B :=
  match c with
  | (Ok a, out) => let (r, out') := k a in (r, out ++ out')
  | (Raise e, out) => (Raise e, out)
  end.

End Out.

Import Out.

Notation "x <~ c ;; k" := (io_bind c (fun x => k))
  (at level 61, c at next level, right associativity) : py_scope.

(* ===================================================================== *)
(** ** [core/data_processor.py]                                           *)
(* ===================================================================== *)

Module DataProcessor.

(** A [pandas.DataFrame]: its columns in order, each with its name and
    its cells.  The columns of one frame have the same length. *)
Definition series : Type := list Q.
Definition DataFrame : Type := list (string * series).

Definition columns (df : DataFrame) : list string := map fst df.

(** [df.empty]: some axis has length zero. *)
Definition empty (df : DataFrame) : bool :=
  match df with
  | [] => true
  | (_, cells) :: _ => (length cells =? 0)%nat
  end.

(** What [pd.read_csv(file_path)] does: the file system and the parser
    are outside of the program. *)
Inductive read_outcome : Type :=
| Parsed (df : DataFrame)
| FileNotFoundError
| EmptyDataError
| ParserError
| OtherException.

Definition reader : Type := string -> read_outcome.

(** [DataProcessor.load_csv].  The first two columns are taken by
    position; fewer than two raise a [ValueError] that the last handler
    catches. *)
Definition load_csv (read_csv : reader) (file_path : string)
  : io (option DataFrame) :=
  match read_csv file_path with
  | Parsed df =>
      match df with
      | (_, xs) :: (_, ys) :: _ => ret (Some [("x", xs); ("y", ys)])
      | _ => _ <~ print (CsvLoadError file_path) ;; ret None
      end
  | FileNotFoundError => _ <~ print (FileNotFound file_path) ;; ret None
  | EmptyDataError => _ <~ print (FileEmpty file_path) ;; ret None
  | ParserError => _ <~ print (CsvParseError file_path) ;; ret None
  | OtherException => _ <~ print (CsvLoadError file_path) ;; ret None
  end.

(** A [Dict[str, DataFrame]]: assigning to a key that is there keeps its
    place and replaces its value; a new key goes last. *)
Definition frames : Type := list (string * DataFrame).

Fixpoint dict_set (d : frames) (key : string) (df : DataFrame) : frames :=
  match d with
  | [] => [(key, df)]
  | (k, v) :: rest =>
      if String.eqb k key then (k, df) :: rest
      else (k, v) :: dict_set rest key df
  end.

(** One turn of the loop of [load_multiple_csvs].  The tables are kept
    under the labels of the sources, which are strings here, as the
    signature of the source has them; the source itself takes any key,
    and a label that is there and is not a string (a null one is kept as
    the key [None]) is outside of this development, like every value of
    another type than the annotated one. *)
Definition load_source (read_csv : reader) (dataframes : frames)
    (source : value) : io frames :=
  file_v <~ lift (get source "file" VNone) ;;
  label_v <~ lift (get source "label" file_v) ;;
  file_path <~ lift (as_opt_str file_v) ;;
  match file_path with
  | None => ret dataframes
  | Some file_path =>
      if String.eqb file_path "" then ret dataframes
      else
        df <~ load_csv read_csv file_path ;;
        match df with
        | Some df =>
            label <~ lift (as_str label_v) ;;
            ret (dict_set dataframes label df)
        | None =>
            _ <~ print (FailedToLoad file_path) ;;
            ret dataframes
        end
  end.

Fixpoint load_sources (read_csv : reader) (dataframes : frames)
    (sources : list value) : io frames :=
  match sources with
  | [] => ret dataframes
  | source :: rest =>
      dataframes' <~ load_source read_csv dataframes source ;;
      load_sources read_csv dataframes' rest
  end.

(** [DataProcessor.load_multiple_csvs] *)
Definition load_multiple_csvs (read_csv : reader) (sources : list value)
  : io frames :=
  load_sources read_csv [] sources.

(** [DataProcessor.process_data]: a table for a path or a dictionary
    with a ["file"], a dictionary of tables for a list, [None] for
    anything else. *)
Inductive processed : Type :=
| OneTable (df : DataFrame)
| Tables (dataframes : frames)
| NoData.

Definition one_table (df : option DataFrame) : processed :=
  match df with Some df => OneTable df | None => NoData end.

Definition process_data (read_csv : reader) (data_source : value)
  : io processed :=
  match data_source with
  | VStr file_path =>
      df <~ load_csv read_csv file_path ;; ret (one_table df)
  | VDict entries =>
      match lookup entries "file" with
      | Some file_v =>
          file_path <~ lift (as_opt_str file_v) ;;
          match file_path with
          | Some file_path =>
              df <~ load_csv read_csv file_path ;; ret (one_table df)
          | None => ret NoData
          end
      | None => ret NoData
      end
  | VList sources =>
      dataframes <~ load_multiple_csvs read_csv sources ;;
      ret (Tables dataframes)
  | _ => ret NoData
  end.

(** [DataProcessor.validate_sources].  [file_exists] answers
    [Path(file).exists()].  A ["file"] that is not a string makes [Path]
    raise, which is [IllTyped] here. *)
Inductive source_error : Type :=
| NotADictionary (i : nat)            (* Source i is not a dictionary *)
| MissingFileField (i : nat)   (* Source i missing required 'file' field *)
| MissingLabelField (i : nat) (* Source i missing required 'label' field *)
| SourceFileNotFound (i : nat) (file : string).
                                       (* Source i file '...' not found *)

(** One turn of the loop: the errors it appends. *)
Definition validate_source (file_exists : string -> bool) (i : nat)
    (source : value) : result (list source_error) :=
  match source with
  | VDict entries =>
      match lookup entries "file" with
      | None => Ok [MissingFileField i]
      | Some file_v =>
          let label_errors :=
            match lookup entries "label" with
            | None => [MissingLabelField i]
            | Some _ => []
            end in
          file <- as_str file_v ;;
          Ok (label_errors ++
              if file_exists file then [] else [SourceFileNotFound i file])
      end
  | _ => Ok [NotADictionary i]
  end.

Fixpoint validate_sources_from (file_exists : string -> bool) (i : nat)
    (sources : list value) : result (list source_error) :=
  match sources with
  | [] => Ok []
  | source :: rest =>
      errors <- validate_source file_exists i source ;;
      more <- validate_sources_from file_exists (S i) rest ;;
      Ok (errors ++ more)
  end.

Definition validate_sources (file_exists : string -> bool)
    (sources : list value) : result (list source_error) :=
  validate_sources_from file_exists 0 sources.

End DataProcessor.

(* ===================================================================== *)
(** ** [core/graph_builder.py]                                            *)
(* ===================================================================== *)

Module GraphBuilder.

Import Config DataProcessor.

(** *** The rendering backend, as far as the builder drives it

    What the backend is asked to draw is recorded.  It decides which
    entry of the property cycle a line takes, and it refuses a figure
    whose size is not positive: [plt.subplots] raises for a negative
    width or height, and a figure without width or height cannot be
    laid out.  The limits of its canvas for large figures depend on the
    machine and are not part of this model. *)

(** One entry of a property cycle: the properties it sets. *)
Record CycleItem : Type := mkCycleItem {
  cycle_marker : option string;
  cycle_linestyle : option string
}.

(** The [s] of [ax.scatter], as the expression that is passed: a number,
    or [n ** 2] with the value the interpreter gives it (the exact
    square of an [int], the rounded product of a [float]). *)
Inductive area : Type :=
| Points (n : number)
| Squared (n : number).

(** What ends up on the axes.  A line without marker has [None]; a line
    drawn without [markersize] keeps the size of the backend. *)
Inductive Artist : Type :=
| Line2D (x y : series) (label : string) (marker : option string)
         (linestyle : string) (linewidth : number) (markersize : option number)
| BarContainer (x y : series) (label : string) (alpha : Q)
| PathCollection (x y : series) (label : string) (alpha : Q)
                 (marker : string) (s : area).

(** [prop_cycle = None]: the cycle of the backend itself, which sets
    neither marker nor line style. *)
Record Axes : Type := mkAxes {
  prop_cycle : option (list CycleItem);
  cycle_idx : nat;
  artists : list Artist
}.

Definition new_axes : Axes :=
  {| prop_cycle := None; cycle_idx := 0; artists := [] |}.

(** [cycler(linestyle=line_styles)] *)
Definition cycler_linestyle (line_styles : list string) : list CycleItem :=
  map (fun ls => mkCycleItem None (Some ls)) line_styles.

(** [cycler(marker=ms, linestyle=ls)]: the two lists side by side.  They
    must be as long as each other, and putting two empty cycles together
    raises [StopIteration], where the first entry of each is looked
    at. *)
Definition cycler_marker_linestyle (ms ls : list string)
  : result (list CycleItem) :=
  if (length ms =? length ls)%nat
  then match ms with
       | [] => Raise StopIteration
       | _ => Ok (map (fun p => mkCycleItem (Some (fst p)) (Some (snd p)))
                      (combine ms ls))
       end
  else Raise CyclerLengthError.

(** [ax.set_prop_cycle(custom_cycler)] *)
Definition set_prop_cycle (ax : Axes) (items : list CycleItem) : Axes :=
  {| prop_cycle := Some items; cycle_idx := 0; artists := ax.(artists) |}.

(** The keyword arguments of [ax.plot]. *)
Record PlotKwargs : Type := mkPlotKwargs {
  kw_label : string;
  kw_marker : option string;
  kw_linestyle : option string;
  kw_linewidth : number;
  kw_markersize : option number
}.

(** Does the call leave open a property that the entry sets? *)
Definition leaves_open (kw : PlotKwargs) (item : CycleItem) : bool :=
  match item.(cycle_marker), kw.(kw_marker) with
  | Some _, None => true
  | _, _ =>
      match item.(cycle_linestyle), kw.(kw_linestyle) with
      | Some _, None => true
      | _, _ => false
      end
  end.

Definition or_else {A : Type} (a b : option A) : option A :=
  match a with Some _ => a | None => b end.

(** [ax.plot(x, y, **kw)]: the current entry of the cycle fills what the
    call leaves open, and the cycle then moves on by one, around its
    length.  An empty cycle has no current entry. *)
Definition plot (ax : Axes) (x y : series) (kw : PlotKwargs) : result Axes :=
  match ax.(prop_cycle) with
  | None =>
      Ok {| prop_cycle := None;
            cycle_idx := ax.(cycle_idx);
            artists := ax.(artists) ++
              [Line2D x y kw.(kw_label) kw.(kw_marker)
                 (match kw.(kw_linestyle) with Some ls => ls | None => "-" end)
                 kw.(kw_linewidth) kw.(kw_markersize)] |}
  | Some items =>
      match nth_error items ax.(cycle_idx) with
      | None => Raise IndexError
      | Some item =>
          if leaves_open kw item then
            Ok {| prop_cycle := Some items;
                  cycle_idx := (S ax.(cycle_idx)) mod (length items);
                  artists := ax.(artists) ++
                    [Line2D x y kw.(kw_label)
                       (or_else kw.(kw_marker) item.(cycle_marker))
                       (match or_else kw.(kw_linestyle) item.(cycle_linestyle)
                        with Some ls => ls | None => "-" end)
                       kw.(kw_linewidth) kw.(kw_markersize)] |}
          else
            Ok {| prop_cycle := Some items;
                  cycle_idx := ax.(cycle_idx);
                  artists := ax.(artists) ++
                    [Line2D x y kw.(kw_label) kw.(kw_marker)
                       (match kw.(kw_linestyle) with
                        | Some ls => ls | None => "-" end)
                       kw.(kw_linewidth) kw.(kw_markersize)] |}
      end
  end.

(** [ax.bar(x, y, label=label, alpha=0.7)] *)
Definition bar (ax : Axes) (x y : series) (label : string) : Axes :=
  {| prop_cycle := ax.(prop_cycle);
     cycle_idx := ax.(cycle_idx);
     artists := ax.(artists) ++ [BarContainer x y label 0.7%Q] |}.

(** [ax.scatter(x, y, label=label, alpha=0.7, marker=marker, s=s)] *)
Definition scatter (ax : Axes) (x y : series) (label marker : string)
    (s : area) : Axes :=
  {| prop_cycle := ax.(prop_cycle);
     cycle_idx := ax.(cycle_idx);
     artists := ax.(artists) ++ [PathCollection x y label 0.7%Q marker s] |}.

Record Figure : Type := mkFigure {
  figsize : Z * Z;
  ax : Axes;
  fig_title : string;
  xlabel : string;
  ylabel : string
}.

(** *** [GraphBuilder.create_graph] *)

Definition supported_types : list string := ["line"; "bar"; "scatter"].

(** The [style_config] argument is an [Optional[Any]]: a [StyleConfig],
    or the raw mapping that [create_graph_from_config] hands over. *)
Inductive style_arg : Type :=
| StyleObject (style : StyleConfig)
| StyleValue (v : value).

(** Every use of [style_config] is behind [if style_config]; the first one
    reads [style_config.width].  A [StyleConfig] is truthy and has the
    attributes; a value that is truthy has none of them; one that is not
    is passed over like [None] everywhere. *)
Definition style_object (style_config : option style_arg)
  : result (option StyleConfig) :=
  match style_config with
  | None => Ok None
  | Some (StyleObject style) => Ok (Some style)
  | Some (StyleValue v) => if truthy v then Raise AttributeError else Ok None
  end.

(** An element of [data_sources]: a dictionary that may have a
    ["dataframe"] and a ["label"]. *)
Inductive pyobj : Type :=
| IsDataFrame (df : DataFrame)
| NotDataFrame.

Record PlotSource : Type := mkPlotSource {
  src_dataframe : option pyobj;
  src_label : option string
}.

(** [for marker in markers: for line_style in line_styles:
       combined_styles.append((marker, line_style))] *)
Definition combined_styles (markers line_styles : list string)
  : list (string * string) :=
  flat_map (fun marker => map (fun line_style => (marker, line_style)) line_styles)
           markers.

(** The cycle that is set up before plotting, lines 71-89. *)
Definition custom_cycler (line_style : LineStyleConfig)
  : result (list CycleItem) :=
  let markers := line_style.(markers) in
  let line_styles := line_style.(line_styles) in
  match markers with
  | [] => Ok (cycler_linestyle line_styles)
  | _ =>
      let combined := combined_styles markers line_styles in
      cycler_marker_linestyle (map fst combined) (map snd combined)
  end.

(** [l[i % len(l)]] *)
Definition index_mod (l : list string) (i : nat) : result string :=
  match length l with
  | O => Raise ZeroDivisionError
  | n =>
      match nth_error l (i mod n) with
      | Some x => Ok x
      | None => Raise IndexError
      end
  end.

Definition nonempty {A : Type} (l : list A) : bool :=
  match l with [] => false | _ => true end.

(** The manual selection of marker and line style, lines 134-144. *)
Definition manual_marker (style_config : option StyleConfig) (i : nat)
  : result (option string) :=
  match style_config with
  | Some sc =>
      if nonempty sc.(line_style).(markers)
      then m <- index_mod sc.(line_style).(markers) i ;; Ok (Some m)
      else Ok None
  | None => Ok None
  end.

Definition manual_linestyle (style_config : option StyleConfig) (i : nat)
  : result string :=
  match style_config with
  | Some sc =>
      if nonempty sc.(line_style).(line_styles)
      then index_mod sc.(line_style).(line_styles) i
      else Ok "-"
  | None => Ok "-"
  end.

(** The [else] branch of the line plot: marker and line style chosen by
    the index of the source, lines 134-164. *)
Definition plot_manual (style_config : option StyleConfig) (i : nat)
    (ax : Axes) (x y : series) (label : string) : result Axes :=
  marker <- manual_marker style_config i ;;
  linestyle <- manual_linestyle style_config i ;;
  plot ax x y
    {| kw_label := label;
       kw_marker := marker;
       kw_linestyle := Some linestyle;
       kw_linewidth :=
         match style_config with
         | Some sc => sc.(line_style).(line_width)
         | None => NInt 2
         end;
       kw_markersize :=
         match marker with
         | Some _ =>
             Some (match style_config with
                   | Some sc => sc.(line_style).(marker_size)
                   | None => NInt 6
                   end)
         | None => None
         end |}.

(** The branch for [graph_type == "line"], lines 122-164. *)
Definition plot_line (style_config : option StyleConfig) (i : nat)
    (ax : Axes) (x y : series) (label : string) : result Axes :=
  match style_config with
  | Some sc =>
      if sc.(line_style).(auto_cycle) then
        plot ax x y
          {| kw_label := label;
             kw_marker := None;
             kw_linestyle := None;
             kw_linewidth := sc.(line_style).(line_width);
             kw_markersize := Some sc.(line_style).(marker_size) |}
      else plot_manual style_config i ax x y label
  | None => plot_manual style_config i ax x y label
  end.

(** The branch for [graph_type == "scatter"], lines 167-188. *)
Definition plot_scatter (style_config : option StyleConfig) (i : nat)
    (ax : Axes) (x y : series) (label : string) : result Axes :=
  match style_config with
  | Some sc =>
      marker <- (if nonempty sc.(line_style).(markers)
                 then index_mod sc.(line_style).(markers) i
                 else Ok "o") ;;
      Ok (scatter ax x y label marker (Squared sc.(line_style).(marker_size)))
  | None => Ok (scatter ax x y label "o" (Points (NInt 36)))
  end.

(** The body of the loop over [enumerate(data_sources)], lines 99-188.

    The source takes the names of the first two columns and reads the
    columns by these names.  Here the two columns are read where they
    stand, which is the same as long as neither name is borne by another
    column of the frame, as in every frame that [load_csv] returns; the
    properties that tell what is drawn are stated for such frames. *)
Definition plot_source (graph_type : string) (style_config : option StyleConfig)
    (i : nat) (source : PlotSource) (ax : Axes) : io Axes :=
  match source.(src_dataframe), source.(src_label) with
  | Some df, Some label =>
      match df with
      | NotDataFrame => _ <~ print (SkippingInvalidDataframe label) ;; ret ax
      | IsDataFrame df =>
          if empty df then _ <~ print (SkippingEmptyDataframe label) ;; ret ax
          else
            match df with
            | (x_col, x) :: (y_col, y) :: _ =>
                if String.eqb graph_type "line"
                then lift (plot_line style_config i ax x y label)
                else if String.eqb graph_type "bar"
                then ret (bar ax x y label)
                else if String.eqb graph_type "scatter"
                then lift (plot_scatter style_config i ax x y label)
                else ret ax
            | _ => raise IndexError
            end
      end
  | _, _ => _ <~ print SkippingMissingKeys ;; ret ax
  end.

Fixpoint plot_sources (graph_type : string) (style_config : option StyleConfig)
    (i : nat) (data_sources : list PlotSource) (ax : Axes) : io Axes :=
  match data_sources with
  | [] => ret ax
  | source :: rest =>
      ax' <~ plot_source graph_type style_config i source ax ;;
      plot_sources graph_type style_config (S i) rest ax'
  end.

(** [plt.subplots(figsize=figsize)]: "figure size must be positive
    finite" for a negative width or height. *)
Definition subplots (figsize : Z * Z) : result Axes :=
  if ((fst figsize <? 0) || (snd figsize <? 0))%Z then Raise BackendError
  else Ok new_axes.

(** [plt.tight_layout()]: the layout of a figure without width or height
    cannot be computed. *)
Definition tight_layout (figsize : Z * Z) : result unit :=
  if ((fst figsize =? 0) || (snd figsize =? 0))%Z then Raise BackendError
  else Ok tt.

(** Lines 63-92: in auto-cycle mode on a line chart the property cycle
    is set on the axes. *)
Definition set_up_cycle (graph_type : string) (style : option StyleConfig)
    (ax : Axes) : result Axes :=
  match style with
  | Some sc =>
      if sc.(line_style).(auto_cycle) && String.eqb graph_type "line"
      then items <- custom_cycler sc.(line_style) ;;
           Ok (set_prop_cycle ax items)
      else Ok ax
  | None => Ok ax
  end.

(** What stands inside [try:], lines 57-200. *)
Definition create_graph_try (data_sources : list PlotSource)
    (graph_type title x_label y_label : string)
    (style_config : option style_arg) : io Figure :=
  style <~ lift (style_object style_config) ;;
  let figsize := match style with
                 | Some sc => (sc.(width), sc.(height))
                 | None => (10, 6)%Z
                 end in
  ax <~ lift (subplots figsize) ;;
  ax <~ lift (set_up_cycle graph_type style ax) ;;
  ax <~ plot_sources graph_type style 0 data_sources ax ;;
  _ <~ lift (tight_layout figsize) ;;
  ret {| figsize := figsize;
         ax := ax;
         fig_title := title;
         xlabel := x_label;
         ylabel := y_label |}.

(** [create_graph] returns [None] where it fails, after printing why. *)
Definition create_graph (data_sources : list PlotSource)
    (graph_type title x_label y_label : string)
    (style_config : option style_arg) : option Figure * list message :=
  if negb (str_in graph_type supported_types)
  then (None, [UnsupportedGraphType graph_type])
  else
    match data_sources with
    | [] => (None, [NoDataSourcesProvided])
    | _ =>
        match create_graph_try data_sources graph_type title x_label y_label
                style_config with
        | (Ok fig, out) => (Some fig, out)
        | (Raise e, out) => (None, out ++ [ErrorCreatingGraph e])
        end
    end.

(** *** [GraphBuilder.create_graph_from_dataframes] *)

(** [for label, df in dataframes.items():
       data_sources.append({"dataframe": df, "label": label})] *)
Definition data_sources_of (dataframes : frames) : list PlotSource :=
  map (fun entry => mkPlotSource (Some (IsDataFrame (snd entry)))
                                 (Some (fst entry)))
      dataframes.

Definition create_graph_from_dataframes (dataframes : frames)
    (graph_type title x_label y_label : string)
    (style_config : option style_arg) : option Figure * list message :=
  create_graph (data_sources_of dataframes) graph_type title x_label y_label
    style_config.

(** *** [GraphBuilder.create_graph_from_config] *)

(** What is read from the configuration, lines 254-270: the graph type,
    the title, the two axis labels, the style mapping and the sources. *)
Definition config_arguments (config : value)
  : result (string * string * string * string * value * value) :=
  graph_config <- get config "graph" (VDict []) ;;
  graph_type <- field as_str graph_config ["type"] (VStr "line") ;;
  title <- field as_str graph_config ["title"] (VStr "Graph") ;;
  x_axis <- get graph_config "x_axis" (VDict []) ;;
  y_axis <- get graph_config "y_axis" (VDict []) ;;
  x_label <- field as_str x_axis ["label"] (VStr "X") ;;
  y_label <- field as_str y_axis ["label"] (VStr "Y") ;;
  style_config <- get graph_config "style" (VDict []) ;;
  data_config <- get config "data" (VDict []) ;;
  sources <- get data_config "sources" (VList []) ;;
  Ok (graph_type, title, x_label, y_label, style_config, sources).

(** The exceptions raised before [create_graph] is entered are not
    caught here. *)
Definition create_graph_from_config (read_csv : reader) (config : value)
  : io (option Figure) :=
  match config with
  | VDict _ =>
      arguments <~ lift (config_arguments config) ;;
      let '(graph_type, title, x_label, y_label, style_config, sources) :=
        arguments in
      if negb (truthy sources)
      then _ <~ print NoSourcesInConfiguration ;; ret None
      else
        sources <~ lift (as_list sources) ;;
        dataframes <~ load_multiple_csvs read_csv sources ;;
        match dataframes with
        | [] => _ <~ print FailedToLoadAny ;; ret None
        | _ =>
            let (fig, out) :=
              create_graph_from_dataframes dataframes graph_type title
                x_label y_label (Some (StyleValue style_config)) in
            (Ok fig, out)
        end
  | _ => ret None
  end.

(** *** [GraphBuilder.validate_graph_type] *)
Definition validate_graph_type (graph_type : string) : bool :=
  str_in graph_type supported_types.

End GraphBuilder.

(* ===================================================================== *)
(** ** [utils/yaml_parser.py]                                             *)
(* ===================================================================== *)

Module YAMLParser.

(** [value[key]] for a string key, inside
    [try: ... except (KeyError, TypeError)]: only a dictionary that has
    the key gives a value. *)
Definition getitem (v : value) (key : string) : option value :=
  match v with
  | VDict entries => lookup entries key
  | _ => None
  end.

(** [for key in keys: value = value[key]] *)
Fixpoint traverse (v : value) (keys : list string) : option value :=
  match keys with
  | [] => Some v
  | key :: rest =>
      match getitem v key with
      | Some x => traverse x rest
      | None => None
      end
  end.

(** [YAMLParser.get_value]; [data] is [self.data], [None] before
    anything is loaded. *)
Definition get_value (data : option value) (key_path : string)
    (default : value) : value :=
  match data with
  | None => default
  | Some d =>
      match traverse d (split_on "."%char key_path) with
      | Some x => x
      | None => default
      end
  end.

(** [YAMLParser.validate_schema] *)
Definition validate_schema (data : option value) (required_keys : list string)
  : bool :=
  match data with
  | None => false
  | Some _ =>
      forallb (fun key_path =>
                 match get_value data key_path VNone with
                 | VNone => false
                 | _ => true
                 end) required_keys
  end.

End YAMLParser.

(* ===================================================================== *)
(** ** Vocabulary of the properties                                       *)
(* ===================================================================== *)

Module Spec.

Import Config DataProcessor GraphBuilder.

(** A place in a mapping: keys of dictionaries and positions of lists. *)
Inductive step : Type :=
| Key (k : string)
| Index (i : nat).

(** The value at a place, when every step on the way is there. *)
Fixpoint lookup_path (v : value) (p : list step) : option value :=
  match p with
  | [] => Some v
  | Key k :: rest =>
      match v with
      | VDict d =>
          match lookup d k with
          | Some x => lookup_path x rest
          | None => None
          end
      | _ => None
      end
  | Index i :: rest =>
      match v with
      | VList l =>
          match nth_error l i with
          | Some x => lookup_path x rest
          | None => None
          end
      | _ => None
      end
  end.

Definition keys (p : list string) : list step := map Key p.

(** The fields of the mapping whose place does not depend on the number
    of data sources. *)
Definition markers_path : list string :=
  ["graph"; "style"; "line_style"; "markers"].

Definition line_styles_path : list string :=
  ["graph"; "style"; "line_style"; "line_styles"].

Definition fixed_fields : list (list string) :=
  [ ["graph"; "title"];
    ["graph"; "x_axis"; "label"];
    ["graph"; "x_axis"; "min"];
    ["graph"; "x_axis"; "max"];
    ["graph"; "y_axis"; "label"];
    ["graph"; "y_axis"; "min"];
    ["graph"; "y_axis"; "max"];
    ["graph"; "style"; "width"];
    ["graph"; "style"; "height"];
    ["graph"; "style"; "fonts"; "title_size"];
    ["graph"; "style"; "fonts"; "label_size"];
    ["graph"; "style"; "fonts"; "legend_size"];
    ["graph"; "style"; "grid"; "show"];
    markers_path;
    line_styles_path;
    ["graph"; "style"; "line_style"; "auto_cycle"];
    ["graph"; "style"; "line_style"; "line_width"];
    ["graph"; "style"; "line_style"; "marker_size"];
    ["output"; "format"];
    ["output"; "dpi"];
    ["output"; "save_path"] ].

(** The keys of each mapping that [to_dict] writes, by the place of the
    mapping. *)
Definition schema_keys : list (list string * list string) :=
  [ ([], ["graph"; "data"; "output"]);
    (["graph"], ["title"; "x_axis"; "y_axis"; "style"]);
    (["graph"; "x_axis"], ["label"; "min"; "max"]);
    (["graph"; "y_axis"], ["label"; "min"; "max"]);
    (["graph"; "style"], ["width"; "height"; "fonts"; "grid"; "line_style"]);
    (["graph"; "style"; "fonts"], ["title_size"; "label_size"; "legend_size"]);
    (["graph"; "style"; "grid"], ["show"]);
    (["graph"; "style"; "line_style"],
     ["markers"; "line_styles"; "auto_cycle"; "line_width"; "marker_size"]);
    (["data"], ["sources"]);
    (["output"], ["format"; "dpi"; "save_path"]) ].

(** The two fields of the [i]-th data source. *)
Definition source_file_path (i : nat) : list step :=
  [Key "data"; Key "sources"; Index i; Key "file"].

Definition source_label_path (i : nat) : list step :=
  [Key "data"; Key "sources"; Index i; Key "label"].

(** The documented default of a field: what [Config()] holds there. *)
Definition documented_default (p : list string) : option value :=
  lookup_path (to_dict Config_default) (keys p).

(** The value a chain of [get]s ends with: the one at the place when
    there is one, the fallback of the last [get] otherwise. *)
Definition resolve (v : value) (p : list string) (fallback : value) : value :=
  match lookup_path v (keys p) with
  | Some x => x
  | None => fallback
  end.

(** The fallback that [from_dict] passes for each of the fixed fields. *)
Definition from_dict_fallback : list (list string * value) :=
  [ (["graph"; "title"], VStr "");
    (["graph"; "x_axis"; "label"], VStr "");
    (["graph"; "x_axis"; "min"], VNone);
    (["graph"; "x_axis"; "max"], VNone);
    (["graph"; "y_axis"; "label"], VStr "");
    (["graph"; "y_axis"; "min"], VNone);
    (["graph"; "y_axis"; "max"], VNone);
    (["graph"; "style"; "width"], VInt 10);
    (["graph"; "style"; "height"], VInt 10);
    (["graph"; "style"; "fonts"; "title_size"], VInt 16);
    (["graph"; "style"; "fonts"; "label_size"], VInt 12);
    (["graph"; "style"; "fonts"; "legend_size"], VInt 10);
    (["graph"; "style"; "grid"; "show"], VBool true);
    (markers_path, of_str_list from_dict_markers);
    (line_styles_path, of_str_list from_dict_line_styles);
    (["graph"; "style"; "line_style"; "auto_cycle"], VBool true);
    (["graph"; "style"; "line_style"; "line_width"], VFloat 2);
    (["graph"; "style"; "line_style"; "marker_size"], VFloat 6);
    (["output"; "format"], VStr "png");
    (["output"; "dpi"], VInt 300);
    (["output"; "save_path"], VStr "./output/graph.png") ].

(** The label a data source ends with: the one given unless it is
    missing or empty, the stem of the file then. *)
Definition resolved_label (file : string) (label : option string) : string :=
  match label with
  | Some l => if String.eqb l "" then stem file else l
  | None => stem file
  end.

(** A data source as [from_dict] builds it from an entry of
    [data.sources]. *)
Definition source_of (entry : value) (source : DataSource) : Prop :=
  exists file label,
    as_str (resolve entry ["file"] (VStr "")) = Ok file /\
    as_label (resolve entry ["label"] VNone) = Ok label /\
    file <> "" /\
    source = mkDataSource file (resolved_label file label).

(** What construction establishes, and what a second construction from
    the same fields finds again. *)
Definition stable_source (source : DataSource) : Prop :=
  source.(file) <> "" /\
  (source.(label) = "" -> stem source.(file) = "").

Definition constructed (c : Config) : Prop :=
  LineStyleConfig_post_init c.(graph).(style).(line_style)
    = Ok c.(graph).(style).(line_style) /\
  OutputConfig_post_init c.(output) = Ok c.(output) /\
  Forall stable_source c.(data).(sources).

(** *** Series and their styles *)

(** What a source gives to draw: its first two columns and its label,
    unless it is passed over (a key missing, not a frame, an empty
    frame). *)
Definition drawn (s : PlotSource) : option (series * series * string) :=
  match s.(src_dataframe), s.(src_label) with
  | Some (IsDataFrame df), Some label =>
      if empty df then None
      else match df with
           | (_, x) :: (_, y) :: _ => Some (x, y, label)
           | _ => None
           end
  | _, _ => None
  end.

(** A frame with rows and one column only: reading its second column
    raises, and the graph is given up. *)
Definition single_column (s : PlotSource) : bool :=
  match s.(src_dataframe), s.(src_label) with
  | Some (IsDataFrame df), Some _ => negb (empty df) && (length df <? 2)%nat
  | _, _ => false
  end.

(** The names of the first two columns of the frame of a source are
    borne by no other column of the frame: reading the two columns by
    name, as the source does, gives the two columns themselves. *)
Definition unique_name (name : string) (df : DataFrame) : bool :=
  (length (filter (String.eqb name) (columns df)) =? 1)%nat.

Definition plain_columns (s : PlotSource) : bool :=
  match s.(src_dataframe) with
  | Some (IsDataFrame df) =>
      match df with
      | (x_col, _) :: (y_col, _) :: _ =>
          unique_name x_col df && unique_name y_col df
      | _ => true
      end
  | _ => true
  end.

(** A figure size that the backend makes and lays out on any machine:
    positive, and with at most fifty inches a side far from the limits
    of its canvas. *)
Definition ordinary_size (figsize : Z * Z) : Prop :=
  (0 < fst figsize <= 50)%Z /\ (0 < snd figsize <= 50)%Z.

Definition drawn_labels (srcs : list PlotSource) : list string :=
  flat_map (fun s => match drawn s with
                     | Some (_, _, label) => [label]
                     | None => []
                     end) srcs.

Definition artist_label (a : Artist) : string :=
  match a with
  | Line2D _ _ label _ _ _ _ => label
  | BarContainer _ _ label _ => label
  | PathCollection _ _ label _ _ _ => label
  end.

(** Marker and line style of a line. *)
Definition line_style_of (a : Artist) : option (option string * string) :=
  match a with
  | Line2D _ _ _ marker linestyle _ _ => Some (marker, linestyle)
  | _ => None
  end.

(** The entry of a property cycle for a pair of [combined_styles]. *)
Definition cycle_item_of (p : string * string) : CycleItem :=
  mkCycleItem (Some (fst p)) (Some (snd p)).

(** Manual mode in the words of the specification: each sequence is
    indexed by the series index around its own length; without markers
    there is no marker, without line styles the line is solid. *)
Definition manual_marker_of (markers : list string) (i : nat) : option string :=
  match markers with
  | [] => None
  | _ => nth_error markers (i mod length markers)
  end.

Definition manual_linestyle_of (line_styles : list string) (i : nat) : string :=
  match line_styles with
  | [] => "-"
  | _ => nth (i mod length line_styles) line_styles "-"
  end.

Definition manual_line (ls : LineStyleConfig) (i : nat)
    (x y : series) (label : string) : Artist :=
  Line2D x y label
    (manual_marker_of ls.(markers) i)
    (manual_linestyle_of ls.(line_styles) i)
    ls.(line_width)
    (match manual_marker_of ls.(markers) i with
     | Some _ => Some ls.(marker_size)
     | None => None
     end).

(** The lines of a batch, the first source having index [i]. *)
Fixpoint manual_lines (ls : LineStyleConfig) (i : nat)
    (srcs : list PlotSource) : list Artist :=
  match srcs with
  | [] => []
  | s :: rest =>
      match drawn s with
      | Some (x, y, label) => [manual_line ls i x y label]
      | None => []
      end ++ manual_lines ls (S i) rest
  end.

(** The axes follow a property cycle: the [k]-th line has the marker and
    the line style of entry [k mod len(items)], and the cycle stands at
    the entry of the next line. *)
Definition follows_cycle (items : list CycleItem) (ax : Axes) : Prop :=
  ax.(prop_cycle) = Some items /\
  ax.(cycle_idx) = (length ax.(artists)) mod (length items) /\
  forall k art, nth_error ax.(artists) k = Some art ->
    exists item,
      nth_error items (k mod length items) = Some item /\
      line_style_of art
        = Some (item.(cycle_marker),
                match item.(cycle_linestyle) with Some l => l | None => "-" end).

Definition sets_linestyle (items : list CycleItem) : Prop :=
  forall item, In item items -> item.(cycle_linestyle) <> None.

(** *** Batches of sources *)

(** A source of the configuration: a dictionary that may have a
    ["file"] and a ["label"], both strings. *)
Record SourceEntry : Type := mkSourceEntry {
  entry_file : option string;
  entry_label : option string
}.

Definition source_dict (e : SourceEntry) : value :=
  VDict (match e.(entry_file) with Some f => [("file", VStr f)] | None => [] end
         ++ match e.(entry_label) with
            | Some l => [("label", VStr l)]
            | None => []
            end).

(** The table that [load_csv] returns for a file, if it returns one. *)
Definition table_of (read_csv : reader) (file_path : string)
  : option DataFrame :=
  match fst (load_csv read_csv file_path) with
  | Ok (Some df) => Some df
  | _ => None
  end.

(** A source loads successfully: it names a file and [load_csv] returns
    its table.  Its label is the one given, or else the file name. *)
Definition loads (read_csv : reader) (e : SourceEntry)
  : option (string * DataFrame) :=
  match e.(entry_file) with
  | Some f =>
      if String.eqb f "" then None
      else match table_of read_csv f with
           | Some df =>
               Some (match e.(entry_label) with Some l => l | None => f end, df)
           | None => None
           end
  | None => None
  end.

(** The sources of a batch that load successfully, in their order. *)
Definition loaded (read_csv : reader) (srcs : list SourceEntry)
  : list (string * DataFrame) :=
  flat_map (fun e => match loads read_csv e with
                     | Some p => [p]
                     | None => []
                     end) srcs.

(** The lines that loading prints: never the one of an empty batch. *)
Definition load_line (m : message) : Prop :=
  match m with
  | FileNotFound _ | FileEmpty _ | CsvParseError _ | CsvLoadError _
  | FailedToLoad _ => True
  | _ => False
  end.

(** A run of assignments [dataframes[label] = df]. *)
Definition set_all (l : list (string * DataFrame)) (d : frames) : frames :=
  fold_left (fun d p => dict_set d (fst p) (snd p)) l d.

(** The table of the last pair with a label. *)
Fixpoint last_with (label : string) (l : list (string * DataFrame))
  : option DataFrame :=
  match l with
  | [] => None
  | (k, df) :: rest =>
      match last_with label rest with
      | Some df' => Some df'
      | None => if String.eqb k label then Some df else None
      end
  end.

(** The scenarios of the batch loader: [a.csv] and [c.csv] have two
    columns and rows, [b.csv] has one column, nothing else is there. *)
Definition scenario_reader : reader :=
  fun file_path =>
    if String.eqb file_path "a.csv"
    then Parsed [("t", [1%Q; 2%Q]); ("v", [3%Q; 4%Q])]
    else if String.eqb file_path "b.csv"
    then Parsed [("t", [1%Q; 2%Q])]
    else if String.eqb file_path "c.csv"
    then Parsed [("t", [5%Q; 6%Q]); ("v", [7%Q; 8%Q])]
    else FileNotFoundError.

Definition config_of_sources (srcs : list SourceEntry) : value :=
  VDict [("graph", VDict [("title", VStr "Scenario")]);
         ("data", VDict [("sources", VList (map source_dict srcs))])].

(** Three sources, the second of which has one column. *)
Definition scenario_batch : list SourceEntry :=
  [mkSourceEntry (Some "a.csv") (Some "first");
   mkSourceEntry (Some "b.csv") (Some "second");
   mkSourceEntry (Some "c.csv") (Some "third")].

(** Two sources that load, under one label. *)
Definition same_label_batch : list SourceEntry :=
  [mkSourceEntry (Some "a.csv") (Some "run");
   mkSourceEntry (Some "c.csv") (Some "run")].

(** A mapping that gives some fields and leaves the others out. *)
Definition partial_mapping : value :=
  VDict [("graph", VDict [("title", VStr "Test Graph");
                          ("style", VDict [("line_style",
                             VDict [("line_width", VFloat 3)])])]);
         ("data", VDict [("sources",
            VList [VDict [("file", VStr "data/ex1.csv")]])]);
         ("output", VDict [("format", VStr "svg")])].

(** The scenario of the specification: two markers, three line styles,
    four series. *)
Definition scenario_style (auto : bool) : StyleConfig :=
  mkStyleConfig 10 10 FontsConfig_default GridConfig_default
    (mkLineStyleConfig ["o"; "s"] ["-"; "--"; "-."] auto (NFloat 2) (NFloat 6)).

Definition scenario_sources : list PlotSource :=
  map (fun label =>
         mkPlotSource (Some (IsDataFrame [("x", [1%Q; 2%Q]); ("y", [3%Q; 4%Q])]))
                      (Some label))
      ["series0"; "series1"; "series2"; "series3"].

(** *** Vocabulary of the further properties *)

(** [n > 0], as [__post_init__] tests it. *)
Definition positive (n : number) : Prop := number_le0 n = false.

(** The warnings of the loop of [create_graph]. *)
Definition skip_line (m : message) : Prop :=
  match m with
  | SkippingMissingKeys | SkippingInvalidDataframe _
  | SkippingEmptyDataframe _ => True
  | _ => False
  end.

(** The marker of the [i]-th source of a scatter chart: the one of manual
    mode, or the circle when there is none. *)
Definition scatter_marker_of (markers : list string) (i : nat) : string :=
  match manual_marker_of markers i with
  | Some m => m
  | None => "o"
  end.

(** The artists of a batch when the [i]-th source is drawn by [draw i]:
    one for each source that is not passed over, the first source having
    index [i]. *)
Fixpoint artists_from (draw : nat -> series -> series -> string -> Artist)
    (i : nat) (srcs : list PlotSource) : list Artist :=
  match srcs with
  | [] => []
  | s :: rest =>
      match drawn s with
      | Some (x, y, label) => [draw i x y label]
      | None => []
      end ++ artists_from draw (S i) rest
  end.

(** What each chart type draws for a source. *)
Definition bar_of (i : nat) (x y : series) (label : string) : Artist :=
  BarContainer x y label 0.7%Q.

Definition styled_points (ls : LineStyleConfig) (i : nat) (x y : series)
    (label : string) : Artist :=
  PathCollection x y label 0.7%Q (scatter_marker_of ls.(markers) i)
    (Squared ls.(marker_size)).

Definition default_points (i : nat) (x y : series) (label : string) : Artist :=
  PathCollection x y label 0.7%Q "o" (Points (NInt 36)).

Definition default_line (i : nat) (x y : series) (label : string) : Artist :=
  Line2D x y label None "-" (NInt 2) None.

(** The figure size: the one of the style, or 10 by 6. *)
Definition figsize_of (style : option StyleConfig) : Z * Z :=
  match style with
  | Some sc => (sc.(width), sc.(height))
  | None => (10, 6)%Z
  end.

(** A source of a batch names a file: the key is there and its value is
    not the empty string. *)
Definition names_file (e : SourceEntry) : bool :=
  match e.(entry_file) with
  | Some f => negb (String.eqb f "")
  | None => false
  end.

(** The label under which a source of a batch is stored. *)
Definition batch_label (e : SourceEntry) (f : string) : string :=
  match e.(entry_label) with Some l => l | None => f end.

(** A dotted key path, and the keys it is made of. *)
Fixpoint join_dots (keys : list string) : string :=
  match keys with
  | [] => ""
  | [k] => k
  | k :: rest => k ++ "." ++ join_dots rest
  end.

Fixpoint has_dot (s : string) : bool :=
  match s with
  | EmptyString => false
  | String c r => Ascii.eqb c "."%char || has_dot r
  end.

End Spec.

Import Config DataProcessor GraphBuilder Spec.
Import YAMLParser.

(* ===================================================================== *)
(** ** Membership and the validation loops                                *)
(* ===================================================================== *)

Lemma str_in_In (x : string) (l : list string) :
  str_in x l = true <-> In x l.
Proof.
  unfold str_in. rewrite existsb_exists. split.
  - intros [y [Hy Heq]]. apply String.eqb_eq in Heq. now subst.
  - intros H. exists x. split; [assumption | apply String.eqb_refl].
Qed.

Lemma str_in_not_In (x : string) (l : list string) :
  str_in x l = false <-> ~ In x l.
Proof.
  rewrite <- str_in_In. destruct (str_in x l); split; congruence.
Qed.

(** [check_each] passes exactly the lists whose elements are all valid. *)
Lemma check_each_ok valid err xs :
  check_each valid err xs = Ok tt <-> (forall x, In x xs -> In x valid).
Proof.
  induction xs as [|x xs IH]; simpl.
  - split; [intros _ y [] | reflexivity].
  - destruct (str_in x valid) eqn:E.
    + rewrite IH. apply str_in_In in E. split.
      * intros H y [<-|Hy]; auto.
      * intros H y Hy. apply H. now right.
    + apply str_in_not_In in E. split; [discriminate|].
      intros H. exfalso. apply E, H. now left.
Qed.

(** Otherwise it raises for the first element that is not valid. *)
Lemma check_each_raises valid err xs :
  (exists x, In x xs /\ ~ In x valid) ->
  exists bad, In bad xs /\ ~ In bad valid /\
    check_each valid err xs = Raise (ValueError (err bad)).
Proof.
  induction xs as [|x xs IH]; simpl.
  - intros [y [[] _]].
  - intros [y [Hy Hbad]]. destruct (str_in x valid) eqn:E.
    + apply str_in_In in E.
      destruct Hy as [<-|Hy]; [contradiction|].
      destruct IH as [bad [H1 [H2 H3]]]; [now exists y|].
      exists bad. auto.
    + apply str_in_not_In in E. exists x. auto.
Qed.

Lemma check_each_unit valid err xs (u : unit) :
  check_each valid err xs = Ok u -> forall x, In x xs -> In x valid.
Proof. destruct u. apply check_each_ok. Qed.

(** What an accepted [LineStyleConfig] satisfies. *)
Lemma LineStyleConfig_post_init_ok self ls :
  LineStyleConfig_post_init self = Ok ls ->
  ls = self /\
  (forall m, In m self.(markers) -> In m valid_markers) /\
  (forall s, In s self.(line_styles) -> In s valid_line_styles) /\
  number_le0 self.(line_width) = false /\
  number_le0 self.(marker_size) = false.
Proof.
  unfold LineStyleConfig_post_init.
  destruct (check_each valid_markers InvalidMarker (markers self)) eqn:E1;
    cbn [bind]; [|discriminate].
  destruct (check_each valid_line_styles InvalidLineStyle (line_styles self))
    eqn:E2; cbn [bind]; [|discriminate].
  destruct (number_le0 (line_width self)) eqn:E3; [discriminate|].
  destruct (number_le0 (marker_size self)) eqn:E4; [discriminate|].
  intros H. inversion H; subst.
  split; [reflexivity|].
  split; [eapply check_each_unit; eassumption|].
  split; [eapply check_each_unit; eassumption|].
  split; reflexivity || assumption.
Qed.

(* ===================================================================== *)
(** ** Validation at construction time                                    *)
(* ===================================================================== *)

(** C7.  A [LineStyleConfig] built from a marker sequence that holds a
    symbol outside of [valid_markers] is not built: the constructor raises
    the [ValueError] that names the first such symbol, so no configuration
    comes out in which the entry is dropped or replaced. *)
Theorem invalid_marker_fails_construction :
  forall (markers line_styles : list string) (auto_cycle : bool)
         (line_width marker_size : number),
    (exists m, In m markers /\ ~ In m valid_markers) ->
    (exists bad, In bad markers /\ ~ In bad valid_markers /\
       LineStyleConfig_new markers line_styles auto_cycle line_width
         marker_size = Raise (ValueError (InvalidMarker bad))) /\
    (forall ls, LineStyleConfig_new markers line_styles auto_cycle line_width
                  marker_size <> Ok ls).
Proof.
  intros mks lss ac lw ms Hbad.
  destruct (check_each_raises valid_markers InvalidMarker mks Hbad)
    as [bad [H1 [H2 H3]]].
  assert (E : LineStyleConfig_new mks lss ac lw ms
              = Raise (ValueError (InvalidMarker bad))).
  { unfold LineStyleConfig_new, LineStyleConfig_post_init. simpl.
    rewrite H3. reflexivity. }
  split.
  - exists bad. auto.
  - intros ls. rewrite E. discriminate.
Qed.

Lemma invalid_marker_fails_construction_witness :
  (exists bad, In bad ["o"; "invalid_marker"] /\ ~ In bad valid_markers /\
     LineStyleConfig_new ["o"; "invalid_marker"] ["-"] true (NFloat 2)
       (NFloat 6) = Raise (ValueError (InvalidMarker bad))) /\
  (forall ls, LineStyleConfig_new ["o"; "invalid_marker"] ["-"] true
                (NFloat 2) (NFloat 6) <> Ok ls).
Proof.
  apply (invalid_marker_fails_construction
           ["o"; "invalid_marker"] ["-"] true (NFloat 2) (NFloat 6)).
  exists "invalid_marker". split.
  - simpl. auto.
  - intros H. apply str_in_In in H. vm_compute in H. discriminate.
Defined.

(** C8, as the specification has it, fails: an [OutputConfig] with
    [dpi = 0], and one with a negative [dpi], are built. *)
Lemma nonpositive_dpi_is_accepted :
  OutputConfig_new "png" 0 "./output/graph.png"
    = Ok (mkOutputConfig "png" 0 "./output/graph.png") /\
  OutputConfig_new "png" (-72) "./output/graph.png"
    = Ok (mkOutputConfig "png" (-72) "./output/graph.png").
Proof. split; reflexivity. Qed.

(** C8, amended.  [OutputConfig.__post_init__] looks at the format only:
    with a [dpi] that is zero or negative the configuration is built, the
    [dpi] kept as given, exactly when the lowered format is one of
    [valid_formats]; otherwise the [ValueError] is the one of the format. *)
Theorem output_config_checks_format_only :
  forall (format : string) (dpi : Z) (save_path : string),
    (dpi <= 0)%Z ->
    (In (lower format) valid_formats ->
       OutputConfig_new format dpi save_path
         = Ok (mkOutputConfig format dpi save_path)) /\
    (~ In (lower format) valid_formats ->
       OutputConfig_new format dpi save_path
         = Raise (ValueError (InvalidFormat format))).
Proof.
  intros f d p _. unfold OutputConfig_new, OutputConfig_post_init.
  cbn [Config.format]. split; intros H.
  - apply str_in_In in H. rewrite H. reflexivity.
  - apply str_in_not_In in H. rewrite H. reflexivity.
Qed.

Lemma output_config_checks_format_only_witness :
  (In (lower "png") valid_formats ->
     OutputConfig_new "png" 0 "./output/graph.png"
       = Ok (mkOutputConfig "png" 0 "./output/graph.png")) /\
  (~ In (lower "png") valid_formats ->
     OutputConfig_new "png" 0 "./output/graph.png"
       = Raise (ValueError (InvalidFormat "png"))).
Proof.
  apply (output_config_checks_format_only "png" 0 "./output/graph.png").
  lia.
Defined.

(** C9, as the specification has it, fails: the format of the
    [OutputConfig] built from ["SVG"] is ["SVG"], not its lowered form. *)
Lemma format_case_is_not_normalized :
  exists o, OutputConfig_new "SVG" 300 "./output/graph.png" = Ok o /\
            o.(format) = "SVG" /\ o.(format) <> lower "SVG".
Proof.
  eexists. split; [reflexivity|]. split; [reflexivity|].
  vm_compute. discriminate.
Qed.

(** C9, amended.  [OutputConfig(format="SVG", dpi=300)] is accepted,
    because the membership test lowers the format; what is stored is the
    format as it was given, and so for every accepted format. *)
Theorem uppercase_format_accepted_as_given :
  OutputConfig_new "SVG" 300 "./output/graph.png"
    = Ok (mkOutputConfig "SVG" 300 "./output/graph.png") /\
  In (lower "SVG") valid_formats /\
  (forall format dpi save_path o,
     OutputConfig_new format dpi save_path = Ok o ->
     o.(Config.format) = format /\ In (lower format) valid_formats).
Proof.
  split; [reflexivity|]. split; [vm_compute; auto|].
  intros f d p o. unfold OutputConfig_new, OutputConfig_post_init.
  cbn [Config.format].
  destruct (str_in (lower f) valid_formats) eqn:E; cbn [negb]; [|discriminate].
  intros H. inversion H; subst. split; [reflexivity|].
  now apply str_in_In.
Qed.

(* ===================================================================== *)
(** ** Reading a mapping                                                  *)
(* ===================================================================== *)

Lemma bind_Ok {A B : Type} (c : result A) (k : A -> result B) (b : B) :
  bind c k = Ok b -> exists a, c = Ok a /\ k a = Ok b.
Proof. destruct c; simpl; intros H; [eauto | discriminate]. Qed.

(** Splits a hypothesis [x <- c ;; k = Ok b]. *)
Ltac bind_inv H :=
  let a := fresh "a" in
  let E := fresh "E" in
  apply bind_Ok in H; destruct H as [a [E H]].

Lemma get_Ok v k d x :
  get v k d = Ok x ->
  exists entries, v = VDict entries /\
    x = match lookup entries k with Some w => w | None => d end.
Proof.
  destruct v; simpl; try discriminate.
  intros H. exists entries. split; [reflexivity|].
  destruct (lookup entries k); inversion H; reflexivity.
Qed.

Lemma get_path_empty path d x :
  path <> [] -> get_path (VDict []) path d = Ok x -> x = d.
Proof.
  induction path as [|k [|k' rest] IH]; intros Hne H.
  - congruence.
  - simpl in H. inversion H. reflexivity.
  - change (get_path (VDict []) (k :: k' :: rest) d)
      with (bind (get (VDict []) k (VDict []))
                 (fun v' => get_path v' (k' :: rest) d)) in H.
    simpl get in H. cbn [bind] in H. apply IH; [discriminate | exact H].
Qed.

(** A chain [v.get(k1, {})....get(kn, d)] that does not raise ends with
    the value at the place [k1...kn], or with [d] when there is none. *)
Lemma get_path_resolve path : forall v d x,
  path <> [] -> get_path v path d = Ok x -> x = resolve v path d.
Proof.
  induction path as [|k [|k' rest] IH]; intros v d x Hne H.
  - congruence.
  - simpl in H. apply get_Ok in H. destruct H as [entries [-> ->]].
    unfold resolve. simpl. destruct (lookup entries k); reflexivity.
  - change (get_path v (k :: k' :: rest) d)
      with (bind (get v k (VDict [])) (fun v' => get_path v' (k' :: rest) d))
      in H.
    bind_inv H. apply get_Ok in E. destruct E as [entries [-> ->]].
    unfold resolve.
    change (lookup_path (VDict entries) (keys (k :: k' :: rest)))
      with (match lookup entries k with
            | Some w => lookup_path w (keys (k' :: rest))
            | None => None
            end).
    destruct (lookup entries k) as [w|].
    + apply IH in H; [exact H | discriminate].
    + apply get_path_empty in H; [exact H | discriminate].
Qed.

Lemma field_resolve {A : Type} (conv : value -> result A) v path d a :
  path <> [] -> field conv v path d = Ok a -> conv (resolve v path d) = Ok a.
Proof.
  intros Hne H. unfold field in H. bind_inv H.
  apply get_path_resolve in E; [subst; exact H | exact Hne].
Qed.

(** The same below a first [get] that was bound to a name, as
    [graph_data] and [output_data] are. *)
Lemma field_resolve_under {A : Type} (conv : value -> result A)
    data k sub path d a :
  get data k (VDict []) = Ok sub ->
  path <> [] ->
  field conv sub path d = Ok a ->
  conv (resolve data (k :: path) d) = Ok a.
Proof.
  intros Hget Hne H. apply field_resolve; [discriminate|].
  unfold field in *. destruct path as [|k' rest]; [congruence|].
  change (get_path data (k :: k' :: rest) d)
    with (bind (get data k (VDict [])) (fun v' => get_path v' (k' :: rest) d)).
  rewrite Hget. exact H.
Qed.

(** The conversions are inverted by the injections of [to_dict]. *)
Lemma as_str_Ok v s : as_str v = Ok s -> v = VStr s.
Proof. destruct v; simpl; congruence. Qed.

Lemma as_int_Ok v z : as_int v = Ok z -> v = VInt z.
Proof. destruct v; simpl; congruence. Qed.

Lemma as_bool_Ok v b : as_bool v = Ok b -> v = VBool b.
Proof. destruct v; simpl; congruence. Qed.

Lemma as_number_Ok v n : as_number v = Ok n -> v = of_number n.
Proof. destruct v; simpl; intros H; inversion H; reflexivity. Qed.

Lemma as_opt_number_Ok v n : as_opt_number v = Ok n -> v = of_opt_number n.
Proof. destruct v; simpl; intros H; inversion H; reflexivity. Qed.

Lemma mapM_as_str_Ok l : forall ss,
  mapM as_str l = Ok ss -> l = map VStr ss.
Proof.
  induction l as [|v l IH]; simpl; intros ss H.
  - inversion H. reflexivity.
  - bind_inv H. bind_inv H. inversion H; subst. simpl.
    apply as_str_Ok in E. apply IH in E0. congruence.
Qed.

Lemma as_str_list_Ok v ss : as_str_list v = Ok ss -> v = of_str_list ss.
Proof.
  unfold as_str_list, as_list. destruct v; simpl; try discriminate.
  intros H. apply mapM_as_str_Ok in H. unfold of_str_list. congruence.
Qed.

Lemma mapM_as_str_map l : mapM as_str (map VStr l) = Ok l.
Proof. induction l as [|x l IH]; simpl; [|rewrite IH]; reflexivity. Qed.

Lemma as_str_list_of_str_list l : as_str_list (of_str_list l) = Ok l.
Proof. unfold as_str_list, of_str_list. simpl. apply mapM_as_str_map. Qed.

Lemma as_number_of_number n : as_number (of_number n) = Ok n.
Proof. destruct n; reflexivity. Qed.

Lemma as_opt_number_of_opt_number n :
  as_opt_number (of_opt_number n) = Ok n.
Proof. destruct n as [[|]|]; reflexivity. Qed.

(* ===================================================================== *)
(** ** What [from_dict] puts into each field                              *)
(* ===================================================================== *)

Section FromDict.

Variable data : value.
Variable graph_data : value.
Hypothesis Hgraph : get data "graph" (VDict []) = Ok graph_data.

(** Turns a successful [field] on [graph_data] into the value found in
    [data]. *)
Ltac under_graph H inv :=
  apply (field_resolve_under _ data "graph" graph_data _ _ _ Hgraph) in H;
  [apply inv in H | discriminate].

Lemma from_dict_axis_Ok axis a :
  from_dict_axis graph_data axis = Ok a ->
  resolve data ["graph"; axis; "label"] (VStr "") = VStr a.(axis_label) /\
  resolve data ["graph"; axis; "min"] VNone = of_opt_number a.(axis_min) /\
  resolve data ["graph"; axis; "max"] VNone = of_opt_number a.(axis_max).
Proof.
  unfold from_dict_axis. intros H.
  bind_inv H. bind_inv H. bind_inv H. inversion H; subst; simpl.
  under_graph E as_str_Ok. under_graph E0 as_opt_number_Ok.
  under_graph E1 as_opt_number_Ok. auto.
Qed.

Lemma from_dict_fonts_Ok f :
  from_dict_fonts graph_data = Ok f ->
  resolve data ["graph"; "style"; "fonts"; "title_size"] (VInt 16)
    = VInt f.(title_size) /\
  resolve data ["graph"; "style"; "fonts"; "label_size"] (VInt 12)
    = VInt f.(label_size) /\
  resolve data ["graph"; "style"; "fonts"; "legend_size"] (VInt 10)
    = VInt f.(legend_size).
Proof.
  unfold from_dict_fonts. intros H.
  bind_inv H. bind_inv H. bind_inv H. inversion H; subst; simpl.
  under_graph E as_int_Ok. under_graph E0 as_int_Ok. under_graph E1 as_int_Ok.
  auto.
Qed.

Lemma from_dict_grid_Ok g :
  from_dict_grid graph_data = Ok g ->
  resolve data ["graph"; "style"; "grid"; "show"] (VBool true)
    = VBool g.(show).
Proof.
  unfold from_dict_grid. intros H. bind_inv H. inversion H; subst; simpl.
  under_graph E as_bool_Ok. exact E.
Qed.

Lemma from_dict_line_style_Ok ls :
  from_dict_line_style graph_data = Ok ls ->
  resolve data markers_path (of_str_list from_dict_markers)
    = of_str_list ls.(markers) /\
  resolve data line_styles_path (of_str_list from_dict_line_styles)
    = of_str_list ls.(line_styles) /\
  resolve data ["graph"; "style"; "line_style"; "auto_cycle"] (VBool true)
    = VBool ls.(auto_cycle) /\
  resolve data ["graph"; "style"; "line_style"; "line_width"] (VFloat 2)
    = of_number ls.(line_width) /\
  resolve data ["graph"; "style"; "line_style"; "marker_size"] (VFloat 6)
    = of_number ls.(marker_size) /\
  LineStyleConfig_post_init ls = Ok ls.
Proof.
  unfold from_dict_line_style, LineStyleConfig_new. intros H.
  bind_inv H. bind_inv H. bind_inv H. bind_inv H. bind_inv H.
  pose proof (LineStyleConfig_post_init_ok _ _ H) as [Hls _].
  subst ls. cbn [markers line_styles auto_cycle line_width marker_size].
  under_graph E as_str_list_Ok. under_graph E0 as_str_list_Ok.
  under_graph E1 as_bool_Ok. under_graph E2 as_number_Ok.
  under_graph E3 as_number_Ok.
  unfold markers_path, line_styles_path. auto 10.
Qed.

Lemma from_dict_style_Ok s :
  from_dict_style graph_data = Ok s ->
  resolve data ["graph"; "style"; "width"] (VInt 10) = VInt s.(width) /\
  resolve data ["graph"; "style"; "height"] (VInt 10) = VInt s.(height) /\
  from_dict_fonts graph_data = Ok s.(fonts) /\
  from_dict_grid graph_data = Ok s.(grid) /\
  from_dict_line_style graph_data = Ok s.(line_style).
Proof.
  unfold from_dict_style. intros H.
  bind_inv H. bind_inv H. bind_inv H. bind_inv H. bind_inv H.
  inversion H; subst; simpl.
  under_graph E as_int_Ok. under_graph E0 as_int_Ok. auto.
Qed.

Lemma from_dict_title_Ok t :
  field as_str graph_data ["title"] (VStr "") = Ok t ->
  resolve data ["graph"; "title"] (VStr "") = VStr t.
Proof. intros H. under_graph H as_str_Ok. exact H. Qed.

End FromDict.

Lemma from_dict_graph_Ok data g :
  from_dict_graph data = Ok g ->
  exists graph_data,
    get data "graph" (VDict []) = Ok graph_data /\
    field as_str graph_data ["title"] (VStr "") = Ok g.(title) /\
    from_dict_axis graph_data "x_axis" = Ok g.(x_axis) /\
    from_dict_axis graph_data "y_axis" = Ok g.(y_axis) /\
    from_dict_style graph_data = Ok g.(style).
Proof.
  unfold from_dict_graph. intros H.
  bind_inv H. bind_inv H. bind_inv H. bind_inv H. bind_inv H.
  inversion H; subst; simpl. exists a. auto.
Qed.

Lemma from_dict_output_Ok data o :
  from_dict_output data = Ok o ->
  resolve data ["output"; "format"] (VStr "png") = VStr o.(format) /\
  resolve data ["output"; "dpi"] (VInt 300) = VInt o.(dpi) /\
  resolve data ["output"; "save_path"] (VStr "./output/graph.png")
    = VStr o.(save_path) /\
  OutputConfig_post_init o = Ok o.
Proof.
  unfold from_dict_output, OutputConfig_new. intros H.
  bind_inv H. bind_inv H. bind_inv H. bind_inv H.
  assert (Ho : o = mkOutputConfig a0 a1 a2).
  { unfold OutputConfig_post_init in H.
    destruct (negb _); [discriminate | congruence]. }
  subst o. cbn [format dpi save_path].
  apply (field_resolve_under _ data "output" a _ _ _ E) in E0;
    [apply as_str_Ok in E0 | discriminate].
  apply (field_resolve_under _ data "output" a _ _ _ E) in E1;
    [apply as_int_Ok in E1 | discriminate].
  apply (field_resolve_under _ data "output" a _ _ _ E) in E2;
    [apply as_str_Ok in E2 | discriminate].
  auto.
Qed.

Lemma from_dict_Ok data c :
  from_dict data = Ok c ->
  from_dict_graph data = Ok c.(graph) /\
  from_dict_data data = Ok c.(Config.data) /\
  from_dict_output data = Ok c.(output).
Proof.
  unfold from_dict. intros H. bind_inv H. bind_inv H. bind_inv H.
  inversion H; subst; simpl. auto.
Qed.

(** Every fixed field of [to_dict (from_dict m)] holds what the chain of
    [get]s of [from_dict] ended with. *)
Lemma to_dict_from_dict_fixed m c :
  from_dict m = Ok c ->
  forall p fallback, In (p, fallback) from_dict_fallback ->
    lookup_path (to_dict c) (keys p) = Some (resolve m p fallback).
Proof.
  intros H.
  apply from_dict_Ok in H. destruct H as [Hg [_ Ho]].
  apply from_dict_graph_Ok in Hg.
  destruct Hg as [gd [Hgd [Ht [Hx [Hy Hs]]]]].
  apply (from_dict_title_Ok m gd Hgd) in Ht.
  apply (from_dict_axis_Ok m gd Hgd) in Hx. destruct Hx as [Hx1 [Hx2 Hx3]].
  apply (from_dict_axis_Ok m gd Hgd) in Hy. destruct Hy as [Hy1 [Hy2 Hy3]].
  apply (from_dict_style_Ok m gd Hgd) in Hs.
  destruct Hs as [Hw [Hh [Hf [Hgr Hl]]]].
  apply (from_dict_fonts_Ok m gd Hgd) in Hf. destruct Hf as [Hf1 [Hf2 Hf3]].
  apply (from_dict_grid_Ok m gd Hgd) in Hgr.
  apply (from_dict_line_style_Ok m gd Hgd) in Hl.
  destruct Hl as [Hl1 [Hl2 [Hl3 [Hl4 [Hl5 _]]]]].
  apply from_dict_output_Ok in Ho. destruct Ho as [Ho1 [Ho2 [Ho3 _]]].
  intros p fb Hin. unfold from_dict_fallback in Hin.
  repeat (destruct Hin as [Hin | Hin];
          [inversion Hin; subst p fb; clear Hin;
           first [rewrite Ht | rewrite Hx1 | rewrite Hx2 | rewrite Hx3
                 | rewrite Hy1 | rewrite Hy2 | rewrite Hy3 | rewrite Hw
                 | rewrite Hh | rewrite Hf1 | rewrite Hf2 | rewrite Hf3
                 | rewrite Hgr | rewrite Hl1 | rewrite Hl2 | rewrite Hl3
                 | rewrite Hl4 | rewrite Hl5 | rewrite Ho1 | rewrite Ho2
                 | rewrite Ho3];
           reflexivity |]).
  destruct Hin.
Qed.

(* ===================================================================== *)
(** ** The style sequences of a mapping that leaves them out               *)
(* ===================================================================== *)

(** For every accepted mapping without [graph.style.line_style.markers],
    respectively [line_styles], the sequence is the fallback written in
    [from_dict]. *)
Lemma from_dict_absent_style_sequences m c :
  from_dict m = Ok c ->
  (lookup_path m (keys markers_path) = None ->
     c.(graph).(style).(line_style).(markers) = from_dict_markers) /\
  (lookup_path m (keys line_styles_path) = None ->
     c.(graph).(style).(line_style).(line_styles) = from_dict_line_styles).
Proof.
  intros H.
  pose proof (to_dict_from_dict_fixed m c H) as Hfix.
  split; intros Habs.
  - specialize (Hfix markers_path (of_str_list from_dict_markers)).
    unfold resolve in Hfix. rewrite Habs in Hfix.
    cbn in Hfix. assert (Hin : In (markers_path, of_str_list from_dict_markers)
                                  from_dict_fallback).
    { unfold from_dict_fallback. do 13 right. now left. }
    specialize (Hfix Hin). inversion Hfix as [Heq].
    clear -Heq. revert Heq.
    generalize (markers (line_style (style (graph c)))). intros l Heq.
    assert (Hl : mapM as_str (map VStr l) = Ok l) by apply mapM_as_str_map.
    rewrite Heq in Hl. vm_compute in Hl. inversion Hl. reflexivity.
  - specialize (Hfix line_styles_path (of_str_list from_dict_line_styles)).
    unfold resolve in Hfix. rewrite Habs in Hfix.
    cbn in Hfix.
    assert (Hin : In (line_styles_path, of_str_list from_dict_line_styles)
                     from_dict_fallback).
    { unfold from_dict_fallback. do 14 right. now left. }
    specialize (Hfix Hin). inversion Hfix as [Heq].
    clear -Heq. revert Heq.
    generalize (line_styles (line_style (style (graph c)))). intros l Heq.
    assert (Hl : mapM as_str (map VStr l) = Ok l) by apply mapM_as_str_map.
    rewrite Heq in Hl. vm_compute in Hl. inversion Hl. reflexivity.
Qed.

(** C3.  On the empty mapping, where both keys are absent, [from_dict]
    resolves the markers to twelve symbols and the line styles to four
    patterns: neither is the default of the dataclass field, which is the
    empty sequence for the markers and the single solid pattern for the
    line styles, as [Config()] has them. *)
Theorem from_dict_empty_mapping_style_sequences :
  exists c,
    from_dict (VDict []) = Ok c /\
    lookup_path (VDict []) (keys markers_path) = None /\
    lookup_path (VDict []) (keys line_styles_path) = None /\
    c.(graph).(style).(line_style).(markers)
      = ["o"; "s"; "^"; "v"; "<"; ">"; "p"; "*"; "+"; "x"; "D"; "h"] /\
    c.(graph).(style).(line_style).(line_styles) = ["-"; "--"; "-."; ":"] /\
    Config_default.(graph).(style).(line_style).(markers) = [] /\
    Config_default.(graph).(style).(line_style).(line_styles) = ["-"] /\
    c.(graph).(style).(line_style).(markers)
      <> Config_default.(graph).(style).(line_style).(markers) /\
    c.(graph).(style).(line_style).(line_styles)
      <> Config_default.(graph).(style).(line_style).(line_styles).
Proof.
  eexists. split; [vm_compute; reflexivity|].
  repeat (split; [reflexivity|]).
  split; cbn; discriminate.
Qed.

(* ===================================================================== *)
(** ** Style resolution and the sequences it indexes                      *)
(* ===================================================================== *)

(** C5, as the specification has it, fails: construction accepts an empty
    sequence of line styles, directly and through [from_dict], so the
    defaults do not make the indexed sequence non-empty. *)
Lemma empty_line_styles_are_accepted :
  (exists ls, LineStyleConfig_new ["o"] [] true (NFloat 2) (NFloat 6) = Ok ls /\
              ls.(line_styles) = []) /\
  (exists c,
     from_dict (VDict [("graph", VDict [("style", VDict [("line_style",
                  VDict [("line_styles", VList [])])])])]) = Ok c /\
     c.(graph).(style).(line_style).(line_styles) = []).
Proof.
  split; eexists; (split; [vm_compute; reflexivity | reflexivity]).
Qed.

(** What the amended C5 leaves out: in auto-cycle mode an empty sequence
    of line styles makes an empty cycle, and the first line to draw finds
    no entry in it; [create_graph] reports the failure and returns no
    figure. *)
Lemma auto_cycle_without_line_styles :
  create_graph scenario_sources "line" "Graph" "X" "Y"
    (Some (StyleObject
       (mkStyleConfig 10 10 FontsConfig_default GridConfig_default
          (mkLineStyleConfig ["o"] [] true (NFloat 2) (NFloat 6)))))
  = (None, [ErrorCreatingGraph StopIteration]).
Proof. vm_compute. reflexivity. Qed.

Lemma index_mod_nonempty (l : list string) (i : nat) :
  l <> [] ->
  exists x, index_mod l i = Ok x /\
            nth_error l (i mod length l) = Some x /\
            (i mod length l < length l)%nat.
Proof.
  intros Hne. unfold index_mod.
  destruct (length l) as [|n] eqn:El.
  - destruct l; [congruence | discriminate].
  - assert (Hlt : (i mod S n < length l)%nat).
    { rewrite El. apply Nat.mod_upper_bound. discriminate. }
    destruct (nth_error l (i mod S n)) as [x|] eqn:En.
    + exists x. rewrite <- El in *. auto.
    + apply nth_error_None in En. lia.
Qed.

Lemma manual_marker_is (sc : StyleConfig) (i : nat) :
  manual_marker (Some sc) i
    = Ok (manual_marker_of sc.(line_style).(markers) i).
Proof.
  unfold manual_marker, manual_marker_of.
  destruct (markers (line_style sc)) as [|m ms] eqn:E; [reflexivity|].
  cbn [nonempty].
  destruct (index_mod_nonempty (m :: ms) i) as [x [H1 [H2 _]]];
    [discriminate|].
  rewrite H1, H2. reflexivity.
Qed.

Lemma manual_linestyle_is (sc : StyleConfig) (i : nat) :
  manual_linestyle (Some sc) i
    = Ok (manual_linestyle_of sc.(line_style).(line_styles) i).
Proof.
  unfold manual_linestyle, manual_linestyle_of.
  destruct (line_styles (line_style sc)) as [|l ls] eqn:E; [reflexivity|].
  cbn [nonempty].
  destruct (index_mod_nonempty (l :: ls) i) as [x [H1 [H2 _]]];
    [discriminate|].
  rewrite H1. f_equal. symmetry. apply nth_error_nth. exact H2.
Qed.

(** C5, amended.  For every [LineStyleConfig] that construction accepts,
    whatever its sequences hold, and every series index: the manual
    selection is defined, because each indexing stands behind the test
    that its sequence is not empty -- the marker is the element at
    [i mod len(markers)], a valid symbol, or none when there are no
    markers; the line style is the element at [i mod len(line_styles)], or
    the solid ["-"] when there are none, a valid pattern either way; and
    the cycle of the auto-cycle mode has an entry for the index whenever
    the sequence of line styles is not empty. *)
Theorem style_resolution_is_defined :
  forall (sc : StyleConfig) (i : nat),
    LineStyleConfig_post_init sc.(line_style) = Ok sc.(line_style) ->
    (exists marker,
       manual_marker (Some sc) i = Ok marker /\
       (sc.(line_style).(markers) = [] -> marker = None) /\
       (sc.(line_style).(markers) <> [] ->
          exists x, marker = Some x /\
            nth_error sc.(line_style).(markers)
              (i mod length sc.(line_style).(markers)) = Some x /\
            In x valid_markers)) /\
    (exists linestyle,
       manual_linestyle (Some sc) i = Ok linestyle /\
       (sc.(line_style).(line_styles) = [] -> linestyle = "-") /\
       (sc.(line_style).(line_styles) <> [] ->
          nth_error sc.(line_style).(line_styles)
            (i mod length sc.(line_style).(line_styles)) = Some linestyle) /\
       In linestyle valid_line_styles) /\
    (sc.(line_style).(line_styles) <> [] ->
       exists items item,
         custom_cycler sc.(line_style) = Ok items /\
         nth_error items (i mod length items) = Some item).
Proof.
  intros sc i Hacc.
  apply LineStyleConfig_post_init_ok in Hacc.
  destruct Hacc as [_ [Hmk [Hls _]]].
  split; [|split].
  - exists (manual_marker_of (markers (line_style sc)) i).
    split; [apply manual_marker_is|]. unfold manual_marker_of.
    destruct (markers (line_style sc)) as [|m ms] eqn:E.
    + split; [reflexivity | congruence].
    + split; [discriminate|]. intros _.
      destruct (index_mod_nonempty (m :: ms) i) as [x [_ [H2 _]]];
        [discriminate|].
      exists x. split; [exact H2|]. split; [exact H2|].
      apply Hmk. eapply nth_error_In. exact H2.
  - exists (manual_linestyle_of (line_styles (line_style sc)) i).
    split; [apply manual_linestyle_is|]. unfold manual_linestyle_of.
    destruct (line_styles (line_style sc)) as [|l ls] eqn:E.
    + split; [reflexivity|]. split; [congruence|]. simpl. auto.
    + split; [discriminate|].
      destruct (index_mod_nonempty (l :: ls) i) as [x [_ [H2 _]]];
        [discriminate|].
      rewrite (nth_error_nth _ _ "-" H2).
      split; [intros _; exact H2|].
      apply Hls. eapply nth_error_In. exact H2.
  - intros Hne. unfold custom_cycler.
    assert (Hidx : forall items : list CycleItem, items <> [] ->
              exists item, nth_error items (i mod length items) = Some item).
    { intros items Hi.
      destruct (nth_error items (i mod length items)) as [it|] eqn:En;
        [eauto|].
      apply nth_error_None in En.
      assert (length items <> 0)%nat by (destruct items; simpl; congruence).
      pose proof (Nat.mod_upper_bound i (length items) H). lia. }
    destruct (markers (line_style sc)) as [|m ms] eqn:E.
    + exists (cycler_linestyle (line_styles (line_style sc))).
      destruct (Hidx (cycler_linestyle (line_styles (line_style sc))))
        as [item Hitem].
      { unfold cycler_linestyle.
        destruct (line_styles (line_style sc)); [congruence | discriminate]. }
      exists item. auto.
    + destruct (line_styles (line_style sc)) as [|l ls]; [congruence|].
      unfold cycler_marker_linestyle.
      rewrite !length_map, Nat.eqb_refl.
      cbn [combined_styles flat_map map app fst snd combine].
      match goal with
      | |- exists items item, Ok ?L = Ok items /\ _ =>
          destruct (Hidx L) as [item Hitem]; [discriminate|];
          exists L, item; split; [reflexivity | exact Hitem]
      end.
Qed.

Lemma style_resolution_is_defined_witness :
  let sc := mkStyleConfig 10 10 FontsConfig_default GridConfig_default
              (mkLineStyleConfig ["o"; "s"] [] false (NFloat 2) (NFloat 6)) in
  (exists marker,
     manual_marker (Some sc) 5 = Ok marker /\
     (sc.(line_style).(markers) = [] -> marker = None) /\
     (sc.(line_style).(markers) <> [] ->
        exists x, marker = Some x /\
          nth_error sc.(line_style).(markers)
            (5 mod length sc.(line_style).(markers)) = Some x /\
          In x valid_markers)) /\
  (exists linestyle,
     manual_linestyle (Some sc) 5 = Ok linestyle /\
     (sc.(line_style).(line_styles) = [] -> linestyle = "-") /\
     (sc.(line_style).(line_styles) <> [] ->
        nth_error sc.(line_style).(line_styles)
          (5 mod length sc.(line_style).(line_styles)) = Some linestyle) /\
     In linestyle valid_line_styles) /\
  (sc.(line_style).(line_styles) <> [] ->
     exists items item,
       custom_cycler sc.(line_style) = Ok items /\
       nth_error items (5 mod length items) = Some item).
Proof.
  intros sc. apply (style_resolution_is_defined sc 5). reflexivity.
Defined.

(* ===================================================================== *)
(** ** The product of markers and line styles                             *)
(* ===================================================================== *)

Lemma combine_fst_snd {A B : Type} (l : list (A * B)) :
  combine (map fst l) (map snd l) = l.
Proof.
  induction l as [|[a b] l IH]; simpl; [|rewrite IH]; reflexivity.
Qed.

Lemma length_combined_styles (ms ls : list string) :
  length (combined_styles ms ls) = (length ms * length ls)%nat.
Proof.
  unfold combined_styles. apply flat_map_constant_length.
  intros x _. apply length_map.
Qed.

(** Marker-major: the pair of the [a]-th marker and the [b]-th line
    style stands at [a * len(line_styles) + b]. *)
Lemma nth_error_combined_styles (ms ls : list string) :
  forall a b mk l,
    nth_error ms a = Some mk ->
    nth_error ls b = Some l ->
    nth_error (combined_styles ms ls) (a * length ls + b) = Some (mk, l).
Proof.
  unfold combined_styles.
  induction ms as [|m ms IH]; intros a b mk l Ha Hb.
  - destruct a; discriminate.
  - assert (Hlt : (b < length ls)%nat).
    { apply nth_error_Some. congruence. }
    destruct a as [|a]; simpl in Ha |- *.
    + inversion Ha; subst. rewrite nth_error_app1 by (rewrite length_map; lia).
      apply map_nth_error. exact Hb.
    + rewrite nth_error_app2 by (rewrite length_map; lia).
      rewrite length_map.
      replace (length ls + a * length ls + b - length ls)%nat
        with (a * length ls + b)%nat by lia.
      apply IH; assumption.
Qed.

Lemma custom_cycler_with_markers (ls : LineStyleConfig) :
  ls.(markers) <> [] ->
  ls.(line_styles) <> [] ->
  custom_cycler ls
    = Ok (map cycle_item_of (combined_styles ls.(markers) ls.(line_styles))).
Proof.
  intros Hne Hls. unfold custom_cycler.
  destruct (markers ls) as [|m ms] eqn:E; [congruence|].
  unfold cycler_marker_linestyle.
  rewrite !length_map, Nat.eqb_refl, combine_fst_snd.
  destruct (line_styles ls) as [|l rest]; [congruence|]. reflexivity.
Qed.

Lemma custom_cycler_without_line_styles (ls : LineStyleConfig) :
  ls.(markers) <> [] ->
  ls.(line_styles) = [] ->
  custom_cycler ls = Raise StopIteration.
Proof.
  intros Hne Hls. unfold custom_cycler.
  destruct (markers ls) as [|m ms] eqn:E; [congruence|].
  unfold cycler_marker_linestyle.
  rewrite !length_map, Nat.eqb_refl, Hls.
  replace (combined_styles (m :: ms) []) with (@nil (string * string));
    [reflexivity|].
  unfold combined_styles. clear. generalize (m :: ms).
  intros l. induction l as [|x xs IH]; [reflexivity|].
  cbn [flat_map map app]. exact IH.
Qed.

(* ===================================================================== *)
(** ** The loop over the data sources                                     *)
(* ===================================================================== *)

Lemma io_bind_Ok {A B : Type} (c : io A) (k : A -> io B) a out r out' :
  c = (Ok a, out) -> k a = (r, out') -> io_bind c k = (r, out ++ out').
Proof. intros -> H. unfold io_bind. rewrite H. reflexivity. Qed.

(** What [plot_source] does with a source it passes over, whatever the
    graph type and the style. *)
Lemma plot_source_skips graph_type style_config i s ax :
  drawn s = None -> single_column s = false ->
  exists out, plot_source graph_type style_config i s ax = (Ok ax, out).
Proof.
  unfold drawn, single_column, plot_source.
  destruct (src_dataframe s) as [[df|]|]; destruct (src_label s) as [label|];
    try (intros _ _; eexists; reflexivity).
  destruct (empty df) eqn:Ee; [intros _ _; eexists; reflexivity|].
  destruct df as [|[c0 x] [|[c1 y] df]]; try discriminate.
Qed.

Lemma io_bind_inv {A B : Type} (c : io A) (k : A -> io B) b out :
  io_bind c k = (Ok b, out) ->
  exists a out1 out2, c = (Ok a, out1) /\ k a = (Ok b, out2).
Proof.
  unfold io_bind. destruct c as [[a|e] out1]; [|discriminate].
  destruct (k a) as [r out2] eqn:Ek. intros H. inversion H; subst.
  exists a, out1, out2. auto.
Qed.

(** A frame with rows and a single column stops the loop. *)
Lemma plot_source_single_column graph_type so i s ax :
  single_column s = true ->
  plot_source graph_type so i s ax = (Raise IndexError, []).
Proof.
  unfold single_column, plot_source.
  destruct (src_dataframe s) as [[df|]|]; try discriminate;
    destruct (src_label s) as [l|]; try discriminate.
  intros H. apply andb_true_iff in H. destruct H as [He Hl].
  apply negb_true_iff in He. rewrite He.
  destruct df as [|[c0 x0] [|[c1 y0] rest]]; try reflexivity.
  discriminate Hl.
Qed.

Lemma plot_sources_single_column graph_type so srcs : forall i ax,
  (exists s, In s srcs /\ single_column s = true) ->
  exists e out, plot_sources graph_type so i srcs ax = (Raise e, out).
Proof.
  induction srcs as [|s0 srcs IH]; intros i ax [s [Hin Hs]]; [destruct Hin|].
  cbn [plot_sources].
  destruct (plot_source graph_type so i s0 ax) as [[ax'|e] out] eqn:E.
  - destruct Hin as [<- | Hin].
    + rewrite (plot_source_single_column _ _ _ _ _ Hs) in E. discriminate E.
    + destruct (IH (S i) ax' (ex_intro _ s (conj Hin Hs))) as [e [out' E']].
      exists e, (out ++ out'). unfold io_bind. rewrite E'. reflexivity.
  - exists e, out. reflexivity.
Qed.

Lemma plot_sources_Ok_no_single_column graph_type so srcs i ax ax' out :
  plot_sources graph_type so i srcs ax = (Ok ax', out) ->
  forall s, In s srcs -> single_column s = false.
Proof.
  intros H s Hin. destruct (single_column s) eqn:Es; [|reflexivity].
  destruct (plot_sources_single_column graph_type so srcs i ax
              (ex_intro _ s (conj Hin Es))) as [e [out' E]].
  rewrite E in H. discriminate H.
Qed.

(** *** The frame of [create_graph] around the loop *)

Lemma subplots_Ok figsize :
  (0 < fst figsize)%Z -> (0 < snd figsize)%Z -> subplots figsize = Ok new_axes.
Proof.
  intros Hw Hh. unfold subplots.
  destruct (Z.ltb_spec (fst figsize) 0); [lia|].
  destruct (Z.ltb_spec (snd figsize) 0); [lia|]. reflexivity.
Qed.

Lemma tight_layout_Ok figsize :
  (0 < fst figsize)%Z -> (0 < snd figsize)%Z -> tight_layout figsize = Ok tt.
Proof.
  intros Hw Hh. unfold tight_layout.
  destruct (Z.eqb_spec (fst figsize) 0); [lia|].
  destruct (Z.eqb_spec (snd figsize) 0); [lia|]. reflexivity.
Qed.

Lemma subplots_inv figsize ax :
  subplots figsize = Ok ax ->
  ax = new_axes /\ (0 <= fst figsize)%Z /\ (0 <= snd figsize)%Z.
Proof.
  unfold subplots.
  destruct (Z.ltb_spec (fst figsize) 0) as [Hw|Hw]; [discriminate|].
  destruct (Z.ltb_spec (snd figsize) 0) as [Hh|Hh]; [discriminate|].
  cbn [orb]. intros E. inversion E. auto.
Qed.

Lemma tight_layout_inv figsize u :
  tight_layout figsize = Ok u -> fst figsize <> 0%Z /\ snd figsize <> 0%Z.
Proof.
  unfold tight_layout.
  destruct (Z.eqb_spec (fst figsize) 0); [discriminate|].
  destruct (Z.eqb_spec (snd figsize) 0); [discriminate|]. auto.
Qed.

(** With a figure size that is positive, [create_graph] on a supported
    type and a batch that is not empty is the loop, once the style is
    read and the cycle is set up. *)
Lemma create_graph_run srcs graph_type title xl yl style_config so ax0 :
  validate_graph_type graph_type = true ->
  srcs <> [] ->
  style_object style_config = Ok so ->
  (0 < fst (figsize_of so))%Z ->
  (0 < snd (figsize_of so))%Z ->
  set_up_cycle graph_type so new_axes = Ok ax0 ->
  create_graph srcs graph_type title xl yl style_config
  = match plot_sources graph_type so 0 srcs ax0 with
    | (Ok ax', out) =>
        (Some {| figsize := figsize_of so;
                 ax := ax';
                 fig_title := title;
                 xlabel := xl;
                 ylabel := yl |}, out)
    | (Raise e, out) => (None, out ++ [ErrorCreatingGraph e])
    end.
Proof.
  intros Ht Hs Hso Hw Hh Hax. unfold create_graph.
  unfold validate_graph_type in Ht. rewrite Ht. cbn [negb].
  destruct srcs as [|s srcs]; [contradiction Hs; reflexivity|].
  unfold create_graph_try. rewrite Hso. unfold lift at 1. unfold io_bind at 1.
  change (match so with
          | Some sc => (width sc, height sc)
          | None => (10%Z, 6%Z)
          end) with (figsize_of so).
  rewrite (subplots_Ok _ Hw Hh). unfold lift at 1. unfold io_bind at 1.
  rewrite Hax. unfold lift at 1. unfold io_bind at 1.
  rewrite (tight_layout_Ok _ Hw Hh).
  destruct (plot_sources graph_type so 0 (s :: srcs) ax0) as [[ax'|e] out].
  - unfold io_bind, lift, ret. cbn [app]. rewrite !app_nil_r. reflexivity.
  - unfold io_bind. cbn [app]. reflexivity.
Qed.

(** What a figure returned by [create_graph] tells about the call. *)
Lemma create_graph_Some srcs graph_type title xl yl style_config fig out :
  create_graph srcs graph_type title xl yl style_config = (Some fig, out) ->
  exists so ax0 ax',
    style_object style_config = Ok so /\
    set_up_cycle graph_type so new_axes = Ok ax0 /\
    plot_sources graph_type so 0 srcs ax0 = (Ok ax', out) /\
    fig = {| figsize := figsize_of so;
             ax := ax';
             fig_title := title;
             xlabel := xl;
             ylabel := yl |} /\
    srcs <> [] /\
    validate_graph_type graph_type = true /\
    (0 < fst (figsize_of so))%Z /\ (0 < snd (figsize_of so))%Z.
Proof.
  unfold create_graph, validate_graph_type.
  destruct (str_in graph_type supported_types); cbn [negb]; [|discriminate].
  destruct srcs as [|s srcs]; [discriminate|].
  unfold create_graph_try.
  destruct (style_object style_config) as [so|e]; unfold lift at 1;
    unfold io_bind at 1; [|discriminate].
  change (match so with
          | Some sc => (width sc, height sc)
          | None => (10%Z, 6%Z)
          end) with (figsize_of so).
  destruct (subplots (figsize_of so)) as [ax1|e] eqn:Esub; unfold lift at 1;
    unfold io_bind at 1; [|discriminate].
  apply subplots_inv in Esub. destruct Esub as [-> [Hw Hh]].
  destruct (set_up_cycle graph_type so new_axes) as [ax0|e] eqn:Eset;
    unfold lift at 1; unfold io_bind at 1; [|discriminate].
  destruct (plot_sources graph_type so 0 (s :: srcs) ax0) as [[ax'|e] out1]
    eqn:Ep; unfold io_bind at 1; [|discriminate].
  destruct (tight_layout (figsize_of so)) as [u|e] eqn:Et; unfold lift at 1;
    unfold io_bind at 1; [|discriminate].
  apply tight_layout_inv in Et. destruct Et as [Hw0 Hh0].
  unfold ret. cbn [app]. rewrite !app_nil_r. intros H. inversion H. subst.
  exists so, ax0, ax'. repeat split; try reflexivity; try lia;
    try assumption.
  discriminate.
Qed.

(** *** Manual mode *)

Section Manual.

Variable sc : StyleConfig.
Hypothesis Hmanual : sc.(line_style).(auto_cycle) = false.

Lemma plot_line_manual i ax x y label :
  ax.(prop_cycle) = None ->
  exists ax',
    plot_line (Some sc) i ax x y label = Ok ax' /\
    ax'.(prop_cycle) = None /\
    ax'.(artists) = ax.(artists) ++ [manual_line sc.(line_style) i x y label].
Proof.
  intros Hc. unfold plot_line. rewrite Hmanual. unfold plot_manual.
  rewrite manual_marker_is, manual_linestyle_is. cbn [bind].
  unfold plot. rewrite Hc. eexists. split; [reflexivity|].
  split; reflexivity.
Qed.

Lemma plot_source_manual i s ax :
  ax.(prop_cycle) = None -> single_column s = false ->
  exists ax' out,
    plot_source "line" (Some sc) i s ax = (Ok ax', out) /\
    ax'.(prop_cycle) = None /\
    ax'.(artists) = ax.(artists) ++
      match drawn s with
      | Some (x, y, label) => [manual_line sc.(line_style) i x y label]
      | None => []
      end.
Proof.
  intros Hc Hs. destruct (drawn s) as [[[x y] label]|] eqn:Ed.
  - unfold drawn in Ed. unfold plot_source.
    destruct (src_dataframe s) as [[df|]|]; try discriminate.
    destruct (src_label s) as [l|]; try discriminate.
    destruct (empty df); try discriminate.
    destruct df as [|[c0 x0] [|[c1 y0] df]]; try discriminate.
    inversion Ed; subst. cbn [String.eqb Ascii.eqb Bool.eqb].
    destruct (plot_line_manual i ax x y label Hc) as [ax' [H1 [H2 H3]]].
    exists ax', []. unfold lift. rewrite H1. auto.
  - destruct (plot_source_skips "line" (Some sc) i s ax Ed Hs) as [out H].
    exists ax, out. rewrite app_nil_r. auto.
Qed.

Lemma plot_sources_manual srcs : forall i ax,
  ax.(prop_cycle) = None ->
  (forall s, In s srcs -> single_column s = false) ->
  exists ax' out,
    plot_sources "line" (Some sc) i srcs ax = (Ok ax', out) /\
    ax'.(prop_cycle) = None /\
    ax'.(artists) = ax.(artists) ++ manual_lines sc.(line_style) i srcs.
Proof.
  induction srcs as [|s srcs IH]; intros i ax Hc Hall.
  - exists ax, []. simpl. rewrite app_nil_r. auto.
  - destruct (plot_source_manual i s ax Hc) as [ax1 [out1 [H1 [H2 H3]]]].
    { apply Hall. now left. }
    destruct (IH (S i) ax1 H2) as [ax2 [out2 [H4 [H5 H6]]]].
    { intros s' Hs'. apply Hall. now right. }
    exists ax2, (out1 ++ out2). split; [|split; [exact H5|]].
    + cbn [plot_sources]. eapply io_bind_Ok; eassumption.
    + rewrite H6, H3. cbn [manual_lines]. rewrite app_assoc. reflexivity.
Qed.

End Manual.

Lemma manual_lines_In (ls : LineStyleConfig) (srcs : list PlotSource) :
  forall k i s x y label,
    nth_error srcs i = Some s ->
    drawn s = Some (x, y, label) ->
    In (manual_line ls (k + i) x y label) (manual_lines ls k srcs).
Proof.
  induction srcs as [|s0 srcs IH]; intros k i s x y label Hn Hd.
  - destruct i; discriminate.
  - cbn [manual_lines]. apply in_or_app. destruct i as [|i]; simpl in Hn.
    + inversion Hn; subst. rewrite Hd, Nat.add_0_r. left. now left.
    + right. replace (k + S i)%nat with (S k + i)%nat by lia.
      eapply IH; eassumption.
Qed.

Lemma set_up_cycle_manual sc ax :
  sc.(line_style).(auto_cycle) = false ->
  set_up_cycle "line" (Some sc) ax = Ok ax.
Proof. intros H. unfold set_up_cycle. rewrite H. reflexivity. Qed.

Lemma ordinary_size_positive figsize :
  ordinary_size figsize -> (0 < fst figsize)%Z /\ (0 < snd figsize)%Z.
Proof. intros [[Hw _] [Hh _]]. split; assumption. Qed.



(** *** Auto-cycle mode *)

Section AutoCycle.

Variable sc : StyleConfig.
Hypothesis Hauto : sc.(line_style).(auto_cycle) = true.
Variable items : list CycleItem.
Hypothesis Hsets : sets_linestyle items.

Lemma succ_mod (n len : nat) : (S (n mod len)) mod len = (S n) mod len.
Proof.
  destruct len as [|len]; [reflexivity|].
  replace (S (n mod S len)) with (n mod S len + 1)%nat by lia.
  replace (S n) with (n + 1)%nat by lia.
  apply Nat.Div0.add_mod_idemp_l.
Qed.

(** One line drawn by [plot_line] under the cycle. *)
Lemma plot_line_auto i ax x y label ax' :
  follows_cycle items ax ->
  plot_line (Some sc) i ax x y label = Ok ax' ->
  follows_cycle items ax' /\
  exists art, ax'.(artists) = ax.(artists) ++ [art] /\
              artist_label art = label.
Proof.
  intros [Hc [Hidx Hst]] H.
  unfold plot_line in H. rewrite Hauto in H. unfold plot in H.
  rewrite Hc in H.
  destruct (nth_error items (cycle_idx ax)) as [item|] eqn:En;
    [|discriminate].
  assert (Hl : cycle_linestyle item <> None).
  { apply Hsets. eapply nth_error_In. exact En. }
  assert (Hopen : leaves_open
            {| kw_label := label; kw_marker := None; kw_linestyle := None;
               kw_linewidth := line_width (line_style sc);
               kw_markersize := Some (marker_size (line_style sc)) |} item
          = true).
  { unfold leaves_open. cbn [kw_marker kw_linestyle].
    destruct (cycle_marker item); [reflexivity|].
    destruct (cycle_linestyle item); [reflexivity | congruence]. }
  rewrite Hopen in H. inversion H; subst ax'; clear H.
  unfold follows_cycle.
  cbn [prop_cycle cycle_idx artists kw_label kw_marker kw_linestyle
       kw_linewidth kw_markersize or_else].
  split.
  - split; [reflexivity|]. split.
    + rewrite length_app. cbn [length]. rewrite Nat.add_1_r.
      rewrite Hidx. apply succ_mod.
    + intros k art Hk.
      destruct (Nat.lt_ge_cases k (length (artists ax))) as [Hlt|Hge].
      * rewrite nth_error_app1 in Hk by exact Hlt. apply Hst. exact Hk.
      * rewrite nth_error_app2 in Hk by exact Hge.
        destruct (k - length (artists ax))%nat as [|j] eqn:Ej.
        -- assert (k = length (artists ax)) by lia. subst k.
           simpl in Hk. inversion Hk; subst art.
           exists item. rewrite <- Hidx. split; [exact En | reflexivity].
        -- destruct j; discriminate.
  - eexists. split; reflexivity.
Qed.

(** With an entry in the cycle, the line is drawn. *)
Lemma plot_line_auto_total i ax x y label :
  items <> [] ->
  follows_cycle items ax ->
  exists ax', plot_line (Some sc) i ax x y label = Ok ax'.
Proof.
  intros Hne [Hc [Hidx _]].
  unfold plot_line. rewrite Hauto. unfold plot. rewrite Hc.
  destruct (nth_error items (cycle_idx ax)) as [item|] eqn:En.
  - destruct (leaves_open _ item); eexists; reflexivity.
  - apply nth_error_None in En. rewrite Hidx in En.
    assert (length items <> 0)%nat by (destruct items; simpl; congruence).
    pose proof (Nat.mod_upper_bound (length (artists ax)) (length items) H).
    lia.
Qed.

Lemma plot_source_auto i s ax ax' out :
  follows_cycle items ax ->
  plot_source "line" (Some sc) i s ax = (Ok ax', out) ->
  follows_cycle items ax' /\
  map artist_label ax'.(artists)
    = map artist_label ax.(artists) ++ drawn_labels [s].
Proof.
  intros Hf H. unfold drawn_labels, drawn. cbn [flat_map].
  rewrite app_nil_r. unfold plot_source in H.
  destruct (src_dataframe s) as [[df|]|]; destruct (src_label s) as [label|];
    try (inversion H; subst; rewrite app_nil_r; auto; fail).
  destruct (empty df);
    [inversion H; subst; rewrite app_nil_r; auto|].
  destruct df as [|[c0 x] [|[c1 y] df]]; try discriminate.
  cbn [String.eqb Ascii.eqb Bool.eqb] in H. unfold lift in H.
  inversion H as [[H1 H2]].
  destruct (plot_line_auto i ax x y label ax' Hf H1) as [Hf' [art [Ha Hl]]].
  split; [exact Hf'|]. rewrite Ha, map_app. simpl. rewrite Hl. reflexivity.
Qed.

Lemma plot_source_auto_total i s ax :
  items <> [] ->
  single_column s = false ->
  follows_cycle items ax ->
  exists ax' out, plot_source "line" (Some sc) i s ax = (Ok ax', out).
Proof.
  intros Hne Hs Hf.
  destruct (drawn s) as [[[x y] label]|] eqn:Ed.
  - unfold drawn in Ed. unfold plot_source.
    destruct (src_dataframe s) as [[df|]|]; try discriminate.
    destruct (src_label s) as [l|]; try discriminate.
    destruct (empty df); try discriminate.
    destruct df as [|[c0 x0] [|[c1 y0] df]]; try discriminate.
    cbn [String.eqb Ascii.eqb Bool.eqb].
    destruct (plot_line_auto_total i ax x0 y0 l Hne Hf) as [ax' H].
    exists ax', []. unfold lift. rewrite H. reflexivity.
  - destruct (plot_source_skips "line" (Some sc) i s ax Ed Hs) as [out H].
    eauto.
Qed.

Lemma plot_sources_auto srcs : forall i ax ax' out,
  follows_cycle items ax ->
  plot_sources "line" (Some sc) i srcs ax = (Ok ax', out) ->
  follows_cycle items ax' /\
  map artist_label ax'.(artists)
    = map artist_label ax.(artists) ++ drawn_labels srcs.
Proof.
  induction srcs as [|s srcs IH]; intros i ax ax' out Hf H.
  - simpl in H. inversion H; subst. unfold drawn_labels. simpl.
    rewrite app_nil_r. auto.
  - cbn [plot_sources] in H. apply io_bind_inv in H.
    destruct H as [ax1 [out1 [out2 [H1 H2]]]].
    destruct (plot_source_auto i s ax ax1 out1 Hf H1) as [Hf1 Hl1].
    destruct (IH (S i) ax1 ax' out2 Hf1 H2) as [Hf2 Hl2].
    split; [exact Hf2|]. rewrite Hl2, Hl1, <- app_assoc.
    unfold drawn_labels. cbn [flat_map]. rewrite app_nil_r. reflexivity.
Qed.

Lemma plot_sources_auto_total srcs : forall i ax,
  items <> [] ->
  (forall s, In s srcs -> single_column s = false) ->
  follows_cycle items ax ->
  exists ax' out, plot_sources "line" (Some sc) i srcs ax = (Ok ax', out).
Proof.
  induction srcs as [|s srcs IH]; intros i ax Hne Hall Hf.
  - exists ax, []. reflexivity.
  - destruct (plot_source_auto_total i s ax Hne) as [ax1 [out1 H1]];
      [apply Hall; now left | exact Hf |].
    destruct (plot_source_auto i s ax ax1 out1 Hf H1) as [Hf1 _].
    destruct (IH (S i) ax1 Hne) as [ax2 [out2 H2]];
      [intros s' Hs'; apply Hall; now right | exact Hf1 |].
    exists ax2, (out1 ++ out2). cbn [plot_sources].
    eapply io_bind_Ok; eassumption.
Qed.

End AutoCycle.

Lemma set_up_cycle_auto sc items ax :
  sc.(line_style).(auto_cycle) = true ->
  custom_cycler sc.(line_style) = Ok items ->
  set_up_cycle "line" (Some sc) ax = Ok (set_prop_cycle ax items).
Proof.
  intros Hauto Hc. unfold set_up_cycle. rewrite Hauto, Hc. reflexivity.
Qed.

Lemma sets_linestyle_product (ms ls : list string) :
  sets_linestyle (map cycle_item_of (combined_styles ms ls)).
Proof.
  intros item Hin. apply in_map_iff in Hin. destruct Hin as [p [<- _]].
  discriminate.
Qed.

Lemma follows_cycle_start (items : list CycleItem) :
  follows_cycle items (set_prop_cycle new_axes items).
Proof.
  split; [reflexivity|]. split.
  - simpl. symmetry. apply Nat.Div0.mod_0_l.
  - intros k art Hk. destruct k; discriminate.
Qed.

(** The label of a source stands in the list of the labels drawn at the
    index of the source, when no source before it is passed over. *)
Lemma drawn_labels_at srcs : forall i s x y label,
  (forall j s', (j < i)%nat -> nth_error srcs j = Some s' ->
                drawn s' <> None) ->
  nth_error srcs i = Some s ->
  drawn s = Some (x, y, label) ->
  nth_error (drawn_labels srcs) i = Some label.
Proof.
  induction srcs as [|s0 srcs IH]; intros i s x y label Hbefore Hn Hd.
  - destruct i; discriminate Hn.
  - unfold drawn_labels. cbn [flat_map]. fold (drawn_labels srcs).
    destruct i as [|i].
    + cbn in Hn. inversion Hn; subst s0. rewrite Hd. reflexivity.
    + destruct (drawn s0) as [[[x0 y0] l0]|] eqn:E0.
      * cbn [app nth_error]. cbn in Hn.
        apply (IH i s x y label); [|exact Hn | exact Hd].
        intros j s' Hj Hs'. apply (Hbefore (S j) s'); [lia | exact Hs'].
      * exfalso. apply (Hbefore 0%nat s0); [lia | reflexivity | exact E0].
Qed.




(* ===================================================================== *)
(** ** The dictionary of loaded tables                                    *)
(* ===================================================================== *)

Lemma dict_set_keys (d : frames) (k : string) (v : DataFrame) :
  forall k', In k' (map fst (dict_set d k v)) <-> k' = k \/ In k' (map fst d).
Proof.
  induction d as [|[k0 v0] d IH]; intros k'; simpl.
  - intuition.
  - destruct (String.eqb_spec k0 k) as [->|Hne]; simpl.
    + intuition.
    + rewrite IH. intuition.
Qed.

Lemma dict_set_NoDup (d : frames) (k : string) (v : DataFrame) :
  NoDup (map fst d) -> NoDup (map fst (dict_set d k v)).
Proof.
  induction d as [|[k0 v0] d IH]; simpl; intros Hnd.
  - constructor; [intros [] | constructor].
  - inversion Hnd as [|? ? Hnot Hnd']; subst.
    destruct (String.eqb_spec k0 k) as [->|Hne]; simpl.
    + constructor; assumption.
    + constructor; [|apply IH; exact Hnd'].
      rewrite dict_set_keys. intros [->|Hin]; [congruence | contradiction].
Qed.

(** Assigning to a key replaces what was under it and leaves the other
    keys alone. *)
Lemma dict_set_In (d : frames) (k : string) (v : DataFrame) :
  NoDup (map fst d) ->
  forall k' v', In (k', v') (dict_set d k v) <->
                (k' = k /\ v' = v) \/ (k' <> k /\ In (k', v') d).
Proof.
  induction d as [|[k0 v0] d IH]; simpl; intros Hnd k' v'.
  - split.
    + intros [H|[]]. inversion H. auto.
    + intros [[-> ->]|[_ []]]. now left.
  - inversion Hnd as [|? ? Hnot Hnd']; subst.
    destruct (String.eqb_spec k0 k) as [->|Hne]; simpl.
    + split.
      * intros [H|H]; [inversion H; auto|].
        right. split; [|now right].
        intros ->. apply Hnot. apply in_map_iff. exists (k, v'). auto.
      * intros [[-> ->]|[Hk [H|H]]]; [now left | | now right].
        inversion H. congruence.
    + rewrite (IH Hnd'). split.
      * intros [H|[H|[Hk H]]]; [inversion H; subst; right; auto | auto |].
        right. auto.
      * intros [H|[Hk [H|H]]]; [right; now left | now left |].
        right. right. auto.
Qed.

Lemma dict_set_length (d : frames) (k : string) (v : DataFrame) :
  (length (dict_set d k v) <= S (length d))%nat.
Proof.
  induction d as [|[k0 v0] d IH]; simpl; [lia|].
  destruct (String.eqb k0 k); simpl; lia.
Qed.

(** A new key goes to the end. *)
Lemma dict_set_new (d : frames) (k : string) (v : DataFrame) :
  ~ In k (map fst d) -> dict_set d k v = d ++ [(k, v)].
Proof.
  induction d as [|[k0 v0] d IH]; simpl; intros Hnot; [reflexivity|].
  destruct (String.eqb_spec k0 k) as [->|Hne]; [tauto|].
  rewrite IH; [reflexivity | tauto].
Qed.

Lemma last_with_None label l :
  last_with label l = None <-> ~ In label (map fst l).
Proof.
  induction l as [|[k df] l IH]; simpl; [tauto|].
  destruct (last_with label l) as [df'|].
  - split; [discriminate|]. intros H. exfalso. apply H. right.
    destruct (in_dec string_dec label (map fst l)) as [Hin|Hnin];
      [exact Hin|]. apply IH in Hnin. discriminate.
  - destruct (String.eqb_spec k label) as [->|Hne].
    + split; [discriminate | tauto].
    + split; [|reflexivity]. intros _ [H|H]; [congruence|].
      apply (proj1 IH); [reflexivity | exact H].
Qed.

(** The dictionary after a run of assignments: its keys are distinct,
    they are the keys there before and the labels assigned, and under
    each label stands the table assigned last. *)
Lemma set_all_spec l : forall d,
  NoDup (map fst d) ->
  NoDup (map fst (set_all l d)) /\
  (forall k, In k (map fst (set_all l d))
             <-> In k (map fst d) \/ In k (map fst l)) /\
  (forall k v, In (k, v) (set_all l d)
               <-> last_with k l = Some v \/
                   (last_with k l = None /\ In (k, v) d)) /\
  (length (set_all l d) <= length d + length l)%nat.
Proof.
  induction l as [|[k0 v0] l IH]; intros d Hnd.
  - simpl. split; [exact Hnd|]. split; [intuition|]. split; [|lia].
    intros k v. split; [auto | intros [H|[_ H]]; [discriminate | exact H]].
  - change (set_all ((k0, v0) :: l) d) with (set_all l (dict_set d k0 v0)).
    destruct (IH (dict_set d k0 v0) (dict_set_NoDup d k0 v0 Hnd))
      as [H1 [H2 [H3 H4]]].
    split; [exact H1|]. split; [|split].
    + intros k. rewrite H2, dict_set_keys. simpl. intuition.
    + intros k v. rewrite H3, (dict_set_In d k0 v0 Hnd). simpl.
      destruct (last_with k l) as [df'|] eqn:El.
      * split; intros [H|[H _]]; auto; discriminate.
      * destruct (String.eqb_spec k0 k) as [->|Hne].
        -- split.
           ++ intros [H|[_ [[_ ->]|[Hk _]]]]; [discriminate | auto | congruence].
           ++ intros [H|[H _]]; [|discriminate]. inversion H. auto.
        -- split.
           ++ intros [H|[_ [[Hk _]|[_ H]]]];
                [discriminate | congruence | auto].
           ++ intros [H|[_ H]]; [discriminate|]. right. split; [reflexivity|].
              right. split; [congruence | exact H].
    + pose proof (dict_set_length d k0 v0). simpl. lia.
Qed.

(** Distinct labels: the dictionary is the run itself. *)
Lemma set_all_distinct l : forall d,
  NoDup (map fst d ++ map fst l) -> set_all l d = d ++ l.
Proof.
  induction l as [|[k0 v0] l IH]; intros d Hnd.
  - simpl. now rewrite app_nil_r.
  - change (set_all ((k0, v0) :: l) d) with (set_all l (dict_set d k0 v0)).
    simpl in Hnd.
    assert (Hnot : ~ In k0 (map fst d)).
    { apply NoDup_remove_2 in Hnd. intros H. apply Hnd.
      apply in_or_app. now left. }
    rewrite (dict_set_new d k0 v0 Hnot). rewrite IH.
    + rewrite <- app_assoc. reflexivity.
    + rewrite map_app, <- app_assoc. exact Hnd.
Qed.

(* ===================================================================== *)
(** ** Loading a batch                                                    *)
(* ===================================================================== *)

(** [load_csv] returns a table exactly for a file that parses to two
    columns or more, and the table has the two columns [x] and [y]. *)
Lemma table_of_two_columns read_csv f df :
  table_of read_csv f = Some df ->
  exists xs ys, df = [("x", xs); ("y", ys)].
Proof.
  unfold table_of, load_csv.
  destruct (read_csv f) as [[|[c0 xs] [|[c1 ys] d]]| | | |]; simpl;
    try discriminate.
  intros H. inversion H. eauto.
Qed.

(** One turn of the loop on a source of the configuration. *)
Lemma load_source_entry read_csv d e :
  exists out,
    load_source read_csv d (source_dict e)
      = (Ok (match loads read_csv e with
             | Some p => dict_set d (fst p) (snd p)
             | None => d
             end), out) /\
    Forall load_line out /\
    (forall f, e.(entry_file) = Some f -> f <> "" ->
               loads read_csv e = None -> In (FailedToLoad f) out).
Proof.
  destruct e as [[f|] [l|]]; unfold load_source, source_dict, loads, table_of;
    cbn [entry_file entry_label app get lookup String.eqb Ascii.eqb Bool.eqb
         lift io_bind as_opt_str ret fst snd].
  all: try (exists []; split; [reflexivity|]; split; [constructor|];
            intros f0 Hf; discriminate).
  all: destruct (String.eqb_spec f "") as [->|Hne];
    [exists []; split; [reflexivity|]; split; [constructor|];
     intros f0 Hf Hf0; inversion Hf; congruence |].
  all: unfold load_csv;
    destruct (read_csv f) as [[|[c0 xs] [|[c1 ys] df]]| | | |];
    cbn [io_bind print ret fst snd app as_str lift];
    eexists; (split; [reflexivity|]);
    (split; [repeat constructor |]);
    intros f0 Hf _ Hnone; inversion Hf; subst;
    try discriminate Hnone; simpl; auto.
Qed.

Lemma loaded_cons read_csv e srcs :
  loaded read_csv (e :: srcs)
  = match loads read_csv e with Some p => [p] | None => [] end
    ++ loaded read_csv srcs.
Proof. reflexivity. Qed.

(** The loop: the dictionary is the run of assignments of the sources
    that load, every source that names a file and does not load has its
    warning, and nothing else is printed but the lines of the loader. *)
Lemma load_sources_entries read_csv srcs : forall d,
  exists out,
    load_sources read_csv d (map source_dict srcs)
      = (Ok (set_all (loaded read_csv srcs) d), out) /\
    Forall load_line out /\
    (forall e f, In e srcs -> e.(entry_file) = Some f -> f <> "" ->
                 loads read_csv e = None -> In (FailedToLoad f) out).
Proof.
  induction srcs as [|e srcs IH]; intros d.
  - exists []. split; [reflexivity|]. split; [constructor|].
    intros e f [].
  - destruct (load_source_entry read_csv d e) as [out1 [H1 [H2 H3]]].
    destruct (IH (match loads read_csv e with
                  | Some p => dict_set d (fst p) (snd p)
                  | None => d
                  end)) as [out2 [H4 [H5 H6]]].
    exists (out1 ++ out2). split; [|split].
    + cbn [map load_sources].
      rewrite (io_bind_Ok _ _ _ _ _ _ H1 H4). f_equal. f_equal.
      rewrite loaded_cons. destruct (loads read_csv e); reflexivity.
    + apply Forall_app. auto.
    + intros e0 f [<-|Hin] Hf Hne Hnone; apply in_or_app.
      * left. eapply H3; eassumption.
      * right. eapply H6; eassumption.
Qed.

(* ===================================================================== *)
(** ** Drawing a batch without style                                      *)
(* ===================================================================== *)

Lemma supported_cases graph_type :
  In graph_type supported_types ->
  graph_type = "line" \/ graph_type = "bar" \/ graph_type = "scatter".
Proof. simpl. intuition. Qed.

Lemma plot_source_unstyled graph_type i s ax :
  In graph_type supported_types ->
  ax.(prop_cycle) = None ->
  single_column s = false ->
  exists ax' out,
    plot_source graph_type None i s ax = (Ok ax', out) /\
    ax'.(prop_cycle) = None /\
    map artist_label ax'.(artists)
      = map artist_label ax.(artists) ++ drawn_labels [s] /\
    ~ In FailedToLoadAny out.
Proof.
  intros Hsup Hc Hs. unfold drawn_labels. cbn [flat_map]. rewrite app_nil_r.
  destruct (drawn s) as [[[x y] label]|] eqn:Ed.
  - unfold drawn in Ed. unfold plot_source.
    destruct (src_dataframe s) as [[df|]|]; try discriminate.
    destruct (src_label s) as [l|]; try discriminate.
    destruct (empty df); try discriminate.
    destruct df as [|[c0 x0] [|[c1 y0] df]]; try discriminate.
    inversion Ed; subst.
    destruct (supported_cases graph_type Hsup) as [-> | [-> | ->]];
      cbn [String.eqb Ascii.eqb Bool.eqb].
    + unfold plot_line, plot_manual, manual_marker, manual_linestyle, plot.
      cbn [bind kw_marker kw_linestyle]. rewrite Hc.
      eexists. exists []. split; [reflexivity|].
      cbn [prop_cycle artists]. rewrite map_app.
      split; [reflexivity|]. split; [reflexivity | intros []].
    + eexists. exists []. split; [reflexivity|].
      unfold bar. cbn [prop_cycle artists]. rewrite map_app.
      split; [exact Hc|]. split; [reflexivity | intros []].
    + eexists. exists []. split; [reflexivity|].
      unfold scatter. cbn [prop_cycle artists]. rewrite map_app.
      split; [exact Hc|]. split; [reflexivity | intros []].
  - exists ax. rewrite app_nil_r.
    unfold drawn in Ed. unfold single_column in Hs. unfold plot_source.
    destruct (src_dataframe s) as [[df|]|]; destruct (src_label s) as [l|];
      try (eexists; split; [reflexivity|]; split; [exact Hc|];
           split; [reflexivity|]; simpl; intuition discriminate).
    destruct (empty df) eqn:Ee;
      [eexists; split; [reflexivity|]; split; [exact Hc|];
       split; [reflexivity|]; simpl; intuition discriminate |].
    destruct df as [|[c0 x] [|[c1 y] df]]; discriminate.
Qed.

Lemma plot_sources_unstyled graph_type srcs : forall i ax,
  In graph_type supported_types ->
  ax.(prop_cycle) = None ->
  (forall s, In s srcs -> single_column s = false) ->
  exists ax' out,
    plot_sources graph_type None i srcs ax = (Ok ax', out) /\
    ax'.(prop_cycle) = None /\
    map artist_label ax'.(artists)
      = map artist_label ax.(artists) ++ drawn_labels srcs /\
    ~ In FailedToLoadAny out.
Proof.
  induction srcs as [|s srcs IH]; intros i ax Hsup Hc Hall.
  - exists ax, []. unfold drawn_labels. simpl. rewrite app_nil_r.
    repeat split; auto.
  - destruct (plot_source_unstyled graph_type i s ax Hsup Hc)
      as [ax1 [out1 [H1 [H2 [H3 H4]]]]]; [apply Hall; now left|].
    destruct (IH (S i) ax1 Hsup H2) as [ax2 [out2 [H5 [H6 [H7 H8]]]]];
      [intros s' Hs'; apply Hall; now right|].
    exists ax2, (out1 ++ out2). split; [|split; [exact H6|split]].
    + cbn [plot_sources]. eapply io_bind_Ok; eassumption.
    + rewrite H7, H3, <- app_assoc. unfold drawn_labels. cbn [flat_map].
      rewrite app_nil_r. reflexivity.
    + intros Hin. apply in_app_or in Hin. tauto.
Qed.

(** [create_graph] with a style argument that is passed over. *)
Lemma create_graph_unstyled srcs graph_type title xl yl style_config :
  style_object style_config = Ok None ->
  In graph_type supported_types ->
  srcs <> [] ->
  (forall s, In s srcs -> single_column s = false) ->
  exists fig out,
    create_graph srcs graph_type title xl yl style_config = (Some fig, out) /\
    map artist_label fig.(ax).(artists) = drawn_labels srcs /\
    ~ In FailedToLoadAny out.
Proof.
  intros Hst Hsup Hne Hall.
  destruct (plot_sources_unstyled graph_type srcs 0 new_axes Hsup eq_refl Hall)
    as [ax' [out [H1 [_ [H3 H4]]]]].
  rewrite (create_graph_run srcs graph_type title xl yl style_config None
             new_axes (proj2 (str_in_In graph_type supported_types) Hsup)
             Hne Hst eq_refl eq_refl eq_refl).
  rewrite H1. eexists. eexists. split; [reflexivity|]. cbn [ax]. auto.
Qed.

(** The sources made of a dictionary of two-column tables. *)
Lemma data_sources_of_two_columns (dataframes : frames) :
  (forall k df, In (k, df) dataframes ->
                exists xs ys, df = [("x", xs); ("y", ys)]) ->
  (forall s, In s (data_sources_of dataframes) -> single_column s = false) /\
  drawn_labels (data_sources_of dataframes)
    = map fst (filter (fun p => negb (empty (snd p))) dataframes).
Proof.
  induction dataframes as [|[k df] d IH]; intros Hcols.
  - split; [intros s [] | reflexivity].
  - destruct IH as [IH1 IH2].
    { intros k' df' Hin. apply (Hcols k' df'). now right. }
    destruct (Hcols k df) as [xs [ys ->]]; [now left|].
    split.
    + intros s [<-|Hin]; [|apply IH1; exact Hin].
      unfold single_column. simpl. apply Bool.andb_false_r.
    + unfold drawn_labels in *. cbn [data_sources_of map flat_map].
      fold (data_sources_of d). rewrite IH2.
      unfold drawn. cbn [src_dataframe src_label filter snd fst].
      destruct (empty [("x", xs); ("y", ys)]); reflexivity.
Qed.

(* ===================================================================== *)
(** ** From the configuration to the figure                               *)
(* ===================================================================== *)

(** [create_graph_from_config] on a configuration whose sources are
    dictionaries of strings: the batch is loaded, and the dictionary of
    the tables decides between giving up and drawing. *)
Lemma create_graph_from_config_runs read_csv config gt title xl yl style_v
    srcs :
  (exists entries, config = VDict entries) ->
  config_arguments config
    = Ok (gt, title, xl, yl, style_v, VList (map source_dict srcs)) ->
  srcs <> [] ->
  exists out_load,
    Forall load_line out_load /\
    (forall e f, In e srcs -> e.(entry_file) = Some f -> f <> "" ->
                 loads read_csv e = None -> In (FailedToLoad f) out_load) /\
    create_graph_from_config read_csv config
    = match set_all (loaded read_csv srcs) [] with
      | [] => (Ok None, out_load ++ [FailedToLoadAny])
      | _ :: _ =>
          (Ok (fst (create_graph_from_dataframes
                      (set_all (loaded read_csv srcs) []) gt title xl yl
                      (Some (StyleValue style_v)))),
           out_load ++
           snd (create_graph_from_dataframes
                  (set_all (loaded read_csv srcs) []) gt title xl yl
                  (Some (StyleValue style_v))))
      end.
Proof.
  intros [entries ->] Hargs Hne.
  destruct (load_sources_entries read_csv srcs []) as [out [H1 [H2 H3]]].
  exists out. split; [exact H2|]. split; [exact H3|].
  unfold create_graph_from_config. rewrite Hargs.
  unfold lift at 1. unfold io_bind at 1.
  destruct srcs as [|e srcs]; [congruence|].
  cbn [map truthy negb as_list].
  unfold lift at 1. unfold io_bind at 1.
  unfold load_multiple_csvs.
  change (source_dict e :: map source_dict srcs)
    with (map source_dict (e :: srcs)).
  rewrite H1. unfold io_bind at 1.
  destruct (set_all (loaded read_csv (e :: srcs)) []) as [|p d] eqn:Es.
  - unfold io_bind, print, ret. cbn [app]. reflexivity.
  - destruct (create_graph_from_dataframes (p :: d) gt title xl yl
                (Some (StyleValue style_v))) as [fig out']. reflexivity.
Qed.

Lemma set_all_nil_iff (l : list (string * DataFrame)) :
  set_all l [] = [] <-> l = [].
Proof.
  destruct (set_all_spec l [] (NoDup_nil _)) as [_ [Hk _]].
  split.
  - intros Hs. destruct l as [|[k v] l]; [reflexivity|].
    exfalso. specialize (Hk k). rewrite Hs in Hk. simpl in Hk. tauto.
  - intros ->. reflexivity.
Qed.

Lemma loaded_two_columns read_csv srcs :
  forall k df, In (k, df) (loaded read_csv srcs) ->
               exists xs ys, df = [("x", xs); ("y", ys)].
Proof.
  intros k df Hin. unfold loaded in Hin. apply in_flat_map in Hin.
  destruct Hin as [e [_ Hin]]. unfold loads in Hin.
  destruct (entry_file e) as [f|]; [|destruct Hin].
  destruct (String.eqb f ""); [destruct Hin|].
  destruct (table_of read_csv f) as [df'|] eqn:Et; [|destruct Hin].
  destruct Hin as [Hin|[]]. inversion Hin; subst.
  eapply table_of_two_columns. exact Et.
Qed.

Lemma last_with_In label l df :
  last_with label l = Some df -> In (label, df) l.
Proof.
  induction l as [|[k v] l IH]; simpl; [discriminate|].
  destruct (last_with label l) as [df'|].
  - intros H. inversion H; subst. right. now apply IH.
  - destruct (String.eqb_spec k label) as [->|Hne]; [|discriminate].
    intros H. inversion H. now left.
Qed.

Lemma set_all_two_columns read_csv srcs :
  forall k df, In (k, df) (set_all (loaded read_csv srcs) []) ->
               exists xs ys, df = [("x", xs); ("y", ys)].
Proof.
  intros k df Hin.
  destruct (set_all_spec (loaded read_csv srcs) [] (NoDup_nil _))
    as [_ [_ [Hv _]]].
  apply Hv in Hin. destruct Hin as [Hin|[_ []]].
  apply last_with_In in Hin. eapply loaded_two_columns. exact Hin.
Qed.

(** What [create_graph] prints is never the line of the empty batch. *)
Lemma io_bind_log {A B : Type} (c : io A) (k : A -> io B) (m : message) :
  ~ In m (snd c) -> (forall a, ~ In m (snd (k a))) ->
  ~ In m (snd (io_bind c k)).
Proof.
  destruct c as [[a|e] out]; simpl; intros Hc Hk; [|exact Hc].
  specialize (Hk a). destruct (k a) as [r out']. simpl in *.
  intros Hin. apply in_app_or in Hin. tauto.
Qed.

Lemma plot_source_log graph_type style_config i s ax :
  ~ In FailedToLoadAny (snd (plot_source graph_type style_config i s ax)).
Proof.
  unfold plot_source.
  destruct (src_dataframe s) as [[df|]|]; destruct (src_label s) as [l|];
    try (simpl; intuition discriminate).
  destruct (empty df); [simpl; intuition discriminate|].
  destruct df as [|[c0 x] [|[c1 y] df]]; try (simpl; tauto).
  destruct (String.eqb graph_type "line"); [simpl; tauto|].
  destruct (String.eqb graph_type "bar"); [simpl; tauto|].
  destruct (String.eqb graph_type "scatter"); simpl; tauto.
Qed.

Lemma plot_sources_log graph_type style_config srcs : forall i ax,
  ~ In FailedToLoadAny (snd (plot_sources graph_type style_config i srcs ax)).
Proof.
  induction srcs as [|s srcs IH]; intros i ax; [simpl; tauto|].
  cbn [plot_sources]. apply io_bind_log.
  - apply plot_source_log.
  - intros a. apply IH.
Qed.

Lemma create_graph_log srcs graph_type title xl yl style_config :
  ~ In FailedToLoadAny
      (snd (create_graph srcs graph_type title xl yl style_config)).
Proof.
  unfold create_graph.
  destruct (negb (str_in graph_type supported_types));
    [simpl; intuition discriminate|].
  destruct srcs as [|s0 srcs]; [simpl; intuition discriminate|].
  assert (H : ~ In FailedToLoadAny
                (snd (create_graph_try (s0 :: srcs) graph_type title xl yl
                        style_config))).
  { unfold create_graph_try. apply io_bind_log; [simpl; tauto|].
    intros st. apply io_bind_log; [simpl; tauto|].
    intros ax0. apply io_bind_log; [simpl; tauto|].
    intros ax1. apply io_bind_log; [apply plot_sources_log|].
    intros ax2. apply io_bind_log; [simpl; tauto|].
    intros u. simpl. tauto. }
  destruct (create_graph_try (s0 :: srcs) graph_type title xl yl style_config)
    as [[fig|e] out]; simpl in *; [exact H|].
  intros Hin. apply in_app_or in Hin. destruct Hin as [Hin|[Hin|[]]];
    [tauto | discriminate].
Qed.

Lemma load_line_not_empty_batch (out : list message) :
  Forall load_line out -> ~ In FailedToLoadAny out.
Proof.
  intros H Hin. rewrite Forall_forall in H. exact (H _ Hin).
Qed.

(* ===================================================================== *)
(** ** Batches                                                            *)
(* ===================================================================== *)


(** Why the amended C6 asks for a configuration without style mapping:
    [create_graph_from_config] hands the mapping itself to
    [create_graph], which reads attributes of it. *)
Lemma style_mapping_gives_no_figure :
  create_graph_from_config scenario_reader
    (VDict [("graph", VDict [("style", VDict [("width", VInt 10)])]);
            ("data", VDict [("sources",
               VList (map source_dict scenario_batch))])])
  = (Ok None, [CsvLoadError "b.csv"; FailedToLoad "b.csv";
               ErrorCreatingGraph AttributeError]).
Proof. vm_compute. reflexivity. Qed.




(* ===================================================================== *)
(** ** The data sources of a mapping                                      *)
(* ===================================================================== *)

Lemma as_list_Ok v l : as_list v = Ok l -> v = VList l.
Proof. destruct v; simpl; congruence. Qed.

Lemma add_source_Ok dc f lab dc' :
  add_source dc f lab = Ok dc' ->
  f <> "" /\
  dc'.(sources) = dc.(sources) ++ [mkDataSource f (resolved_label f lab)].
Proof.
  unfold add_source, DataSource_new, DataSource_post_init.
  cbn [file label]. destruct (String.eqb_spec f "") as [->|Hne];
    [discriminate|].
  intros H. split; [exact Hne|].
  destruct lab as [l|]; cbn [resolved_label].
  - destruct (String.eqb l ""); cbn [bind] in H; inversion H; reflexivity.
  - destruct (String.eqb (stem f) ""); cbn [bind] in H; inversion H;
      reflexivity.
Qed.

(** The loop of [from_dict] over [data.sources] appends one source for
    each entry. *)
Lemma from_dict_sources_Ok l : forall dc dc',
  from_dict_sources dc l = Ok dc' ->
  exists new, dc'.(sources) = dc.(sources) ++ new /\ Forall2 source_of l new.
Proof.
  induction l as [|v l IH]; intros dc dc' H.
  - simpl in H. inversion H; subst. exists []. rewrite app_nil_r.
    split; [reflexivity | constructor].
  - cbn [from_dict_sources] in H. bind_inv H. bind_inv H. bind_inv H.
    apply field_resolve in E; [|discriminate].
    apply field_resolve in E0; [|discriminate].
    apply add_source_Ok in E1. destruct E1 as [Hf Hs].
    destruct (IH _ _ H) as [new [Hnew Hall]].
    exists (mkDataSource a (resolved_label a a0) :: new). split.
    + rewrite Hnew, Hs, <- app_assoc. reflexivity.
    + constructor; [|exact Hall]. exists a, a0. auto.
Qed.

Lemma from_dict_data_Ok m dc :
  from_dict_data m = Ok dc ->
  exists l,
    resolve m ["data"; "sources"] (VList []) = VList l /\
    Forall2 source_of l dc.(sources).
Proof.
  unfold from_dict_data. intros H. bind_inv H.
  apply field_resolve in E; [|discriminate]. apply as_list_Ok in E.
  apply from_dict_sources_Ok in H. destruct H as [new [Hnew Hall]].
  simpl in Hnew. subst new. exists a. auto.
Qed.

Lemma Forall2_nth_error_left {A B : Type} (R : A -> B -> Prop) l l' :
  Forall2 R l l' ->
  forall i x, nth_error l i = Some x ->
              exists y, nth_error l' i = Some y /\ R x y.
Proof.
  induction 1 as [|x0 y0 l l' Hxy Hall IH]; intros i x Hi.
  - destruct i; discriminate.
  - destruct i as [|i]; simpl in Hi.
    + inversion Hi; subst. exists y0. auto.
    + apply IH. exact Hi.
Qed.

Lemma to_dict_source_field c i k :
  lookup_path (to_dict c) [Key "data"; Key "sources"; Index i; Key k]
  = match nth_error c.(Config.data).(sources) i with
    | Some s => lookup_path (to_dict_source s) [Key k]
    | None => None
    end.
Proof.
  cbn [lookup_path to_dict lookup String.eqb Ascii.eqb Bool.eqb].
  rewrite nth_error_map.
  destruct (nth_error (sources (Config.data c)) i); reflexivity.
Qed.

Lemma resolve_present v k d w :
  lookup_path v [Key k] = Some w -> resolve v [k] d = w.
Proof. unfold resolve. cbn [keys map]. intros ->. reflexivity. Qed.

Lemma resolve_absent v k d :
  lookup_path v [Key k] = None -> resolve v [k] d = d.
Proof. unfold resolve. cbn [keys map]. intros ->. reflexivity. Qed.

(* ===================================================================== *)
(** ** Reading back what [to_dict] wrote                                  *)
(* ===================================================================== *)

Lemma source_of_stable entry s : source_of entry s -> stable_source s.
Proof.
  intros [f [lab [_ [_ [Hf ->]]]]]. split; [exact Hf|].
  cbn [label file]. destruct lab as [l|]; cbn [resolved_label]; [|auto].
  destruct (String.eqb_spec l "") as [->|Hne]; [auto | congruence].
Qed.

(** What [from_dict] returns was constructed. *)
Lemma from_dict_constructed m c : from_dict m = Ok c -> constructed c.
Proof.
  intros H. apply from_dict_Ok in H. destruct H as [Hg [Hd Ho]].
  apply from_dict_graph_Ok in Hg.
  destruct Hg as [gd [Hgd [_ [_ [_ Hs]]]]].
  apply (from_dict_style_Ok m gd Hgd) in Hs.
  destruct Hs as [_ [_ [_ [_ Hl]]]].
  apply (from_dict_line_style_Ok m gd Hgd) in Hl.
  destruct Hl as [_ [_ [_ [_ [_ Hl]]]]].
  apply from_dict_output_Ok in Ho. destruct Ho as [_ [_ [_ Ho]]].
  apply from_dict_data_Ok in Hd. destruct Hd as [l [_ Hall]].
  split; [exact Hl|]. split; [exact Ho|].
  clear -Hall. induction Hall as [|entry s l l' Hs Hall IH]; constructor.
  - eapply source_of_stable. exact Hs.
  - exact IH.
Qed.

Lemma from_dict_sources_to_dict srcs : forall dc,
  Forall stable_source srcs ->
  from_dict_sources dc (map to_dict_source srcs)
    = Ok {| sources := dc.(sources) ++ srcs |}.
Proof.
  induction srcs as [|[f l] srcs IH]; intros dc Hall.
  - simpl. rewrite app_nil_r. destruct dc. reflexivity.
  - inversion Hall as [|? ? [Hf Hl] Hall']; subst. cbn [file label] in Hf, Hl.
    cbn [map from_dict_sources].
    unfold field, to_dict_source.
    cbn [file label get_path get lookup String.eqb Ascii.eqb Bool.eqb bind
         as_str].
    unfold as_label, truthy.
    unfold add_source, DataSource_new, DataSource_post_init.
    destruct (String.eqb_spec l "") as [->|Hne]; cbn [negb bind file label];
      destruct (String.eqb_spec f "") as [->|_]; try congruence.
    + rewrite (Hl eq_refl). cbn [String.eqb bind].
      change (fun source : DataSource =>
                VDict [("file", VStr (file source));
                       ("label", VStr (label source))])
        with to_dict_source.
      rewrite IH by exact Hall'.
      cbn [sources]. rewrite <- app_assoc. reflexivity.
    + destruct (String.eqb_spec l "") as [->|_]; [congruence|]. cbn [bind].
      change (fun source : DataSource =>
                VDict [("file", VStr (file source));
                       ("label", VStr (label source))])
        with to_dict_source.
      rewrite IH by exact Hall'.
      cbn [sources]. rewrite <- app_assoc. reflexivity.
Qed.

Lemma from_dict_graph_to_dict c :
  LineStyleConfig_post_init c.(graph).(style).(line_style)
    = Ok c.(graph).(style).(line_style) ->
  from_dict_graph (to_dict c) = Ok c.(graph).
Proof.
  destruct c as [[t [xl xmin xmax] [yl ymin ymax]
                    [w h [f1 f2 f3] [sh] [mk ls ac lw ms]]] dc o].
  cbn [graph style line_style]. intros Hls.
  unfold from_dict_graph, to_dict.
  cbn [graph title x_axis y_axis style width height fonts grid line_style
       title_size label_size legend_size show markers line_styles auto_cycle
       line_width marker_size to_dict_axis axis_label axis_min axis_max
       get lookup String.eqb Ascii.eqb Bool.eqb bind].
  unfold from_dict_axis, from_dict_style, from_dict_fonts, from_dict_grid,
    from_dict_line_style, field, to_dict_axis.
  cbn [get_path get lookup String.eqb Ascii.eqb Bool.eqb bind
       as_str as_int as_bool axis_label axis_min axis_max].
  rewrite !as_opt_number_of_opt_number. cbn [bind].
  rewrite !as_str_list_of_str_list. cbn [bind].
  rewrite !as_number_of_number. cbn [bind].
  unfold LineStyleConfig_new. rewrite Hls. reflexivity.
Qed.

Lemma from_dict_output_to_dict c :
  OutputConfig_post_init c.(output) = Ok c.(output) ->
  from_dict_output (to_dict c) = Ok c.(output).
Proof.
  destruct c as [g dc [fmt d sp]]. cbn [output]. intros Ho.
  unfold from_dict_output, to_dict, field.
  cbn [output format dpi save_path get_path get lookup String.eqb Ascii.eqb
       Bool.eqb bind as_str as_int].
  unfold OutputConfig_new. exact Ho.
Qed.

Lemma from_dict_data_to_dict c :
  Forall stable_source c.(Config.data).(sources) ->
  from_dict_data (to_dict c) = Ok c.(Config.data).
Proof.
  destruct c as [g [srcs] o]. cbn [Config.data sources]. intros Hall.
  unfold from_dict_data, to_dict, field.
  cbn [Config.data sources get_path get lookup String.eqb Ascii.eqb Bool.eqb
       bind as_list].
  rewrite from_dict_sources_to_dict by exact Hall. reflexivity.
Qed.

(** Constructing again from the mapping of a constructed configuration
    gives the configuration back. *)
Lemma from_dict_to_dict c : constructed c -> from_dict (to_dict c) = Ok c.
Proof.
  intros [Hl [Ho Hs]]. unfold from_dict.
  rewrite (from_dict_graph_to_dict c Hl). cbn [bind].
  rewrite (from_dict_data_to_dict c Hs). cbn [bind].
  rewrite (from_dict_output_to_dict c Ho). cbn [bind].
  destruct c. reflexivity.
Qed.

(* ===================================================================== *)
(** ** The round trip                                                     *)
(* ===================================================================== *)

Lemma fixed_fields_fallback p :
  In p fixed_fields -> exists fallback, In (p, fallback) from_dict_fallback.
Proof.
  change fixed_fields with (map fst from_dict_fallback).
  intros H. apply in_map_iff in H. destruct H as [[p' fb] [<- Hin]].
  exists fb. exact Hin.
Qed.

(** C4, as the specification has it, fails: a label that the mapping
    gives as the empty string or as [0] is not reproduced, the stem of
    the file stands in its place; and a key that is not one of the
    configuration, here [graph.type], is not carried over. *)
Lemma falsy_label_and_unknown_key_are_not_reproduced :
  exists c,
    from_dict
      (VDict [("graph", VDict [("title", VStr "T"); ("type", VStr "bar")]);
              ("data", VDict [("sources",
                 VList [VDict [("file", VStr "a.csv"); ("label", VStr "")];
                        VDict [("file", VStr "b.csv"); ("label", VInt 0)]])])])
      = Ok c /\
    lookup_path
      (VDict [("graph", VDict [("title", VStr "T"); ("type", VStr "bar")]);
              ("data", VDict [("sources",
                 VList [VDict [("file", VStr "a.csv"); ("label", VStr "")];
                        VDict [("file", VStr "b.csv"); ("label", VInt 0)]])])])
      (source_label_path 0) = Some (VStr "") /\
    lookup_path (to_dict c) (source_label_path 0) = Some (VStr "a") /\
    lookup_path
      (VDict [("graph", VDict [("title", VStr "T"); ("type", VStr "bar")]);
              ("data", VDict [("sources",
                 VList [VDict [("file", VStr "a.csv"); ("label", VStr "")];
                        VDict [("file", VStr "b.csv"); ("label", VInt 0)]])])])
      (source_label_path 1) = Some (VInt 0) /\
    lookup_path (to_dict c) (source_label_path 1) = Some (VStr "b") /\
    lookup_path
      (VDict [("graph", VDict [("title", VStr "T"); ("type", VStr "bar")]);
              ("data", VDict [("sources",
                 VList [VDict [("file", VStr "a.csv"); ("label", VStr "")];
                        VDict [("file", VStr "b.csv"); ("label", VInt 0)]])])])
      (keys ["graph"; "type"]) = Some (VStr "bar") /\
    lookup_path (to_dict c) (keys ["graph"; "type"]) = None.
Proof.
  eexists. split; [vm_compute; reflexivity|].
  repeat split; reflexivity.
Qed.

Lemma lookup_path_app v p q :
  lookup_path v (p ++ q)
  = match lookup_path v p with
    | Some w => lookup_path w q
    | None => None
    end.
Proof.
  revert v. induction p as [|[k|i] p IH]; intros v; [reflexivity| |].
  - cbn [app lookup_path]. destruct v; try reflexivity.
    destruct (lookup entries k); [apply IH | reflexivity].
  - cbn [app lookup_path]. destruct v; try reflexivity.
    destruct (nth_error items i); [apply IH | reflexivity].
Qed.

(** A field of the [i]-th source is a field of the [i]-th entry. *)
Lemma lookup_source_entry m i k :
  lookup_path m [Key "data"; Key "sources"; Index i; Key k]
  = match lookup_path m [Key "data"; Key "sources"; Index i] with
    | Some entry => lookup_path entry [Key k]
    | None => None
    end.
Proof.
  exact (lookup_path_app m [Key "data"; Key "sources"; Index i] [Key k]).
Qed.

Lemma from_dict_source_at m c i entry :
  from_dict m = Ok c ->
  lookup_path m [Key "data"; Key "sources"; Index i] = Some entry ->
  exists s, nth_error c.(Config.data).(sources) i = Some s /\
            source_of entry s.
Proof.
  intros H Hv. apply from_dict_Ok in H. destruct H as [_ [Hd _]].
  apply from_dict_data_Ok in Hd. destruct Hd as [l [Hl Hall]].
  unfold resolve in Hl.
  change [Key "data"; Key "sources"; Index i]
    with (keys ["data"; "sources"] ++ [Index i]) in Hv.
  rewrite lookup_path_app in Hv.
  destruct (lookup_path m (keys ["data"; "sources"])) as [w|];
    [|discriminate].
  subst w. cbn [lookup_path] in Hv.
  destruct (nth_error l i) as [e|] eqn:En; [|discriminate].
  inversion Hv; subst e.
  exact (Forall2_nth_error_left _ _ _ Hall i entry En).
Qed.

Lemma lookup_In entries k :
  lookup entries k <> None -> In k (map fst entries).
Proof.
  induction entries as [|[k' v] entries IH]; cbn [lookup map fst];
    [congruence|].
  destruct (String.eqb_spec k' k) as [->|_]; [left; reflexivity|].
  intros H. right. apply IH. exact H.
Qed.

Lemma lookup_path_key entries k :
  lookup_path (VDict entries) [Key k] = lookup entries k.
Proof. cbn [lookup_path]. destruct (lookup entries k); reflexivity. Qed.

(** The mappings that [to_dict] writes have the keys of the
    configuration and no other. *)
Lemma to_dict_schema_keys c p ks k :
  In (p, ks) schema_keys ->
  lookup_path (to_dict c) (keys (p ++ [k])) <> None ->
  In k ks.
Proof.
  intros Hin. unfold keys. rewrite map_app. cbn [map].
  rewrite lookup_path_app. unfold schema_keys in Hin.
  repeat (destruct Hin as [Hin|Hin];
          [inversion Hin; subst p ks; try clear Hin;
           match goal with
           | |- match ?L with _ => _ end <> None -> _ =>
               let L' := eval cbn in L in change L with L'
           end;
           cbv beta iota; try unfold to_dict; try unfold to_dict_axis;
           rewrite lookup_path_key; intros H; apply lookup_In in H; exact H
          |]).
  destruct Hin.
Qed.

(** C4, amended.  For every mapping that [from_dict] accepts,
    [to_dict (from_dict m)] reproduces every fixed field of the
    configuration present in [m], the file of every data source, and its
    label unless that is falsy; it fills every absent fixed field other
    than the two style sequences with the default of [Config()], an
    absent list of sources with the empty list, and an absent or falsy
    label with the stem of the file; it has the keys of the
    configuration and no other, so that what [m] holds under another key
    is not carried over; and constructing again from the result gives
    the same configuration, hence the same mapping. *)
Theorem round_trip_reproduces_and_fills :
  forall (m : value) (c : Config),
    from_dict m = Ok c ->
    (forall p v, In p fixed_fields ->
       lookup_path m (keys p) = Some v ->
       lookup_path (to_dict c) (keys p) = Some v) /\
    (forall i v,
       lookup_path m (source_file_path i) = Some v ->
       lookup_path (to_dict c) (source_file_path i) = Some v) /\
    (forall i v,
       lookup_path m (source_label_path i) = Some v ->
       truthy v = true ->
       lookup_path (to_dict c) (source_label_path i) = Some v) /\
    (forall p, In p fixed_fields ->
       p <> markers_path -> p <> line_styles_path ->
       lookup_path m (keys p) = None ->
       lookup_path (to_dict c) (keys p) = documented_default p) /\
    (lookup_path m (keys ["data"; "sources"]) = None ->
     lookup_path (to_dict c) (keys ["data"; "sources"]) = Some (VList [])) /\
    (forall i f,
       lookup_path m (source_file_path i) = Some (VStr f) ->
       lookup_path m (source_label_path i) = None \/
       (exists v, lookup_path m (source_label_path i) = Some v /\
                  truthy v = false) ->
       lookup_path (to_dict c) (source_label_path i) = Some (VStr (stem f))) /\
    (forall p ks k, In (p, ks) schema_keys ->
       lookup_path (to_dict c) (keys (p ++ [k])) <> None -> In k ks) /\
    (forall i k,
       lookup_path (to_dict c) [Key "data"; Key "sources"; Index i; Key k]
         <> None ->
       In k ["file"; "label"]) /\
    from_dict (to_dict c) = Ok c /\
    (forall c', from_dict (to_dict c) = Ok c' -> to_dict c' = to_dict c).
Proof.
  intros m c H.
  pose proof (to_dict_from_dict_fixed m c H) as Hfix.
  pose proof (from_dict_to_dict c (from_dict_constructed m c H)) as Hidem.
  assert (Hsrc : forall i k v,
            lookup_path m [Key "data"; Key "sources"; Index i; Key k] = v ->
            v <> None ->
            exists entry f lab,
              lookup_path entry [Key k] = v /\
              as_str (resolve entry ["file"] (VStr "")) = Ok f /\
              as_label (resolve entry ["label"] VNone) = Ok lab /\
              (forall k', lookup_path m
                            [Key "data"; Key "sources"; Index i; Key k']
                          = lookup_path entry [Key k']) /\
              (forall k', lookup_path (to_dict c)
                            [Key "data"; Key "sources"; Index i; Key k']
                          = lookup_path
                              (to_dict_source
                                 (mkDataSource f (resolved_label f lab)))
                              [Key k'])).
  { intros i k v Hv Hne. rewrite lookup_source_entry in Hv.
    destruct (lookup_path m [Key "data"; Key "sources"; Index i])
      as [entry|] eqn:Ee; [|congruence].
    destruct (from_dict_source_at m c i entry H Ee)
      as [s [Hn [f [lab [Hf [Hl [_ ->]]]]]]].
    exists entry, f, lab. split; [exact Hv|]. split; [exact Hf|].
    split; [exact Hl|]. split.
    - intros k'. rewrite lookup_source_entry, Ee. reflexivity.
    - intros k'. rewrite to_dict_source_field, Hn. reflexivity. }
  split; [|split; [|split; [|split; [|split; [|split; [|split;
    [|split; [|split]]]]]]]].
  - intros p v Hin Hv. destruct (fixed_fields_fallback p Hin) as [fb Hfb].
    rewrite (Hfix p fb Hfb). unfold resolve. rewrite Hv. reflexivity.
  - intros i v Hv.
    destruct (Hsrc i "file" (Some v) Hv ltac:(discriminate))
      as [entry [f [lab [Hk [Hf [_ [_ Hout]]]]]]].
    unfold source_file_path. rewrite Hout.
    rewrite (resolve_present entry "file" (VStr "") v Hk) in Hf.
    apply as_str_Ok in Hf. subst v. reflexivity.
  - intros i v Hv Htrue.
    destruct (Hsrc i "label" (Some v) Hv ltac:(discriminate))
      as [entry [f [lab [Hk [_ [Hl [_ Hout]]]]]]].
    unfold source_label_path. rewrite Hout.
    rewrite (resolve_present entry "label" VNone v Hk) in Hl.
    unfold as_label in Hl. rewrite Htrue in Hl.
    destruct v; try discriminate Hl.
    inversion Hl; subst lab. cbn [resolved_label].
    cbn [truthy] in Htrue. apply negb_true_iff in Htrue. rewrite Htrue.
    reflexivity.
  - intros p Hin Hm Hl Hv. destruct (fixed_fields_fallback p Hin) as [fb Hfb].
    rewrite (Hfix p fb Hfb). unfold resolve. rewrite Hv.
    clear -Hfb Hm Hl. unfold from_dict_fallback in Hfb.
    repeat (destruct Hfb as [Hfb|Hfb];
            [inversion Hfb; subst p fb; clear Hfb;
             first [congruence | reflexivity] |]).
    destruct Hfb.
  - intros Hv. pose proof H as H'.
    apply from_dict_Ok in H'. destruct H' as [_ [Hd _]].
    apply from_dict_data_Ok in Hd. destruct Hd as [l [Hl Hall]].
    unfold resolve in Hl. rewrite Hv in Hl. inversion Hl; subst l.
    inversion Hall as [E1 E2 | ]; subst.
    destruct c as [g [srcs] o]. simpl in *. subst srcs. reflexivity.
  - intros i f Hf Hlab.
    destruct (Hsrc i "file" (Some (VStr f)) Hf ltac:(discriminate))
      as [entry [f' [lab [Hk [Hf' [Hl [Hin Hout]]]]]]].
    rewrite (resolve_present entry "file" (VStr "") (VStr f) Hk) in Hf'.
    inversion Hf'; subst f'.
    unfold source_label_path in *. rewrite Hout. rewrite !Hin in Hlab.
    assert (Hres : resolved_label f lab = stem f).
    { destruct Hlab as [Hlab|[v [Hlab Hfalse]]].
      - rewrite (resolve_absent entry "label" VNone Hlab) in Hl.
        inversion Hl. reflexivity.
      - rewrite (resolve_present entry "label" VNone _ Hlab) in Hl.
        unfold as_label in Hl. rewrite Hfalse in Hl.
        inversion Hl. reflexivity. }
    cbn [to_dict_source lookup_path lookup String.eqb Ascii.eqb Bool.eqb
         label file].
    rewrite Hres. reflexivity.
  - apply to_dict_schema_keys.
  - intros i k. rewrite to_dict_source_field.
    destruct (nth_error (sources (Config.data c)) i) as [src|];
      [|congruence].
    unfold to_dict_source. rewrite lookup_path_key.
    intros Hk. apply lookup_In in Hk. exact Hk.
  - exact Hidem.
  - intros c' Hc'. rewrite Hidem in Hc'. inversion Hc'. reflexivity.
Qed.

Lemma round_trip_reproduces_and_fills_witness :
  exists c,
    from_dict partial_mapping = Ok c /\
    lookup_path (to_dict c) (keys ["graph"; "title"])
      = Some (VStr "Test Graph") /\
    lookup_path (to_dict c) (keys ["graph"; "style"; "width"])
      = Some (VInt 10) /\
    lookup_path (to_dict c) (source_label_path 0) = Some (VStr "ex1") /\
    from_dict (to_dict c) = Ok c.
Proof.
  eexists. split; [vm_compute; reflexivity|].
  match goal with
  | |- lookup_path (to_dict ?c) _ = _ /\ _ =>
      destruct (round_trip_reproduces_and_fills partial_mapping c eq_refl)
        as [H1 [_ [_ [H4 [_ [H6 [_ [_ [H7 _]]]]]]]]]
  end.
  split; [|split; [|split]].
  - apply H1; [simpl; auto | reflexivity].
  - rewrite (H4 ["graph"; "style"; "width"]);
      [reflexivity | simpl; auto 10 | discriminate | discriminate
      | reflexivity].
  - apply (H6 0%nat "data/ex1.csv"); [reflexivity | left; reflexivity].
  - exact H7.
Defined.

(* ===================================================================== *)
(** ** Further properties of [core/config.py]                             *)
(* ===================================================================== *)

Lemma check_each_first valid err xs :
  check_each valid err xs = Ok tt \/
  exists before bad rest,
    xs = before ++ bad :: rest /\
    (forall x, In x before -> In x valid) /\
    ~ In bad valid /\
    check_each valid err xs = Raise (ValueError (err bad)).
Proof.
  induction xs as [|x xs IH]; [left; reflexivity|].
  cbn [check_each]. destruct (str_in x valid) eqn:Ex.
  - destruct IH as [IH | [before [bad [rest [E [Hb [Hn Hr]]]]]]];
      [left; exact IH|].
    right. exists (x :: before), bad, rest. subst xs.
    split; [reflexivity|]. split; [|split; assumption].
    intros y [<- | Hy]; [apply str_in_In; exact Ex | apply Hb; exact Hy].
  - right. exists [], x, xs. split; [reflexivity|].
    split; [intros y []|]. split; [apply str_in_not_In; exact Ex | reflexivity].
Qed.

Lemma LineStyleConfig_post_init_accepts self :
  (forall m, In m self.(markers) -> In m valid_markers) ->
  (forall s, In s self.(line_styles) -> In s valid_line_styles) ->
  positive self.(line_width) ->
  positive self.(marker_size) ->
  LineStyleConfig_post_init self = Ok self.
Proof.
  intros Hm Hs Hw Hz. unfold LineStyleConfig_post_init.
  rewrite (proj2 (check_each_ok _ _ _) Hm). cbn [bind].
  rewrite (proj2 (check_each_ok _ _ _) Hs). cbn [bind].
  unfold positive in Hw, Hz. rewrite Hw, Hz. reflexivity.
Qed.

(** X1 ([LineStyleConfig.__post_init__]).  A line style configuration is
    constructed exactly when every marker and every line style is one of
    the valid ones and the line width and the marker size are positive;
    the empty sequences are accepted, [auto_cycle] is not looked at, and
    the object holds the fields as they were given. *)
Theorem line_style_config_accepts_exactly_valid :
  forall (markers line_styles : list string) (auto_cycle : bool)
         (line_width marker_size : number),
    ((exists ls, LineStyleConfig_new markers line_styles auto_cycle line_width
                   marker_size = Ok ls)
     <->
     (forall m, In m markers -> In m valid_markers) /\
     (forall s, In s line_styles -> In s valid_line_styles) /\
     positive line_width /\ positive marker_size) /\
    (forall ls,
       LineStyleConfig_new markers line_styles auto_cycle line_width
         marker_size = Ok ls ->
       ls = mkLineStyleConfig markers line_styles auto_cycle line_width
              marker_size).
Proof.
  intros mk lst ac lw ms. unfold LineStyleConfig_new. split; [split|].
  - intros [ls H]. apply LineStyleConfig_post_init_ok in H.
    destruct H as [_ [Hm [Hs [Hw Hz]]]]. cbn in Hm, Hs, Hw, Hz.
    repeat split; assumption.
  - intros [Hm [Hs [Hw Hz]]]. eexists.
    apply LineStyleConfig_post_init_accepts; assumption.
  - intros ls H. apply LineStyleConfig_post_init_ok in H. apply H.
Qed.

(** X2 ([LineStyleConfig.__post_init__]).  The checks run in a fixed
    order and the first one that fails decides the error: with valid
    markers, the first invalid line style is the one reported, whatever
    the sizes are; with valid sequences, a non-positive line width is
    reported before the marker size is looked at; the marker size is
    reported only when the line width is positive. *)
Theorem line_style_config_reports_first_failure :
  forall (markers line_styles : list string) (auto_cycle : bool)
         (line_width marker_size : number),
    (forall m, In m markers -> In m valid_markers) ->
    (forall before bad rest,
       line_styles = before ++ bad :: rest ->
       (forall s, In s before -> In s valid_line_styles) ->
       ~ In bad valid_line_styles ->
       LineStyleConfig_new markers line_styles auto_cycle line_width
         marker_size = Raise (ValueError (InvalidLineStyle bad))) /\
    ((forall s, In s line_styles -> In s valid_line_styles) ->
     number_le0 line_width = true ->
     LineStyleConfig_new markers line_styles auto_cycle line_width
       marker_size = Raise (ValueError LineWidthNotPositive)) /\
    ((forall s, In s line_styles -> In s valid_line_styles) ->
     positive line_width ->
     number_le0 marker_size = true ->
     LineStyleConfig_new markers line_styles auto_cycle line_width
       marker_size = Raise (ValueError MarkerSizeNotPositive)).
Proof.
  intros mk lst ac lw ms Hm.
  unfold LineStyleConfig_new, LineStyleConfig_post_init.
  cbn [Config.markers Config.line_styles Config.line_width Config.marker_size].
  rewrite (proj2 (check_each_ok _ _ _) Hm). cbn [bind].
  split; [|split].
  - intros before bad rest E Hb Hn.
    destruct (check_each_first valid_line_styles InvalidLineStyle lst)
      as [Hok | [before' [bad' [rest' [E' [Hb' [Hn' Hr]]]]]]].
    + exfalso. apply Hn. apply (proj1 (check_each_ok _ _ _) Hok).
      rewrite E. apply in_or_app. right. left. reflexivity.
    + rewrite Hr. cbn [bind].
      assert (Hsame : bad' = bad); [|rewrite Hsame; reflexivity].
      clear Hr. subst lst. revert before' E' Hb'.
      induction before as [|b before IH]; intros [|b' before'] E' Hb'.
      * inversion E'. reflexivity.
      * inversion E'. subst. exfalso. apply Hn. apply Hb'. left. reflexivity.
      * inversion E'. subst. exfalso. apply Hn'. apply Hb. left. reflexivity.
      * inversion E'. subst. apply (IH (fun s H => Hb s (or_intror H)) before');
          [assumption | intros s H; apply Hb'; right; exact H].
  - intros Hs Hw. rewrite (proj2 (check_each_ok _ _ _) Hs). cbn [bind].
    rewrite Hw. reflexivity.
  - intros Hs Hw Hz. rewrite (proj2 (check_each_ok _ _ _) Hs). cbn [bind].
    unfold positive in Hw. rewrite Hw, Hz. reflexivity.
Qed.

Lemma line_style_config_reports_first_failure_witness :
  (forall before bad rest,
     ["-"; "solid"; "dotted"] = before ++ bad :: rest ->
     (forall s, In s before -> In s valid_line_styles) ->
     ~ In bad valid_line_styles ->
     LineStyleConfig_new ["o"] ["-"; "solid"; "dotted"] true (NInt 0) (NInt 0)
       = Raise (ValueError (InvalidLineStyle bad))) /\
  ((forall s, In s ["-"; "solid"; "dotted"] -> In s valid_line_styles) ->
   number_le0 (NInt 0) = true ->
   LineStyleConfig_new ["o"] ["-"; "solid"; "dotted"] true (NInt 0) (NInt 0)
     = Raise (ValueError LineWidthNotPositive)) /\
  ((forall s, In s ["-"; "solid"; "dotted"] -> In s valid_line_styles) ->
   positive (NInt 0) ->
   number_le0 (NInt 0) = true ->
   LineStyleConfig_new ["o"] ["-"; "solid"; "dotted"] true (NInt 0) (NInt 0)
     = Raise (ValueError MarkerSizeNotPositive)).
Proof.
  apply (line_style_config_reports_first_failure
           ["o"] ["-"; "solid"; "dotted"] true (NInt 0) (NInt 0)).
  intros m [<- | []]. simpl. auto.
Defined.

(** X3 ([DataSource.__post_init__]).  A data source without a file is
    refused with "Data source 'file' is required", whatever its label; any
    other is constructed, keeps its file, keeps a label that is not
    empty and takes the stem of the file for an empty one; and checking
    the constructed object again changes nothing. *)
Theorem data_source_construction :
  forall (f lab : string),
    (f = "" -> DataSource_new f lab = Raise (ValueError FileRequired)) /\
    (f <> "" ->
     exists s,
       DataSource_new f lab = Ok s /\
       s.(file) = f /\
       (lab <> "" -> s.(label) = lab) /\
       (lab = "" -> s.(label) = stem f) /\
       DataSource_post_init s = Ok s).
Proof.
  intros f lab. unfold DataSource_new, DataSource_post_init.
  cbn [file label]. split.
  - intros ->. reflexivity.
  - intros Hf. apply String.eqb_neq in Hf. rewrite Hf.
    destruct (String.eqb lab "") eqn:El.
    + apply String.eqb_eq in El. subst lab. eexists. split; [reflexivity|].
      cbn [file label]. rewrite Hf.
      split; [reflexivity|]. split; [intros H; contradiction H; reflexivity|].
      split; [reflexivity|].
      destruct (String.eqb (stem f) "") eqn:Es; [|reflexivity].
      apply String.eqb_eq in Es. rewrite Es. reflexivity.
    + eexists. split; [reflexivity|]. cbn [file label]. rewrite Hf, El.
      split; [reflexivity|]. split; [reflexivity|].
      split; [|reflexivity].
      intros ->. discriminate El.
Qed.

(** X4 ([Config.from_dict], the loop over [data.sources]).  An accepted
    mapping loses no data source and gains none: the configuration has
    as many sources as the mapping has entries, in the same order, and
    every entry names a non-empty file, which is the file of the source
    at its position.  One entry without a file makes the whole mapping
    be refused. *)
Theorem from_dict_keeps_every_source :
  forall (m : value) (c : Config),
    from_dict m = Ok c ->
    exists entries,
      resolve m ["data"; "sources"] (VList []) = VList entries /\
      length c.(data).(sources) = length entries /\
      forall i entry,
        nth_error entries i = Some entry ->
        exists s,
          nth_error c.(data).(sources) i = Some s /\
          s.(file) <> "" /\
          resolve entry ["file"] (VStr "") = VStr s.(file).
Proof.
  intros m c H. apply from_dict_Ok in H. destruct H as [_ [Hd _]].
  apply from_dict_data_Ok in Hd. destruct Hd as [l [Hl HF]].
  exists l. split; [exact Hl|]. split.
  - symmetry. apply (Forall2_length HF).
  - intros i entry Hi.
    destruct (Forall2_nth_error_left _ _ _ HF i entry Hi) as [s [Hs Hso]].
    exists s. split; [exact Hs|].
    destruct Hso as [f [lab [Hf [_ [Hne ->]]]]]. cbn [file].
    split; [exact Hne|]. apply as_str_Ok. exact Hf.
Qed.

Lemma from_dict_keeps_every_source_witness :
  exists c,
    from_dict partial_mapping = Ok c /\
    exists entries,
      resolve partial_mapping ["data"; "sources"] (VList []) = VList entries /\
      length c.(data).(sources) = length entries /\
      forall i entry,
        nth_error entries i = Some entry ->
        exists s,
          nth_error c.(data).(sources) i = Some s /\
          s.(file) <> "" /\
          resolve entry ["file"] (VStr "") = VStr s.(file).
Proof.
  eexists. split; [vm_compute; reflexivity|].
  apply (from_dict_keeps_every_source partial_mapping). vm_compute. reflexivity.
Defined.

Lemma OutputConfig_post_init_Ok_iff o :
  OutputConfig_post_init o = Ok o <-> In (lower o.(Config.format)) valid_formats.
Proof.
  unfold OutputConfig_post_init.
  destruct (str_in (lower (Config.format o)) valid_formats) eqn:E; cbn [negb].
  - split; [intros _; apply str_in_In; exact E | reflexivity].
  - split; [discriminate|]. intros H. apply str_in_In in H.
    rewrite H in E. discriminate E.
Qed.

(** X5 ([Config.to_dict] followed by [Config.from_dict]).  The fields of
    the dataclasses can be assigned after construction.  Whatever a
    configuration holds, the mapping it is written to is read back to
    the same configuration exactly when it still holds what construction
    checks: valid markers and line styles, positive sizes, a known
    format, and for every source a file and a label that is empty only
    if the stem of the file is. *)
Theorem to_dict_reads_back_iff_invariants_hold :
  forall c : Config,
    from_dict (to_dict c) = Ok c
    <->
    (forall m, In m c.(graph).(style).(line_style).(markers) ->
               In m valid_markers) /\
    (forall s, In s c.(graph).(style).(line_style).(line_styles) ->
               In s valid_line_styles) /\
    positive c.(graph).(style).(line_style).(line_width) /\
    positive c.(graph).(style).(line_style).(marker_size) /\
    In (lower c.(output).(Config.format)) valid_formats /\
    (forall s, In s c.(data).(sources) ->
               s.(file) <> "" /\ (s.(label) = "" -> stem s.(file) = "")).
Proof.
  intros c. split.
  - intros H. apply from_dict_constructed in H. destruct H as [Hl [Ho Hs]].
    apply LineStyleConfig_post_init_ok in Hl.
    destruct Hl as [_ [Hm [Hls [Hw Hz]]]].
    split; [exact Hm|]. split; [exact Hls|]. split; [exact Hw|].
    split; [exact Hz|]. split; [apply OutputConfig_post_init_Ok_iff; exact Ho|].
    intros s Hin. exact (proj1 (Forall_forall _ _) Hs s Hin).
  - intros [Hm [Hls [Hw [Hz [Hf Hs]]]]]. apply from_dict_to_dict.
    split; [|split].
    + apply LineStyleConfig_post_init_accepts; assumption.
    + apply OutputConfig_post_init_Ok_iff. exact Hf.
    + apply Forall_forall. exact Hs.
Qed.

(** X6 ([Config.from_dict], lines 232-283).  [from_dict] calls [get] on
    what it is given and on what stands under ["graph"]: when either is
    not a mapping (an empty document, or a [graph:] key left empty, both
    of which load as [None]) it raises [AttributeError] and falls back on
    no default. *)
Theorem from_dict_needs_mappings :
  forall (data : value),
    (forall d, data <> VDict d) \/
    (exists entries v,
       data = VDict entries /\ lookup entries "graph" = Some v /\
       forall d, v <> VDict d) ->
    from_dict data = Raise AttributeError.
Proof.
  intros data [H | [entries [v [-> [Hl Hv]]]]].
  - destruct data; try reflexivity. exfalso. apply (H entries). reflexivity.
  - unfold from_dict, from_dict_graph. cbn [get]. rewrite Hl. cbn [bind].
    destruct v; try reflexivity. exfalso. apply (Hv entries0). reflexivity.
Qed.

Lemma from_dict_needs_mappings_witness :
  from_dict (VDict [("graph", VNone); ("data", VDict [])])
    = Raise AttributeError.
Proof.
  apply from_dict_needs_mappings. right.
  exists [("graph", VNone); ("data", VDict [])], VNone.
  split; [reflexivity|]. split; [reflexivity|]. intros d. discriminate.
Defined.

Lemma validate_files_In file_exists srcs : forall k i f,
  In (FileDoesNotExist i f) (validate_files file_exists k srcs)
  <-> exists j s, i = (k + j)%nat /\ nth_error srcs j = Some s /\
                  s.(file) = f /\ file_exists f = false.
Proof.
  induction srcs as [|s srcs IH]; intros k i f; cbn [validate_files].
  - split; [intros [] | intros [j [s [_ [H _]]]]; destruct j; discriminate H].
  - rewrite in_app_iff, IH. split.
    + intros [H | [j [s' [-> [Hn [Hf He]]]]]].
      * destruct (file_exists (file s)) eqn:E; [destruct H|].
        destruct H as [H | []]. inversion H. subst.
        exists 0%nat, s. rewrite Nat.add_0_r. auto.
      * exists (S j), s'. split; [lia|]. auto.
    + intros [[|j] [s' [-> [Hn [Hf He]]]]].
      * cbn in Hn. inversion Hn. subst s'. left. rewrite Hf, He.
        rewrite Nat.add_0_r. left. reflexivity.
      * right. exists j, s'. split; [lia|]. auto.
Qed.

Lemma validate_files_nil file_exists srcs : forall k,
  validate_files file_exists k srcs = [] <->
  forall s, In s srcs -> file_exists s.(file) = true.
Proof.
  induction srcs as [|s srcs IH]; intros k; cbn [validate_files].
  - split; [intros _ s [] | reflexivity].
  - split.
    + intros H. apply app_eq_nil in H. destruct H as [H1 H2].
      intros s' [<- | Hin].
      * destruct (file_exists (file s)); [reflexivity | discriminate H1].
      * apply (proj1 (IH (S k)) H2). exact Hin.
    + intros H. rewrite (H s (or_introl eq_refl)).
      apply (IH (S k)). intros s' Hin. apply H. right. exact Hin.
Qed.

(** X7 ([Config.is_valid]).  A configuration is valid exactly when it
    has a title, has at least one data source, every source names a file
    that exists, and the directory of the save path exists or can be
    created. *)
Theorem is_valid_iff :
  forall (file_exists parent_exists mkdir_parent : string -> bool)
         (c : Config),
    is_valid file_exists parent_exists mkdir_parent c = true
    <->
    c.(graph).(title) <> "" /\
    c.(data).(sources) <> [] /\
    (forall s, In s c.(data).(sources) -> file_exists s.(file) = true) /\
    (parent_exists c.(output).(save_path) = true \/
     mkdir_parent c.(output).(save_path) = true).
Proof.
  intros fe pe mk c. unfold is_valid.
  assert (Hnil : validate fe pe mk c = [] <->
                 c.(graph).(title) <> "" /\
                 c.(data).(sources) <> [] /\
                 (forall s, In s c.(data).(sources) -> fe s.(file) = true) /\
                 (pe c.(output).(save_path) = true \/
                  mk c.(output).(save_path) = true)).
  { unfold validate. split.
    - intros H. apply app_eq_nil in H. destruct H as [H1 H].
      apply app_eq_nil in H. destruct H as [H2 H].
      apply app_eq_nil in H. destruct H as [H3 H4].
      split; [|split; [|split]].
      + intros E. rewrite E in H1. discriminate H1.
      + intros E. rewrite E in H2. discriminate H2.
      + apply (proj1 (validate_files_nil _ _ _) H3).
      + destruct (pe (save_path (output c))); [left; reflexivity|].
        destruct (mk (save_path (output c)));
          [right; reflexivity | discriminate H4].
    - intros [Ht [Hs [Hf Hp]]].
      apply String.eqb_neq in Ht. rewrite Ht.
      rewrite (proj2 (validate_files_nil fe _ 0%nat) Hf).
      destruct (sources (Config.data c)); [contradiction Hs; reflexivity|].
      destruct (pe (save_path (output c))); [reflexivity|].
      destruct Hp as [Hp | Hp]; [discriminate Hp|]. rewrite Hp. reflexivity. }
  destruct (validate fe pe mk c) eqn:E.
  - split; [intros _; apply Hnil; reflexivity | reflexivity].
  - split; [discriminate|]. intros H. apply Hnil in H. discriminate H.
Qed.

(** X8 ([Config.validate], lines 378-380).  Validation does not stop at
    the first missing file: the error of source [i] with file [f] is in
    the list exactly when the [i]-th source has file [f] and that file
    does not exist, whatever else is wrong with the configuration. *)
Theorem validate_reports_every_missing_file :
  forall (file_exists parent_exists mkdir_parent : string -> bool)
         (c : Config) (i : nat) (f : string),
    In (FileDoesNotExist i f)
       (validate file_exists parent_exists mkdir_parent c)
    <->
    exists s, nth_error c.(data).(sources) i = Some s /\
              s.(file) = f /\ file_exists f = false.
Proof.
  intros fe pe mk c i f. unfold validate.
  rewrite !in_app_iff, validate_files_In. split.
  - intros [H | [H | [H | H]]].
    + destruct (String.eqb (title (graph c)) ""); [|destruct H].
      destruct H as [H | []]. discriminate H.
    + destruct (sources (Config.data c)); [|destruct H].
      destruct H as [H | []]. discriminate H.
    + destruct H as [j [s [-> H]]]. exists s. exact H.
    + destruct (pe (save_path (output c))); [destruct H|].
      destruct (mk (save_path (output c))); [destruct H|].
      destruct H as [H | []]. discriminate H.
  - intros [s H]. right. right. left. exists i, s. split; [reflexivity | exact H].
Qed.

(** X23 ([DataConfig.add_source]).  Adding a source succeeds exactly
    when the file is not empty.  It then puts one source after those
    that are there, which it leaves as they are; the label of the new
    source is the one given, or the stem of the file when none or an
    empty one is given. *)
Theorem add_source_appends_one_source :
  forall (dc dc' : DataConfig) (f : string) (lab : option string),
    add_source dc f lab = Ok dc'
    <->
    (f <> "" /\
     dc'.(sources) = dc.(sources) ++ [mkDataSource f (resolved_label f lab)]).
Proof.
  intros dc dc' f lab. split; [apply add_source_Ok|].
  intros [Hf Hs]. unfold add_source, DataSource_new, DataSource_post_init.
  cbn [file label]. apply String.eqb_neq in Hf. rewrite Hf.
  destruct dc' as [srcs']. cbn [sources] in Hs. subst srcs'.
  unfold resolved_label. destruct lab as [l|].
  - destruct (String.eqb l ""); reflexivity.
  - destruct (String.eqb (stem f) "") eqn:Es; [|reflexivity].
    apply String.eqb_eq in Es. cbn [bind]. rewrite Es. reflexivity.
Qed.

(* ===================================================================== *)
(** ** Further properties of [core/data_processor.py]                     *)
(* ===================================================================== *)

(** X9 ([DataProcessor.load_csv]).  [load_csv] never raises.  It returns
    a table exactly when the file parses to at least two columns; the
    table then has the cells of the first two columns, under the names
    [x] and [y] whatever they were called, and nothing is printed.
    Otherwise it returns [None] and prints one line, which names the
    file. *)
Theorem load_csv_returns_first_two_columns :
  forall (read_csv : reader) (file_path : string),
    exists r out,
      load_csv read_csv file_path = (Ok r, out) /\
      (forall df,
         r = Some df <->
         exists c0 xs c1 ys rest,
           read_csv file_path = Parsed ((c0, xs) :: (c1, ys) :: rest) /\
           df = [("x", xs); ("y", ys)]) /\
      (r <> None -> out = []) /\
      (r = None ->
       exists m, out = [m] /\
         In m [FileNotFound file_path; FileEmpty file_path;
               CsvParseError file_path; CsvLoadError file_path]).
Proof.
  intros rd fp. unfold load_csv.
  destruct (rd fp) as [df| | | |] eqn:E.
  - destruct df as [|[c0 xs] [|[c1 ys] rest]].
    + eexists. eexists. split; [reflexivity|]. split; [|split].
      * intros df. split; [discriminate|].
        intros [? [? [? [? [? [H _]]]]]]. discriminate H.
      * intros H. contradiction H. reflexivity.
      * intros _. eexists. split; [reflexivity|]. simpl. auto.
    + eexists. eexists. split; [reflexivity|]. split; [|split].
      * intros df. split; [discriminate|].
        intros [? [? [? [? [? [H _]]]]]]. discriminate H.
      * intros H. contradiction H. reflexivity.
      * intros _. eexists. split; [reflexivity|]. simpl. auto.
    + eexists. eexists. split; [reflexivity|]. split; [|split].
      * intros df. split.
        -- intros H. inversion H. exists c0, xs, c1, ys, rest. auto.
        -- intros [? [? [? [? [? [H ->]]]]]]. inversion H. reflexivity.
      * reflexivity.
      * discriminate.
  - eexists. eexists. split; [reflexivity|]. split; [|split].
    + intros df. split; [discriminate|].
      intros [? [? [? [? [? [H _]]]]]]. discriminate H.
    + intros H. contradiction H. reflexivity.
    + intros _. eexists. split; [reflexivity|]. simpl. auto.
  - eexists. eexists. split; [reflexivity|]. split; [|split].
    + intros df. split; [discriminate|].
      intros [? [? [? [? [? [H _]]]]]]. discriminate H.
    + intros H. contradiction H. reflexivity.
    + intros _. eexists. split; [reflexivity|]. simpl. auto.
  - eexists. eexists. split; [reflexivity|]. split; [|split].
    + intros df. split; [discriminate|].
      intros [? [? [? [? [? [H _]]]]]]. discriminate H.
    + intros H. contradiction H. reflexivity.
    + intros _. eexists. split; [reflexivity|]. simpl. auto.
  - eexists. eexists. split; [reflexivity|]. split; [|split].
    + intros df. split; [discriminate|].
      intros [? [? [? [? [? [H _]]]]]]. discriminate H.
    + intros H. contradiction H. reflexivity.
    + intros _. eexists. split; [reflexivity|]. simpl. auto.
Qed.

Lemma load_csv_Ok read_csv file_path :
  exists o out,
    load_csv read_csv file_path = (Ok o, out) /\ (o <> None -> out = []).
Proof.
  unfold load_csv.
  destruct (read_csv file_path) as [[|[c0 xs] [|[c1 ys] rest]]| | | |];
    eexists; eexists; (split; [reflexivity|]); intros H;
    try reflexivity; contradiction H; reflexivity.
Qed.

Lemma io_bind_silent {A B : Type} (a : A) (k : A -> io B) :
  io_bind (Ok a, []) k = k a.
Proof. unfold io_bind. destruct (k a). reflexivity. Qed.

Lemma load_source_without_file read_csv d e :
  names_file e = false ->
  load_source read_csv d (source_dict e) = (Ok d, []).
Proof.
  unfold names_file. destruct e as [[f|] [l|]]; cbn [entry_file];
    intros H; try reflexivity.
  - apply negb_false_iff in H. apply String.eqb_eq in H. subst f. reflexivity.
  - apply negb_false_iff in H. apply String.eqb_eq in H. subst f. reflexivity.
Qed.

(** X10 ([DataProcessor.load_multiple_csvs], line 80).  A source without
    a ["file"], or with an empty one, is passed over without a word:
    taking such sources out of the list changes neither the tables that
    are returned nor what is printed. *)
Theorem sources_without_file_are_passed_over :
  forall (read_csv : reader) (srcs : list SourceEntry),
    load_multiple_csvs read_csv (map source_dict srcs)
    = load_multiple_csvs read_csv (map source_dict (filter names_file srcs)).
Proof.
  intros rd srcs. unfold load_multiple_csvs. generalize (@nil (string * DataFrame)).
  induction srcs as [|e srcs IH]; intros d; [reflexivity|].
  cbn [map filter load_sources].
  destruct (names_file e) eqn:E.
  - cbn [map load_sources].
    destruct (load_source rd d (source_dict e)) as [[d'|ex] out];
      [|reflexivity].
    unfold io_bind. rewrite IH. reflexivity.
  - rewrite (load_source_without_file rd d e E), io_bind_silent. apply IH.
Qed.

(** X11 ([DataProcessor.process_data] and [load_multiple_csvs]).  For a
    source that names a file, processing the source alone and loading it
    as a batch of one agree: the first returns the table of the file and
    the second stores that table under the label of the source (under
    the file name when it has none), or both return nothing.  The label
    plays no part in the first; the second prints one more line, the
    warning that the file failed to load. *)
Theorem single_source_and_batch_of_one_agree :
  forall (read_csv : reader) (e : SourceEntry) (f : string),
    e.(entry_file) = Some f ->
    f <> "" ->
    exists out,
      load_csv read_csv f = (Ok (table_of read_csv f), out) /\
      process_data read_csv (VStr f)
        = (Ok (one_table (table_of read_csv f)), out) /\
      process_data read_csv (source_dict e)
        = (Ok (one_table (table_of read_csv f)), out) /\
      load_multiple_csvs read_csv [source_dict e]
        = match table_of read_csv f with
          | Some df => (Ok [(batch_label e f, df)], out)
          | None => (Ok [], out ++ [FailedToLoad f])
          end.
Proof.
  intros rd [ef el] f Hf Hne. cbn [entry_file] in Hf. subst ef.
  apply String.eqb_neq in Hne.
  destruct (load_csv_Ok rd f) as [o [out [Hl Hout]]].
  exists out.
  assert (Ht : table_of rd f = o).
  { unfold table_of. rewrite Hl. destruct o; reflexivity. }
  rewrite Ht. split; [exact Hl|].
  unfold load_multiple_csvs, process_data, source_dict, batch_label,
    load_source.
  cbn [entry_file entry_label load_sources].
  split; [|split].
  - unfold io_bind, ret. rewrite Hl, app_nil_r. reflexivity.
  - cbn -[load_csv]. unfold io_bind, lift, ret. rewrite Hl, app_nil_r.
    reflexivity.
  - destruct el as [l|]; cbn -[load_csv String.eqb];
      unfold io_bind, lift, ret, print;
      cbn -[load_csv String.eqb];
      change ("file" =? "file") with true;
      change ("file" =? "label") with false;
      try change ("label" =? "label") with true;
      cbn -[load_csv String.eqb]; rewrite Hne, Hl;
      destruct o as [df|]; cbn [as_str app]; rewrite ?app_nil_r;
      try reflexivity;
      rewrite (Hout ltac:(discriminate)); reflexivity.
Qed.

Lemma single_source_and_batch_of_one_agree_witness :
  exists out,
    load_csv scenario_reader "b.csv"
      = (Ok (table_of scenario_reader "b.csv"), out) /\
    process_data scenario_reader (VStr "b.csv")
      = (Ok (one_table (table_of scenario_reader "b.csv")), out) /\
    process_data scenario_reader
        (source_dict (mkSourceEntry (Some "b.csv") (Some "second")))
      = (Ok (one_table (table_of scenario_reader "b.csv")), out) /\
    load_multiple_csvs scenario_reader
        [source_dict (mkSourceEntry (Some "b.csv") (Some "second"))]
      = match table_of scenario_reader "b.csv" with
        | Some df =>
            (Ok [(batch_label (mkSourceEntry (Some "b.csv") (Some "second"))
                    "b.csv", df)], out)
        | None => (Ok [], out ++ [FailedToLoad "b.csv"])
        end.
Proof.
  apply (single_source_and_batch_of_one_agree scenario_reader
           (mkSourceEntry (Some "b.csv") (Some "second")) "b.csv");
    [reflexivity | discriminate].
Defined.

Lemma validate_source_nil file_exists i source :
  validate_source file_exists i source = Ok [] <->
  exists entries f,
    source = VDict entries /\
    lookup entries "file" = Some (VStr f) /\
    lookup entries "label" <> None /\
    file_exists f = true.
Proof.
  split.
  - destruct source; try discriminate. cbn [validate_source].
    destruct (lookup entries "file") as [file_v|] eqn:Ef; [|discriminate].
    destruct file_v; try discriminate. cbn [as_str bind].
    intros H. inversion H as [H']. apply app_eq_nil in H'.
    destruct H' as [Hl Hf]. exists entries, s.
    split; [reflexivity|]. split; [exact Ef|]. split.
    + destruct (lookup entries "label"); [discriminate | discriminate Hl].
    + destruct (file_exists s); [reflexivity | discriminate Hf].
  - intros [entries [f [-> [Hf [Hl He]]]]]. cbn [validate_source].
    rewrite Hf. cbn [as_str bind]. rewrite He.
    destruct (lookup entries "label"); [reflexivity | contradiction Hl].
    reflexivity.
Qed.

(** X12 ([DataProcessor.validate_sources]).  A list of sources is
    reported free of errors exactly when each of them is a dictionary
    that has a ["file"] and a ["label"] and whose file exists. *)
Theorem validate_sources_accepts_iff :
  forall (file_exists : string -> bool) (sources : list value),
    validate_sources file_exists sources = Ok []
    <->
    forall source, In source sources ->
      exists entries f,
        source = VDict entries /\
        lookup entries "file" = Some (VStr f) /\
        lookup entries "label" <> None /\
        file_exists f = true.
Proof.
  intros fe srcs. unfold validate_sources. generalize 0%nat.
  induction srcs as [|s srcs IH]; intros i; cbn [validate_sources_from].
  - split; [intros _ s [] | reflexivity].
  - split.
    + intros H. bind_inv H. bind_inv H. inversion H as [H'].
      apply app_eq_nil in H'. destruct H' as [-> ->].
      intros source [<- | Hin].
      * apply (validate_source_nil fe i). exact E.
      * apply (proj1 (IH (S i)) E0). exact Hin.
    + intros H.
      rewrite (proj2 (validate_source_nil fe i s) (H s (or_introl eq_refl))).
      cbn [bind].
      rewrite (proj2 (IH (S i)) (fun x Hx => H x (or_intror Hx))).
      reflexivity.
Qed.

(* ===================================================================== *)
(** ** Further properties of [core/graph_builder.py]                      *)
(* ===================================================================== *)

Lemma set_up_cycle_other graph_type so ax :
  String.eqb graph_type "line" = false ->
  set_up_cycle graph_type so ax = Ok ax.
Proof.
  intros H. unfold set_up_cycle. destruct so as [sc|]; [|reflexivity].
  rewrite H, andb_false_r. reflexivity.
Qed.

Lemma plot_source_drawn graph_type so i s ax x y label :
  drawn s = Some (x, y, label) ->
  plot_source graph_type so i s ax
  = if String.eqb graph_type "line"
    then lift (plot_line so i ax x y label)
    else if String.eqb graph_type "bar"
    then ret (bar ax x y label)
    else if String.eqb graph_type "scatter"
    then lift (plot_scatter so i ax x y label)
    else ret ax.
Proof.
  unfold drawn, plot_source.
  destruct (src_dataframe s) as [[df|]|]; try discriminate.
  destruct (src_label s) as [l|]; try discriminate.
  destruct (empty df); try discriminate.
  destruct df as [|[c0 x0] [|[c1 y0] rest]]; try discriminate.
  intros H. inversion H. reflexivity.
Qed.

Section Uniform.

Variable graph_type : string.
Variable so : option StyleConfig.
Variable draw : nat -> series -> series -> string -> Artist.

Hypothesis Hstep : forall i s ax x y label,
  drawn s = Some (x, y, label) ->
  ax.(prop_cycle) = None ->
  exists ax',
    plot_source graph_type so i s ax = (Ok ax', []) /\
    ax'.(prop_cycle) = None /\
    ax'.(artists) = ax.(artists) ++ [draw i x y label].

Lemma plot_sources_uniform srcs : forall i ax,
  ax.(prop_cycle) = None ->
  (forall s, In s srcs -> single_column s = false) ->
  exists ax' out,
    plot_sources graph_type so i srcs ax = (Ok ax', out) /\
    ax'.(prop_cycle) = None /\
    ax'.(artists) = ax.(artists) ++ artists_from draw i srcs.
Proof.
  induction srcs as [|s srcs IH]; intros i ax Hc Hsingle.
  - exists ax, []. cbn [plot_sources artists_from]. rewrite app_nil_r.
    split; [reflexivity|]. split; [exact Hc | reflexivity].
  - cbn [plot_sources artists_from].
    assert (H1 : exists ax1 out1,
              plot_source graph_type so i s ax = (Ok ax1, out1) /\
              ax1.(prop_cycle) = None /\
              ax1.(artists) = ax.(artists) ++
                match drawn s with
                | Some (x, y, label) => [draw i x y label]
                | None => []
                end).
    { destruct (drawn s) as [[[x y] label]|] eqn:Ed.
      - destruct (Hstep i s ax x y label Ed Hc) as [ax1 [E1 [Hc1 Ha1]]].
        exists ax1, []. auto.
      - destruct (plot_source_skips graph_type so i s ax Ed
                    (Hsingle s (or_introl eq_refl))) as [out1 E1].
        exists ax, out1. rewrite app_nil_r. auto. }
    destruct H1 as [ax1 [out1 [E1 [Hc1 Ha1]]]].
    destruct (IH (S i) ax1 Hc1 (fun x Hx => Hsingle x (or_intror Hx)))
      as [ax' [out' [E' [Hc' Ha']]]].
    exists ax', (out1 ++ out').
    split; [apply (io_bind_Ok _ _ ax1 out1 (Ok ax') out' E1 E')|].
    split; [exact Hc'|]. rewrite Ha', Ha1, <- app_assoc. reflexivity.
Qed.

End Uniform.



Lemma scatter_marker_is (ms : list string) (i : nat) :
  (if nonempty ms then index_mod ms i else Ok "o")
  = Ok (scatter_marker_of ms i).
Proof.
  unfold scatter_marker_of, manual_marker_of.
  destruct ms as [|m ms]; [reflexivity|]. cbn [nonempty].
  destruct (index_mod_nonempty (m :: ms) i ltac:(discriminate))
    as [x [Hx [Hn _]]].
  rewrite Hx, Hn. reflexivity.
Qed.





Lemma sets_linestyle_cycler (ls : list string) :
  sets_linestyle (cycler_linestyle ls).
Proof.
  intros item Hin. unfold cycler_linestyle in Hin. apply in_map_iff in Hin.
  destruct Hin as [l [<- _]]. discriminate.
Qed.



Lemma plot_sources_unstyled_single_column graph_type srcs : forall i ax,
  In graph_type supported_types ->
  ax.(prop_cycle) = None ->
  (exists s, In s srcs /\ single_column s = true) ->
  exists out, plot_sources graph_type None i srcs ax = (Raise IndexError, out).
Proof.
  induction srcs as [|s0 srcs IH]; intros i ax Ht Hc [s [Hin Hs]];
    [destruct Hin|].
  cbn [plot_sources].
  destruct (single_column s0) eqn:E0.
  - rewrite (plot_source_single_column _ _ _ _ _ E0). exists []. reflexivity.
  - destruct (plot_source_unstyled graph_type i s0 ax Ht Hc E0)
      as [ax' [out [E [Hc' _]]]].
    destruct Hin as [<- | Hin]; [rewrite Hs in E0; discriminate E0|].
    destruct (IH (S i) ax' Ht Hc' (ex_intro _ s (conj Hin Hs))) as [out' E'].
    exists (out ++ out'). rewrite E. unfold io_bind. rewrite E'. reflexivity.
Qed.



Lemma io_bind_Forall {A B : Type} (P : message -> Prop) (c : io A)
    (k : A -> io B) :
  Forall P (snd c) -> (forall a, Forall P (snd (k a))) ->
  Forall P (snd (io_bind c k)).
Proof.
  intros Hc Hk. destruct c as [[a|e] out]; cbn [io_bind snd] in *.
  - specialize (Hk a). destruct (k a) as [r out']. cbn [snd] in *.
    apply Forall_app. split; assumption.
  - exact Hc.
Qed.

Lemma plot_source_skip_lines graph_type so i s ax :
  Forall skip_line (snd (plot_source graph_type so i s ax)).
Proof.
  unfold plot_source.
  destruct (src_dataframe s) as [[df|]|]; destruct (src_label s) as [l|];
    try (cbn; repeat constructor).
  destruct (empty df); [cbn; repeat constructor|].
  destruct df as [|[c0 x0] [|[c1 y0] rest]]; try (cbn; constructor).
  destruct (String.eqb graph_type "line"); [cbn; constructor|].
  destruct (String.eqb graph_type "bar"); [cbn; constructor|].
  destruct (String.eqb graph_type "scatter"); cbn; constructor.
Qed.

Lemma plot_sources_skip_lines graph_type so srcs : forall i ax,
  Forall skip_line (snd (plot_sources graph_type so i srcs ax)).
Proof.
  induction srcs as [|s srcs IH]; intros i ax; cbn [plot_sources].
  - constructor.
  - apply io_bind_Forall; [apply plot_source_skip_lines|].
    intros ax'. apply IH.
Qed.

Lemma create_graph_try_skip_lines srcs graph_type title xl yl style_config :
  Forall skip_line
    (snd (create_graph_try srcs graph_type title xl yl style_config)).
Proof.
  unfold create_graph_try.
  apply io_bind_Forall; [constructor|]. intros so.
  apply io_bind_Forall; [constructor|]. intros ax0.
  apply io_bind_Forall; [constructor|]. intros ax1.
  apply io_bind_Forall; [apply plot_sources_skip_lines|]. intros ax'.
  apply io_bind_Forall; [constructor|]. intros u.
  constructor.
Qed.

(** X18 ([GraphBuilder.create_graph]).  What [create_graph] prints
    tells what it returns.  When it returns a figure it has printed
    nothing but the warnings of the sources it passed over.  When it
    returns [None] the last line printed is the one error that made it
    stop: the unsupported type (exactly when [validate_graph_type]
    refuses the type), else the empty list of sources, else the
    exception caught while drawing, after the warnings printed until
    then. *)
Theorem create_graph_explains_every_failure :
  forall (srcs : list PlotSource) (graph_type title x_label y_label : string)
         (style_config : option style_arg),
    exists warnings,
      Forall skip_line warnings /\
      match fst (create_graph srcs graph_type title x_label y_label
                   style_config) with
      | Some _ =>
          snd (create_graph srcs graph_type title x_label y_label style_config)
            = warnings /\
          validate_graph_type graph_type = true /\ srcs <> []
      | None =>
          exists m,
            snd (create_graph srcs graph_type title x_label y_label
                   style_config) = warnings ++ [m] /\
            ((m = UnsupportedGraphType graph_type /\ warnings = [] /\
              validate_graph_type graph_type = false) \/
             (m = NoDataSourcesProvided /\ warnings = [] /\
              validate_graph_type graph_type = true /\ srcs = []) \/
             (exists e, m = ErrorCreatingGraph e /\
                        validate_graph_type graph_type = true /\ srcs <> []))
      end.
Proof.
  intros srcs gt title xl yl style. unfold create_graph, validate_graph_type.
  destruct (str_in gt supported_types) eqn:Ht; cbn [negb].
  - destruct srcs as [|s0 srcs].
    + exists []. split; [constructor|]. cbn [fst snd].
      eexists. split; [reflexivity|]. right. left. auto.
    + pose proof (create_graph_try_skip_lines (s0 :: srcs) gt title xl yl
                    style) as Hlog.
      destruct (create_graph_try (s0 :: srcs) gt title xl yl style)
        as [[fig|e] out]; cbn [fst snd] in *; exists out;
        (split; [exact Hlog|]).
      * split; [reflexivity|]. split; [reflexivity | discriminate].
      * eexists. split; [reflexivity|]. right. right. exists e.
        split; [reflexivity|]. split; [reflexivity | discriminate].
  - exists []. split; [constructor|]. cbn [fst snd].
    eexists. split; [reflexivity|]. left. auto.
Qed.

Lemma create_graph_style_value srcs graph_type title xl yl v :
  truthy v = true ->
  fst (create_graph srcs graph_type title xl yl (Some (StyleValue v))) = None.
Proof.
  intros Hv. unfold create_graph.
  destruct (negb (str_in graph_type supported_types)); [reflexivity|].
  destruct srcs as [|s srcs]; [reflexivity|].
  unfold create_graph_try, style_object. rewrite Hv. reflexivity.
Qed.

(** X19 ([GraphBuilder.create_graph_from_config], lines 266 and 284-286).
    The style is handed to [create_graph] as the mapping found under
    [graph.style], not as a [StyleConfig].  Whenever that mapping is
    not empty, reading its [width] attribute fails inside [create_graph]:
    whatever the sources and the chart type, no figure comes back. *)
Theorem style_mapping_never_gives_figure :
  forall (read_csv : reader) (config : value),
    truthy (resolve config ["graph"; "style"] (VDict [])) = true ->
    fst (create_graph_from_config read_csv config) = Ok None \/
    exists e, fst (create_graph_from_config read_csv config) = Raise e.
Proof.
  intros rd config Hv.
  assert (H : forall fig,
            fst (create_graph_from_config rd config) <> Ok (Some fig)).
  { intros fig. destruct config; try discriminate.
    unfold create_graph_from_config.
    destruct (config_arguments (VDict entries))
      as [[[[[[gt title] xl] yl] sv] sources]|e] eqn:Ea; [|discriminate].
    assert (Hsv : sv = resolve (VDict entries) ["graph"; "style"] (VDict [])).
    { unfold config_arguments in Ea.
      bind_inv Ea. bind_inv Ea. bind_inv Ea. bind_inv Ea. bind_inv Ea.
      bind_inv Ea. bind_inv Ea. bind_inv Ea. bind_inv Ea. bind_inv Ea.
      inversion Ea. subst.
      apply (get_path_resolve ["graph"; "style"]); [discriminate|].
      cbn [get_path]. rewrite E. cbn [bind]. assumption. }
    rewrite <- Hsv in Hv.
    unfold lift at 1. unfold io_bind at 1.
    destruct (negb (truthy sources)); [discriminate|].
    destruct (as_list sources) as [l|e]; unfold lift at 1; unfold io_bind at 1;
      [|discriminate].
    destruct (load_multiple_csvs rd l) as [[d|e] out]; unfold io_bind at 1;
      [|discriminate].
    destruct d as [|p d]; [discriminate|].
    unfold create_graph_from_dataframes.
    pose proof (create_graph_style_value (data_sources_of (p :: d)) gt title
                  xl yl sv Hv) as Hnone.
    destruct (create_graph (data_sources_of (p :: d)) gt title xl yl
                (Some (StyleValue sv))) as [r out'].
    cbn [fst] in *. subst r. discriminate. }
  destruct (fst (create_graph_from_config rd config)) as [[fig|]|e].
  - exfalso. apply (H fig). reflexivity.
  - left. reflexivity.
  - right. exists e. reflexivity.
Qed.

Lemma style_mapping_never_gives_figure_witness :
  fst (create_graph_from_config scenario_reader
         (VDict [("graph", VDict [("style", VDict [("width", VInt 10)])]);
                 ("data", VDict [("sources",
                    VList (map source_dict scenario_batch))])]))
    = Ok None \/
  exists e,
    fst (create_graph_from_config scenario_reader
           (VDict [("graph", VDict [("style", VDict [("width", VInt 10)])]);
                   ("data", VDict [("sources",
                      VList (map source_dict scenario_batch))])]))
      = Raise e.
Proof.
  apply (style_mapping_never_gives_figure scenario_reader). reflexivity.
Defined.

(** X20 ([GraphBuilder.create_graph], lines 137-144).  The manual
    selection is periodic in each sequence separately: moving the index
    of a source by a multiple of the number of markers does not change
    its marker, and moving it by a multiple of the number of line styles
    does not change its line style. *)
Theorem manual_selection_is_periodic :
  forall (sc : StyleConfig) (i k : nat),
    manual_marker (Some sc)
      (i + k * length sc.(line_style).(markers))
      = manual_marker (Some sc) i /\
    manual_linestyle (Some sc)
      (i + k * length sc.(line_style).(line_styles))
      = manual_linestyle (Some sc) i.
Proof.
  intros sc i k. rewrite !manual_marker_is, !manual_linestyle_is.
  unfold manual_marker_of, manual_linestyle_of. split.
  - destruct (markers (line_style sc)) as [|m ms]; [reflexivity|].
    rewrite Nat.Div0.mod_add. reflexivity.
  - destruct (line_styles (line_style sc)) as [|l ls]; [reflexivity|].
    rewrite Nat.Div0.mod_add. reflexivity.
Qed.

(* ===================================================================== *)
(** ** Properties of [utils/yaml_parser.py]                               *)
(* ===================================================================== *)

Lemma traverse_lookup_path ks : forall v,
  traverse v ks = lookup_path v (keys ks).
Proof.
  induction ks as [|k ks IH]; intros v; [reflexivity|].
  cbn [traverse keys map lookup_path]. unfold getitem.
  destruct v; try reflexivity.
  destruct (lookup entries k); [apply IH | reflexivity].
Qed.

Lemma split_on_no_dot k :
  has_dot k = false -> split_on "."%char k = [k].
Proof.
  induction k as [|c k IH]; [reflexivity|].
  cbn [has_dot split_on]. intros H. apply orb_false_iff in H.
  destruct H as [Hc Hk]. rewrite Hc, (IH Hk). reflexivity.
Qed.

Lemma split_on_dot_app k rest :
  has_dot k = false ->
  split_on "."%char (k ++ "." ++ rest) = k :: split_on "."%char rest.
Proof.
  induction k as [|c k IH]; intros H.
  - reflexivity.
  - cbn [has_dot] in H. apply orb_false_iff in H. destruct H as [Hc Hk].
    change ((String c k ++ "." ++ rest)%string)
      with (String c (k ++ "." ++ rest)%string).
    cbn [split_on]. rewrite Hc, (IH Hk). reflexivity.
Qed.

Lemma split_on_join_dots ks :
  ks <> [] ->
  (forall k, In k ks -> has_dot k = false) ->
  split_on "."%char (join_dots ks) = ks.
Proof.
  induction ks as [|k ks IH]; intros Hne Hd; [contradiction Hne; reflexivity|].
  destruct ks as [|k' ks].
  - cbn [join_dots]. apply split_on_no_dot. apply Hd. left. reflexivity.
  - change (join_dots (k :: k' :: ks))
      with ((k ++ "." ++ join_dots (k' :: ks))%string).
    rewrite split_on_dot_app; [|apply Hd; left; reflexivity].
    rewrite IH; [reflexivity | discriminate |].
    intros x Hx. apply Hd. right. exact Hx.
Qed.

Lemma get_path_Raise ks : forall v d e,
  ks <> [] -> get_path v ks d = Raise e -> traverse v ks = None.
Proof.
  induction ks as [|k ks IH]; intros v d e Hne H;
    [contradiction Hne; reflexivity|].
  destruct ks as [|k' ks].
  - cbn [get_path] in H. cbn [traverse]. unfold get in H. unfold getitem.
    destruct v; try reflexivity.
    destruct (lookup entries k); discriminate H.
  - change (get_path v (k :: k' :: ks) d)
      with (bind (get v k (VDict [])) (fun v' => get_path v' (k' :: ks) d))
      in H.
    cbn [traverse]. unfold get in H. unfold getitem.
    destruct v; try reflexivity.
    destruct (lookup entries k) as [w|]; [|reflexivity].
    cbn [bind] in H. apply (IH w d e); [discriminate | exact H].
Qed.

(** X21 ([YAMLParser.get_value] and the chains of [get] of
    [Config.from_dict]).  For keys without a dot, reading the dotted
    path [k1.k2...kn] with [get_value] gives what the chain
    [.get(k1, {}).get(k2, {})....get(kn, default)] gives whenever the
    chain gives something; where the chain raises because a value on the
    way is not a mapping, [get_value] returns the default. *)
Theorem get_value_agrees_with_get_chain :
  forall (v : value) (ks : list string) (default : value),
    ks <> [] ->
    (forall k, In k ks -> has_dot k = false) ->
    get_value (Some v) (join_dots ks) default
      = match get_path v ks default with
        | Ok x => x
        | Raise _ => default
        end.
Proof.
  intros v ks d Hne Hd. unfold get_value.
  rewrite (split_on_join_dots ks Hne Hd).
  destruct (get_path v ks d) as [x|e] eqn:E.
  - rewrite (get_path_resolve ks v d x Hne E). unfold resolve.
    rewrite traverse_lookup_path. reflexivity.
  - rewrite (get_path_Raise ks v d e Hne E). reflexivity.
Qed.

Lemma get_value_agrees_with_get_chain_witness :
  get_value (Some partial_mapping)
    (join_dots ["graph"; "style"; "line_style"; "line_width"]) (VFloat 2)
    = match get_path partial_mapping
              ["graph"; "style"; "line_style"; "line_width"] (VFloat 2) with
      | Ok x => x
      | Raise _ => VFloat 2
      end.
Proof.
  apply (get_value_agrees_with_get_chain partial_mapping
           ["graph"; "style"; "line_style"; "line_width"] (VFloat 2)).
  - discriminate.
  - intros k Hk. simpl in Hk.
    destruct Hk as [<- | [<- | [<- | [<- | []]]]]; reflexivity.
Defined.

(** X22 ([YAMLParser.validate_schema]).  The schema is fulfilled exactly
    when data has been loaded and every required path leads, through
    mappings only, to a value that is not [None]: a key that is present
    with an empty value counts as missing, and nothing fulfils a schema
    before data is loaded, not even the empty list of keys. *)
Theorem validate_schema_iff :
  forall (data : option value) (required_keys : list string),
    validate_schema data required_keys = true
    <->
    exists d,
      data = Some d /\
      forall key_path, In key_path required_keys ->
        exists x,
          lookup_path d (keys (split_on "."%char key_path)) = Some x /\
          x <> VNone.
Proof.
  intros data rk. unfold validate_schema. destruct data as [d|].
  - rewrite forallb_forall. split.
    + intros H. exists d. split; [reflexivity|]. intros kp Hin.
      specialize (H kp Hin). unfold get_value in H.
      rewrite traverse_lookup_path in H.
      destruct (lookup_path d (keys (split_on "."%char kp))) as [x|];
        [|discriminate H].
      exists x. split; [reflexivity|]. intros ->. discriminate H.
    + intros [d' [Hd H]] kp Hin. inversion Hd. subst d'.
      destruct (H kp Hin) as [x [Hx Hn]]. unfold get_value.
      rewrite traverse_lookup_path, Hx.
      destruct x; try reflexivity. contradiction Hn. reflexivity.
  - split; [discriminate|]. intros [d [H _]]. discriminate H.
Qed.
